(** * Cost reporting in cedar: a shallow embedding and its verification

    The development follows the layout of the Go packages it embeds:

    - [Errors]     the error values of [github.com/pkg/errors] and grip's catcher;
    - [GoTime]     the parts of Go's [time] package the code calls;
    - [Evergreen]  [evergreen/distros.go]: the distro registry client and the
                   bounded-concurrency cost fetcher;
    - [Model]      [model/cost_report.go] and [model/config.go]: the report
                   document, its persistence and the application configuration;
    - [Operations] [operations/cost.go]: the scheduler's job identity, the
                   on-demand export and the commands that load and dump the
                   application configuration.

    Definitions come first; the statements about them follow. *)

From Stdlib Require Import ZArith String Ascii List Lia Permutation PrimFloat.
From stdpp Require Import gmap strings list.

(* ===================================================================== *)
(** ** Errors *)
(* ===================================================================== *)

Module Errors.

(** Go's [error] values as the code builds them.  [Wrapped] is what
    [errors.Wrap]/[errors.Wrapf] return, [Stacked] what [errors.WithStack]
    returns, [ErrNotFound] the store's sentinel that [db.ResultsNotFound]
    recognises.  A Go [error] that may be [nil] is an [option error]. *)
Inductive error : Type :=
| ErrNotFound
| New (msg : string)
| Wrapped (cause : error) (msg : string)
| Stacked (cause : error).

(** [errors.Wrap]: nil stays nil. *)
Definition Wrap (err : option error) (msg : string) : option error :=
  match err with
  | None => None
  | Some e => Some (Wrapped e msg)
  end.

(** [errors.WithStack]: nil stays nil. *)
Definition WithStack (err : option error) : option error :=
  match err with
  | None => None
  | Some e => Some (Stacked e)
  end.

(** [err.Error()]. *)
Fixpoint Error (e : error) : string :=
  match e with
  | ErrNotFound => "not found"
  | New msg => msg
  | Wrapped c msg => msg +:+ ": " +:+ Error c
  | Stacked c => Error c
  end.

(** [errors.Cause]: the innermost error of a chain of wrappers. *)
Fixpoint Cause (e : error) : error :=
  match e with
  | Wrapped c _ => Cause c
  | Stacked c => Cause c
  | _ => e
  end.

(** [db.ResultsNotFound]. *)
Definition ResultsNotFound (err : option error) : bool :=
  match err with
  | None => false
  | Some e => match Cause e with ErrNotFound => true | _ => false end
  end.

(** grip's catcher: the non-nil errors added so far, oldest first. *)
Definition Catcher := list error.

Definition NewCatcher : Catcher := [].

Definition Add (c : Catcher) (err : option error) : Catcher :=
  match err with
  | None => c
  | Some e => c ++ [e]
  end.

Definition HasErrors (c : Catcher) : bool :=
  match c with [] => false | _ :: _ => true end.

Fixpoint joinLines (l : list string) : string :=
  match l with
  | [] => ""
  | [s] => s
  | s :: rest => s +:+ String "010" (joinLines rest)
  end.

(** [catcher.Resolve()]: nil without errors, else one error whose message
    lists every collected one. *)
Definition Resolve (c : Catcher) : option error :=
  if HasErrors c then Some (New (joinLines (map Error c))) else None.

(** Results of calls that return [(value, error)] with exactly one of the
    two set. *)
Inductive result (A : Type) : Type :=
| Ok (a : A)
| Err (e : error).
Arguments Ok {A} a.
Arguments Err {A} e.

End Errors.

(* ===================================================================== *)
(** ** Go's [time] package, as far as the code uses it *)
(* ===================================================================== *)

Module GoTime.
Local Open Scope Z_scope.

(** [time.Duration]: a count of nanoseconds. *)
Definition Duration := Z.
Definition Nanosecond : Duration := 1.
Definition Microsecond : Duration := 1000 * Nanosecond.
Definition Millisecond : Duration := 1000 * Microsecond.
Definition Second : Duration := 1000 * Millisecond.
Definition Minute : Duration := 60 * Second.
Definition Hour : Duration := 60 * Minute.

Definition digit (d : Z) : ascii := ascii_of_nat (48 + Z.to_nat d).

Fixpoint fmtIntLoop (fuel : nat) (v : Z) (acc : string) : string :=
  match fuel with
  | O => acc
  | S k =>
      let acc' := String (digit (v mod 10)) acc in
      if v / 10 =? 0 then acc' else fmtIntLoop k (v / 10) acc'
  end.

(** [fmtInt]: the decimal digits of [v >= 0] put in front of [acc]
    (64-bit values have at most 20 digits). *)
Definition fmtInt (v : Z) (acc : string) : string :=
  if v =? 0 then String "0" acc else fmtIntLoop 20 v acc.

Fixpoint fmtFracLoop (prec : nat) (v : Z) (print : bool) (acc : string)
  : string * Z * bool :=
  match prec with
  | O => (acc, v, print)
  | S k =>
      let d := v mod 10 in
      let print' := print || negb (d =? 0) in
      fmtFracLoop k (v / 10) print' (if print' then String (digit d) acc else acc)
  end.

(** [fmtFrac]: the fraction of [v / 10^prec] without trailing zeros (and
    without the point when it is zero) in front of [acc]; also returns
    [v / 10^prec]. *)
Definition fmtFrac (v : Z) (prec : nat) (acc : string) : string * Z :=
  let '(acc', v', print) := fmtFracLoop prec v false acc in
  (if print then String "." acc' else acc', v').

(** [Duration.String]. *)
Definition Duration_String (d : Duration) : string :=
  let u := Z.abs d in
  let body :=
    if u <? Second then
      if u =? 0 then "0s"%string
      else if u <? Microsecond then
        let '(s, v) := fmtFrac u 0 "ns" in fmtInt v s
      else if u <? Millisecond then
        let '(s, v) :=
          fmtFrac u 3 (String (ascii_of_nat 194) (String (ascii_of_nat 181) "s")) in
        fmtInt v s
      else
        let '(s, v) := fmtFrac u 6 "ms" in fmtInt v s
    else
      let '(s1, u1) := fmtFrac u 9 "s" in
      let s2 := fmtInt (u1 mod 60) s1 in
      let u2 := u1 / 60 in
      if 0 <? u2 then
        let s3 := fmtInt (u2 mod 60) (String "m" s2) in
        let u3 := u2 / 60 in
        if 0 <? u3 then fmtInt u3 (String "h" s3) else s3
      else s2
  in
  if d <? 0 then String "-" body else body.

(** One period of a time zone: abbreviation, offset east of UTC in seconds,
    and the UTC instants between which it applies. *)
Record Zone := { zname : string; zoffset : Z; zstart : Z; zend : Z }.

(** [*time.Location]: which zone period applies at a UTC instant. *)
Record Location := { lookupZone : Z -> Zone }.

Definition UTC : Location :=
  {| lookupZone := fun _ =>
       {| zname := "UTC"; zoffset := 0; zstart := - 2 ^ 63; zend := 2 ^ 63 - 1 |} |}.

(** A zone with one fixed offset ([time.FixedZone]). *)
Definition FixedZone (name : string) (offset : Z) : Location :=
  {| lookupZone := fun _ =>
       {| zname := name; zoffset := offset; zstart := - 2 ^ 63; zend := 2 ^ 63 - 1 |} |}.

(** [time.Time]: an instant (seconds and nanoseconds since the Unix epoch)
    read in a location. *)
Record Time := { unixSec : Z; nsec : Z; loc : Location }.

(** The zero [Time]: January 1, year 1, 00:00:00 UTC. *)
Definition zeroTime : Time := {| unixSec := -62135596800; nsec := 0; loc := UTC |}.

(** The wall clock of [t] in its location, in seconds since 1970-01-01
    00:00:00 of that wall clock. *)
Definition wall (t : Time) : Z :=
  unixSec t + zoffset (lookupZone (loc t) (unixSec t)).

(** Days since 1970-01-01 to (year, month, day) of the proleptic Gregorian
    calendar. *)
Definition civil_from_days (z0 : Z) : Z * Z * Z :=
  let z := z0 + 719468 in
  let era := z / 146097 in
  let doe := z - era * 146097 in
  let yoe := (doe - doe / 1460 + doe / 36524 - doe / 146096) / 365 in
  let y := yoe + era * 400 in
  let doy := doe - (365 * yoe + yoe / 4 - yoe / 100) in
  let mp := (5 * doy + 2) / 153 in
  let d := doy - (153 * mp + 2) / 5 + 1 in
  let m := if mp <? 10 then mp + 3 else mp - 9 in
  (if m <=? 2 then y + 1 else y, m, d).

(** (year, month, day) to days since 1970-01-01. *)
Definition days_from_civil (y0 m d : Z) : Z :=
  let y := if m <=? 2 then y0 - 1 else y0 in
  let era := y / 400 in
  let yoe := y - era * 400 in
  let doy := (153 * (if 2 <? m then m - 3 else m + 9) + 2) / 5 + d - 1 in
  let doe := yoe * 365 + yoe / 4 - yoe / 100 + doy in
  era * 146097 + doe - 719468.

Definition Time_Year (t : Time) : Z := fst (fst (civil_from_days (wall t / 86400))).
Definition Time_Month (t : Time) : Z := snd (fst (civil_from_days (wall t / 86400))).
Definition Time_Day (t : Time) : Z := snd (civil_from_days (wall t / 86400)).
Definition Time_Hour (t : Time) : Z := (wall t mod 86400) / 3600.
Definition Time_Minute (t : Time) : Z := (wall t mod 3600) / 60.
Definition Time_Second (t : Time) : Z := wall t mod 60.

(** [time.Date]: out-of-range fields overflow into the next larger one;
    the zone offset is the one in force at the wall-clock reading asked
    for. *)
Definition Date (year month day hour min sec ns : Z) (l : Location) : Time :=
  let m0 := month - 1 in
  let year' := year + m0 / 12 in
  let month' := m0 mod 12 + 1 in
  let sec' := sec + ns / 1000000000 in
  let ns' := ns mod 1000000000 in
  let unix :=
    (days_from_civil year' month' 1 + (day - 1)) * 86400
    + hour * 3600 + min * 60 + sec' in
  let z := lookupZone l unix in
  let offset :=
    if zoffset z =? 0 then 0
    else
      let utc := unix - zoffset z in
      if (utc <? zstart z) || (zend z <=? utc)
      then zoffset (lookupZone l utc) else zoffset z in
  {| unixSec := unix - offset; nsec := ns'; loc := l |}.

(** [time.Unix]: the instant [sec] seconds and [nsec] nanoseconds after the
    Unix epoch, read in the local zone [l]; [nsec] may be outside of
    [0, 999999999]. *)
Definition Unix (l : Location) (sec nsec : Z) : Time :=
  let '(sec', nsec') :=
    if (nsec <? 0) || (1000000000 <=? nsec) then
      let n := Z.quot nsec 1000000000 in
      let sec1 := sec + n in
      let nsec1 := nsec - n * 1000000000 in
      if nsec1 <? 0 then (sec1 - 1, nsec1 + 1000000000) else (sec1, nsec1)
    else (sec, nsec) in
  {| unixSec := sec'; nsec := nsec'; loc := l |}.

(** [Time.Add]. *)
Definition Time_Add (t : Time) (d : Duration) : Time :=
  let dsec := Z.quot d 1000000000 in
  let n := nsec t + Z.rem d 1000000000 in
  let '(dsec', n') :=
    if 1000000000 <=? n then (dsec + 1, n - 1000000000)
    else if n <? 0 then (dsec - 1, n + 1000000000)
    else (dsec, n) in
  {| unixSec := unixSec t + dsec'; nsec := n'; loc := loc t |}.

Fixpoint zeros (n : nat) (acc : string) : string :=
  match n with
  | O => acc
  | S k => String "0" (zeros k acc)
  end.

(** [appendInt]: [x] in decimal, zero padded to [width]. *)
Definition appendInt (x : Z) (width : nat) : string :=
  let digits := fmtInt (Z.abs x) "" in
  let padded := zeros (width - String.length digits) digits in
  if x <? 0 then String "-" padded else padded.

(** The layout elements that occur in this repository's layouts. *)
Inductive std : Type :=
| stdLongYear        (* 2006 *)
| stdZeroMonth       (* 01 *)
| stdZeroDay         (* 02 *)
| stdHour            (* 15 *)
| stdZeroMinute      (* 04 *)
| stdZeroSecond      (* 05 *)
| stdFracSecond9     (* .999999999 *)
| stdNumTZ           (* -0700 *)
| stdISO8601ColonTZ  (* Z07:00 *)
| stdTZ.             (* MST *)

(** [nextStdChunk] at the head of a layout: the element that starts here
    and its length.  Elements that no layout of the repository uses are
    not recognised. *)
Definition nextStdChunk (layout : string) : option (std * nat) :=
  if String.prefix "2006" layout then Some (stdLongYear, 4%nat)
  else if String.prefix "01" layout then Some (stdZeroMonth, 2%nat)
  else if String.prefix "02" layout then Some (stdZeroDay, 2%nat)
  else if String.prefix "15" layout then Some (stdHour, 2%nat)
  else if String.prefix "04" layout then Some (stdZeroMinute, 2%nat)
  else if String.prefix "05" layout then Some (stdZeroSecond, 2%nat)
  else if String.prefix ".999999999" layout then Some (stdFracSecond9, 10%nat)
  else if String.prefix "-0700" layout then Some (stdNumTZ, 5%nat)
  else if String.prefix "Z07:00" layout then Some (stdISO8601ColonTZ, 6%nat)
  else if String.prefix "MST" layout then Some (stdTZ, 3%nat)
  else None.

Definition appendZone (offset : Z) (colon minutes : bool) : string :=
  let zone := Z.quot offset 60 in
  let sign := if zone <? 0 then "-" else "+" in
  let zone := Z.abs zone in
  (sign +:+ appendInt (zone / 60) 2
     +:+ (if colon then ":" else "")
     +:+ (if minutes then appendInt (zone mod 60) 2 else ""))%string.

Definition appendStd (t : Time) (s : std) : string :=
  let z := lookupZone (loc t) (unixSec t) in
  match s with
  | stdLongYear => appendInt (Time_Year t) 4
  | stdZeroMonth => appendInt (Time_Month t) 2
  | stdZeroDay => appendInt (Time_Day t) 2
  | stdHour => appendInt (Time_Hour t) 2
  | stdZeroMinute => appendInt (Time_Minute t) 2
  | stdZeroSecond => appendInt (Time_Second t) 2
  | stdFracSecond9 => fst (fmtFrac (nsec t) 9 "")
  | stdNumTZ => appendZone (zoffset z) false true
  | stdISO8601ColonTZ =>
      if zoffset z =? 0 then "Z"%string else appendZone (zoffset z) true true
  | stdTZ =>
      if String.eqb (zname z) "" then appendZone (zoffset z) false true
      else zname z
  end.

(** The loop of [Time.Format]: [skip] counts the characters of the element
    just written that are still to be passed over. *)
Fixpoint appendFormat (t : Time) (skip : nat) (layout : string) : string :=
  match layout with
  | EmptyString => EmptyString
  | String c rest =>
      match skip with
      | S k => appendFormat t k rest
      | O =>
          match nextStdChunk layout with
          | Some (s, len) => (appendStd t s +:+ appendFormat t (Nat.pred len) rest)%string
          | None => String c (appendFormat t O rest)
          end
      end
  end.

(** [Time.Format]. *)
Definition Time_Format (t : Time) (layout : string) : string := appendFormat t O layout.

(** [Time.String], for a time without monotonic clock reading. *)
Definition Time_String (t : Time) : string :=
  Time_Format t "2006-01-02 15:04:05.999999999 -0700 MST".

Fixpoint inCutset (c : ascii) (cutset : string) : bool :=
  match cutset with
  | EmptyString => false
  | String c' rest => Ascii.eqb c c' || inCutset c rest
  end.

(** [strings.TrimRight]: drop the trailing characters that are in
    [cutset]. *)
Fixpoint TrimRight (s cutset : string) : string :=
  match s with
  | EmptyString => EmptyString
  | String c rest =>
      match TrimRight rest cutset with
      | EmptyString => if inCutset c cutset then EmptyString else String c EmptyString
      | r => String c r
      end
  end.

(** The number that a string of decimal digits denotes, read from the left
    ([acc] is the value of the digits read so far). *)
Fixpoint digitsValue (acc : Z) (s : string) : Z :=
  match s with
  | EmptyString => acc
  | String c rest => digitsValue (10 * acc + (Z.of_nat (nat_of_ascii c) - 48)) rest
  end.

End GoTime.


(* ===================================================================== *)
(** ** evergreen/distros.go *)
(* ===================================================================== *)

Module Evergreen.
Import Errors.

(** [Distro]: a single distro of the API's listing. *)
Record Distro := { Distro_DistroID : string }.

(** [DistroCost]: cost and provider information of one distro. *)
Record DistroCost := {
  DistroID : string;
  Provider : string;
  InstanceType : string;
  SumTimeTaken : GoTime.Duration;
  SumEstimatedCost : float
}.

(** [context.Context], of which the code only asks [Err()]. *)
Record Context := { cancelled : bool }.

Definition ctx_Err (ctx : Context) : option error :=
  if cancelled ctx then Some (New "context canceled") else None.

(** What [c.get] hands back: body, pagination link, error. *)
Record Response := { data : list Byte.byte; link : string; err : option error }.

(** The client.  Its request layer ([c.get], in a file of the package
    that is not part of the sources at hand) is the field [respond]. *)
Record Client := { respond : Context -> string -> Response }.

(** Calls on the client are logged: a computation threads the list of the
    calls of [c.get] made so far, oldest first, each with the context and
    the path it was given. *)
Definition Request : Type := Context * string.

Definition M (A : Type) : Type := list Request -> A * list Request.

Definition ret {A : Type} (a : A) : M A := fun log => (a, log).

Definition bind {A B : Type} (m : M A) (f : A -> M B) : M B :=
  fun log => let (a, log') := m log in f a log'.

Notation "'let*' p ':=' m 'in' k" := (bind m (fun x => let 'p := x in k))
  (at level 10, p pattern, m at level 100, k at level 200, only parsing).

Definition get (c : Client) (ctx : Context) (path : string) : M Response :=
  fun log => (respond c ctx path, log ++ [(ctx, path)]).

(** A call returns, or it panics (a nil pointer is dereferenced). *)
Inductive outcome (A : Type) : Type :=
| Returned (a : A)
| Panicked.
Arguments Returned {A} a.
Arguments Panicked {A}.

Section Fetch.

(** [json.Unmarshal] into [[]*Distro] and into [*DistroCost].  A JSON
    [null] leaves a nil slice, respectively a nil pointer, without an
    error, and a [null] among the entries of a listing leaves a nil
    pointer in the slice. *)
Variable unmarshalDistros : list Byte.byte -> result (option (list (option Distro))).
Variable unmarshalDistroCost : list Byte.byte -> result (option DistroCost).

(** The outcome of [rand.Perm n]. *)
Variable rand_Perm : nat -> list nat.

Definition GetDistros (c : Client) (ctx : Context)
  : M (option (list (option Distro)) * option error) :=
  let* r := get c ctx "/distros" in
  if negb (String.eqb (link r) "") then
    ret (None, Some (New "/distros should not be a paginated route"))
  else
    match err r with
    | Some e => ret (None, Wrap (Some e) "error in getting distros")
    | None =>
        match unmarshalDistros (data r) with
        | Err e => ret (None, Some e)
        | Ok distros => ret (distros, None)
        end
    end.

Definition costPath (distroID starttime duration : string) : string :=
  "/cost/distro/" +:+ distroID +:+ "?starttime=" +:+ starttime
    +:+ "&duration=" +:+ duration.

Definition GetDistroCost (c : Client) (ctx : Context)
    (distroID starttime duration : string)
  : M (option DistroCost * option error) :=
  let* r := get c ctx (costPath distroID starttime duration) in
  if negb (String.eqb (link r) "") then
    ret (None, Some (New "/cost/distro should not be a paginated route"))
  else
    match err r with
    | Some e => ret (None, Wrap (Some e) "error in GetDistroCost")
    | None =>
        match unmarshalDistroCost (data r) with
        | Err e => ret (None, Some e)
        | Ok distro => ret (distro, None)
        end
    end.

(** The loop [for _, d := range distros] of [getDistroIDs]: [d.DistroID]
    of a nil entry panics. *)
Fixpoint appendIDs (distroIDs : list string) (distros : list (option Distro))
  : outcome (list string) :=
  match distros with
  | [] => Returned distroIDs
  | Some d :: rest => appendIDs (distroIDs ++ [Distro_DistroID d]) rest
  | None :: _ => Panicked
  end.

Definition getDistroIDs (c : Client) (ctx : Context)
  : M (outcome (option (list string) * option error)) :=
  let* (distros, err) := GetDistros c ctx in
  match err with
  | Some e => ret (Returned (None, Wrap (Some e) "error getting distros ids"))
  | None =>
      match appendIDs [] (default [] distros) with
      | Returned distroIDs => ret (Returned (Some distroIDs, None))
      | Panicked => ret Panicked
      end
  end.

(** *** The worker pool of [getDistroCosts]

    One of the 16 goroutines is at the head of its [range distros] loop
    ([Ready]), holds a distro it has just received and is about to test
    [ctx.Err()] ([Got]), has passed that test and is about to call
    [GetDistroCost] ([Checked]), waits in [costs <- dc] ([Sending]), or has
    returned ([Exited]). *)
Inductive worker : Type :=
| Ready
| Got (distro : string)
| Checked (distro : string)
| Sending (dc : DistroCost)
| Exited.

(** The state shared by the goroutines: the buffered and closed channel
    [distros], the workers, the catcher, the slice the main goroutine
    appends to, the context, and the client's request log. *)
Record pool := {
  distros : list string;
  workers : list worker;
  catcher : Catcher;
  distroCosts : list DistroCost;
  ctx : Context;
  requests : list Request
}.

Definition setWorker (i : nat) (w : worker) (s : pool) : pool :=
  {| distros := distros s; workers := <[i:=w]> (workers s);
     catcher := catcher s; distroCosts := distroCosts s;
     ctx := ctx s; requests := requests s |}.

(** What the scheduler picks next: goroutine [i] runs up to its next
    channel operation, or the context is cancelled from outside. *)
Inductive event : Type :=
| Work (i : nat)
| Cancel.

Variables (c : Client) (st dur : string).

(** One turn of goroutine [i].  The test of [ctx.Err()] and the lookup are
    turns of their own, so that the context can be cancelled between them;
    the lookup is made with the context as it then is.  The send
    [costs <- dc] is a rendezvous with the main goroutine, whose loop body
    (the filter on [SumTimeTaken]) runs with it. *)
Definition work (i : nat) (s : pool) : option pool :=
  match workers s !! i with
  | None => None
  | Some Exited => None
  | Some Ready =>
      match distros s with
      | [] => Some (setWorker i Exited s)
      | distro :: rest =>
          Some {| distros := rest; workers := <[i:=Got distro]> (workers s);
                  catcher := catcher s; distroCosts := distroCosts s;
                  ctx := ctx s; requests := requests s |}
      end
  | Some (Got distro) =>
      match ctx_Err (ctx s) with
      | Some _ => Some (setWorker i Exited s)
      | None => Some (setWorker i (Checked distro) s)
      end
  | Some (Checked distro) =>
      let '((dc, err), log) := GetDistroCost c (ctx s) distro st dur (requests s) in
      let catcher' :=
        Add (catcher s)
            (Wrap err "error when getting distro cost data from Evergreen") in
      Some {| distros := distros s;
              workers := <[i:=match dc with
                              | None => Ready
                              | Some dc => Sending dc
                              end]> (workers s);
              catcher := catcher'; distroCosts := distroCosts s;
              ctx := ctx s; requests := log |}
  | Some (Sending evgdc) =>
      Some {| distros := distros s; workers := <[i:=Ready]> (workers s);
              catcher := catcher s;
              distroCosts := if (0 <? SumTimeTaken evgdc)%Z
                             then distroCosts s ++ [evgdc] else distroCosts s;
              ctx := ctx s; requests := requests s |}
  end.

Definition step (e : event) (s : pool) : option pool :=
  match e with
  | Work i => work i s
  | Cancel =>
      if cancelled (ctx s) then None
      else Some {| distros := distros s; workers := workers s;
                   catcher := catcher s; distroCosts := distroCosts s;
                   ctx := {| cancelled := true |}; requests := requests s |}
  end.

Definition exited (w : worker) : bool :=
  match w with Exited => true | _ => false end.

(** The first goroutine that has not returned. *)
Fixpoint firstLive (ws : list worker) : option nat :=
  match ws with
  | [] => None
  | w :: rest => if exited w then S <$> firstLive rest else Some O
  end.

(** The scheduler: it follows [sched] where that names an enabled event,
    and otherwise runs the first live goroutine.  When no goroutine is
    left, [wg.Wait()] returns, [costs] is closed and the main loop
    ends. *)
Fixpoint run (fuel : nat) (sched : list event) (s : pool) : pool :=
  match fuel with
  | O => s
  | S fuel' =>
      match firstLive (workers s) with
      | None => s
      | Some j =>
          let e := match sched with e :: _ => e | [] => Work j end in
          match step e s with
          | Some s' => run fuel' (tail sched) s'
          | None => run fuel' (tail sched) (default s (step (Work j) s))
          end
      end
  end.

Definition weight (w : worker) : nat :=
  match w with
  | Exited => 0
  | Ready => 1
  | Sending _ => 2
  | Checked _ => 3
  | Got _ => 4
  end.

Definition weights (ws : list worker) : nat :=
  foldr (fun w n => weight w + n) 0 ws.

(** A bound on the number of events left. *)
Definition measure (s : pool) : nat :=
  4 * length (distros s) + weights (workers s)
  + (if cancelled (ctx s) then 0 else 1).

(** The state in which the goroutines are started: the ids have been sent
    to [distros] in the order of [rand.Perm(len(distroIDs))], whose indices
    are all in range ([distroIDs[idx]] never panics), and the channel has
    been closed. *)
Definition start (ctx0 : Context) (distroIDs : list string)
    (log : list Request) : pool :=
  {| distros := omap (fun idx => distroIDs !! idx) (rand_Perm (length distroIDs));
     workers := replicate 16 Ready;
     catcher := NewCatcher;
     distroCosts := [];
     ctx := ctx0;
     requests := log |}.

(** [getDistroCosts], under the scheduler [sched]. *)
Definition getDistroCosts (ctx0 : Context) (sched : list event)
    (distroIDs : list string) : M (option (list DistroCost) * option error) :=
  fun log =>
    let s0 := start ctx0 distroIDs log in
    let s := run (measure s0) sched s0 in
    (if HasErrors (catcher s)
     then (None, Resolve (catcher s))
     else (Some (distroCosts s), None),
     requests s).

End Fetch.


(** *** Vocabulary for statements about a fetch *)

Definition live : Context := {| cancelled := false |}.

(** The context after its cancellation. *)
Definition cancelledCtx : Context := {| cancelled := true |}.

(** What the lookup of a distro answers when it is made under [ctx0]. *)
Definition lookupResult
    (unmarshalDistroCost : list Byte.byte -> result (option DistroCost))
    (c : Client) (st dur : string) (ctx0 : Context) (distroID : string)
  : option DistroCost * option error :=
  fst (GetDistroCost unmarshalDistroCost c ctx0 distroID st dur []).

(** The requests made between two readings of the log. *)
Definition issued (log log' : list Request) : list Request :=
  drop (length log) log'.

(** The lookup of [distroID] was made, under [ctx0], between [log] and
    [log']. *)
Definition lookedUp (st dur : string) (log log' : list Request)
    (ctx0 : Context) (distroID : string) : Prop :=
  (ctx0, costPath distroID st dur) ∈ issued log log'.

Definition positive (dc : DistroCost) : Prop := (0 < SumTimeTaken dc)%Z.

Global Instance positive_dec dc : Decision (positive dc).
Proof. unfold positive. apply _. Defined.

(** The record a goroutine is about to send, the distro it holds. *)
Definition sendingOf (w : worker) : option DistroCost :=
  match w with Sending dc => Some dc | _ => None end.

(** The distro a goroutine holds and has not looked up yet. *)
Definition heldOf (w : worker) : option string :=
  match w with
  | Got distro => Some distro
  | Checked distro => Some distro
  | _ => None
  end.

(** The distro of a goroutine that has passed the test of the context. *)
Definition checkedOf (w : worker) : option string :=
  match w with Checked distro => Some distro | _ => None end.

(** The distros not looked up yet: those held by a goroutine and those
    still in the channel. *)
Definition pending (s : pool) : list string :=
  omap heldOf (workers s) ++ distros s.

Definition finished (s : pool) : Prop := firstLive (workers s) = None.


(** *** The turns of a goroutine, as a relation

    [turn i s s'] lists what goroutine [i] can do in state [s]: leave its
    loop on the drained channel, receive a distro, return on a cancelled
    context, pass the test of the context, look a distro up, or hand a
    record to the main goroutine. *)
Section Turns.
Variable unmarshalDistroCost : list Byte.byte -> result (option DistroCost).
Variables (c : Client) (st dur : string).

Definition wrapLookup (err : option error) : option error :=
  Wrap err "error when getting distro cost data from Evergreen".

Inductive turn (i : nat) (s : pool) : pool -> Prop :=
| turn_drained :
    workers s !! i = Some Ready -> distros s = [] ->
    turn i s (setWorker i Exited s)
| turn_receive distro rest :
    workers s !! i = Some Ready -> distros s = distro :: rest ->
    turn i s {| distros := rest; workers := <[i:=Got distro]> (workers s);
                catcher := catcher s; distroCosts := distroCosts s;
                ctx := ctx s; requests := requests s |}
| turn_cancelled distro :
    workers s !! i = Some (Got distro) -> cancelled (ctx s) = true ->
    turn i s (setWorker i Exited s)
| turn_checked distro :
    workers s !! i = Some (Got distro) -> cancelled (ctx s) = false ->
    turn i s (setWorker i (Checked distro) s)
| turn_lookup distro :
    workers s !! i = Some (Checked distro) ->
    turn i s
      {| distros := distros s;
         workers :=
           <[i:=match fst (lookupResult unmarshalDistroCost c st dur (ctx s) distro) with
                | None => Ready
                | Some dc => Sending dc
                end]> (workers s);
         catcher :=
           Add (catcher s)
               (wrapLookup
                  (snd (lookupResult unmarshalDistroCost c st dur (ctx s) distro)));
         distroCosts := distroCosts s;
         ctx := ctx s;
         requests := requests s ++ [(ctx s, costPath distro st dur)] |}
| turn_deliver evgdc :
    workers s !! i = Some (Sending evgdc) ->
    turn i s {| distros := distros s; workers := <[i:=Ready]> (workers s);
                catcher := catcher s;
                distroCosts := if decide (positive evgdc)
                               then distroCosts s ++ [evgdc] else distroCosts s;
                ctx := ctx s; requests := requests s |}.
End Turns.


(** *** Complete executions

    [execution s es s']: from [s] the events [es], each enabled in its
    turn and none after the last goroutine has returned, lead to [s'],
    where every goroutine has returned. *)
Section Executions.
Variable unmarshalDistroCost : list Byte.byte -> result (option DistroCost).
Variables (c : Client) (st dur : string).

Inductive execution : pool -> list event -> pool -> Prop :=
| execution_done s :
    finished s -> execution s [] s
| execution_step e s s' es s'' :
    ~ finished s ->
    step unmarshalDistroCost c st dur e s = Some s' ->
    execution s' es s'' ->
    execution s (e :: es) s''.
End Executions.

(** *** What holds of every state of a fetch

    [observed log0 s]: in the state [s] of a fetch started with the request
    log [log0], the catcher holds an error exactly when a lookup made so
    far failed, every record kept or in flight was obtained by a lookup,
    and every record with positive time obtained so far is kept or in
    flight. *)
Section Observed.
Variable unmarshalDistroCost : list Byte.byte -> result (option DistroCost).
Variables (c : Client) (st dur : string).
Variable log0 : list Request.

Definition obtained (s : pool) (dc : DistroCost) : Prop :=
  exists ctx0 id, lookedUp st dur log0 (requests s) ctx0 id
                  /\ fst (lookupResult unmarshalDistroCost c st dur ctx0 id) = Some dc.

Definition failed (s : pool) : Prop :=
  exists ctx0 id, lookedUp st dur log0 (requests s) ctx0 id
                  /\ is_Some (snd (lookupResult unmarshalDistroCost c st dur ctx0 id)).

Definition observed (s : pool) : Prop :=
  requests s = log0 ++ issued log0 (requests s)
  /\ (HasErrors (catcher s) = true <-> failed s)
  /\ (forall dc, dc ∈ distroCosts s -> positive dc /\ obtained s dc)
  /\ (forall dc, Sending dc ∈ workers s -> obtained s dc)
  /\ (forall dc, obtained s dc -> positive dc ->
                 dc ∈ distroCosts s \/ Sending dc ∈ workers s).
End Observed.


(** *** What holds while the context stays live

    [balanced queue0 s]: in a fetch of the distros [queue0] whose context has
    not been cancelled, the records kept, in flight and still to be looked
    up make up the records with positive time of [queue0], the errors
    caught and still to come make up the errors of [queue0], and no
    goroutine has returned before the channel was drained. *)
Section Balanced.
Variable unmarshalDistroCost : list Byte.byte -> result (option DistroCost).
Variables (c : Client) (st dur : string).

(** The records and the errors that the lookups of [ids] give under
    [ctx0]. *)
Definition recordsOf (ctx0 : Context) (ids : list string) : list DistroCost :=
  omap (fun id => fst (lookupResult unmarshalDistroCost c st dur ctx0 id)) ids.

Definition errorsOf (ctx0 : Context) (ids : list string) : list error :=
  omap (fun id => wrapLookup (snd (lookupResult unmarshalDistroCost c st dur ctx0 id)))
       ids.

Definition balanced (queue0 : list string) (s : pool) : Prop :=
  cancelled (ctx s) = false
  /\ filter positive (recordsOf live queue0)
     ≡ₚ distroCosts s ++ filter positive (omap sendingOf (workers s))
          ++ filter positive (recordsOf live (pending s))
  /\ errorsOf live queue0 ≡ₚ catcher s ++ errorsOf live (pending s)
  /\ (Exited ∈ workers s -> distros s = []).

(** [idle s]: in a fetch whose context was cancelled before it began,
    nothing has been looked up, and no goroutine has passed the test of the
    context. *)
Definition idle (s : pool) : Prop :=
  cancelled (ctx s) = true
  /\ catcher s = []
  /\ distroCosts s = []
  /\ (forall dc, Sending dc ∉ workers s)
  /\ (forall distro, Checked distro ∉ workers s).
End Balanced.

Section Data.
Variable unmarshalDistros : list Byte.byte -> result (option (list (option Distro))).
Variable unmarshalDistroCost : list Byte.byte -> result (option DistroCost).
Variable rand_Perm : nat -> list nat.

(** [GetEvergreenDistrosData]; a panic of [getDistroIDs] is not
    recovered. *)
Definition GetEvergreenDistrosData (c : Client) (ctx0 : Context)
    (sched : list event) (starttime : GoTime.Time) (duration : GoTime.Duration)
  : M (outcome (option (list DistroCost) * option error)) :=
  let st := GoTime.Time_Format starttime "2006-01-02T15:04:05Z07:00" in
  let dur := GoTime.TrimRight (GoTime.Duration_String duration) "0s" in
  let* called := getDistroIDs unmarshalDistros c ctx0 in
  match called with
  | Panicked => ret Panicked
  | Returned (distroIDs, err) =>
      match err with
      | Some e =>
          ret (Returned
                 (None,
                  Wrap (Some e) "error in getting distroID in GetEvergreenDistrosData"))
      | None =>
          let* (distroCosts, err) :=
            getDistroCosts unmarshalDistroCost rand_Perm c st dur ctx0 sched
              (default [] distroIDs) in
          match err with
          | Some e =>
              ret (Returned
                     (None,
                      Wrap (Some e)
                           "error in getting distro costs in GetEvergreenDistrosData"))
          | None => ret (Returned (distroCosts, None))
          end
      end
  end.
End Data.

End Evergreen.

(* ===================================================================== *)
(** ** model: the cost report, the application configuration, the store *)
(* ===================================================================== *)

Module Model.
Import Errors.

(** *** The document store

    A collection maps document ids to documents.  [fault] is the error the
    server answers the next operation with ([None] when it is healthy). *)
Record Collection (Doc : Type) := {
  docs : gmap string Doc;
  fault : option error
}.
Arguments docs {Doc} _.
Arguments fault {Doc} _.

(** [mgo.ChangeInfo]. *)
Record ChangeInfo := { Updated : Z; Matched : Z; UpsertedId : option string }.

(** [FindId(id).One(&doc)]. *)
Definition FindId_One {Doc : Type} (id : string) (coll : Collection Doc) : result Doc :=
  match fault coll with
  | Some e => Err e
  | None =>
      match docs coll !! id with
      | Some d => Ok d
      | None => Err ErrNotFound
      end
  end.

(** [UpsertId(id, doc)]: the change info says whether a document was
    replaced or inserted. *)
Definition UpsertId {Doc : Type} (id : string) (d : Doc) (coll : Collection Doc)
  : option ChangeInfo * option error * Collection Doc :=
  match fault coll with
  | Some e => (None, Some e, coll)
  | None =>
      let info :=
        match docs coll !! id with
        | Some _ => {| Updated := 1; Matched := 1; UpsertedId := None |}
        | None => {| Updated := 0; Matched := 0; UpsertedId := Some id |}
        end in
      (Some info, None, {| docs := <[id:=d]> (docs coll); fault := None |})
  end.

(** *** The report document *)

Definition float32 := Z. (* the bits of an IEEE-754 single *)

Record CostReportMetadata := {
  Generated : GoTime.Time;
  Begin : GoTime.Time;
  End_ : GoTime.Time
}.

Record EvergreenTaskCost := {
  Task_Githash : string;
  Task_Name : string;
  Task_Distro : string;
  Task_BuildVariant : string;
  Task_TaskSeconds : Z
}.

Record EvergreenProjectCost := {
  Project_Name : string;
  Project_Tasks : list EvergreenTaskCost
}.

Record EvergreenDistroCost := {
  Distro_Name : string;
  Distro_Provider : string;
  Distro_InstanceType : string;
  Distro_InstanceSeconds : Z
}.

Record EvergreenCost := {
  Projects : list EvergreenProjectCost;
  Distros : list EvergreenDistroCost
}.

Record ServiceItem := {
  Item_Name : string;
  Item_ItemType : string;
  Item_Launched : Z;
  Item_Terminated : Z;
  Item_FixedPrice : float32;
  Item_AvgPrice : float32;
  Item_AvgUptime : float32;
  Item_TotalHours : Z
}.

Record AccountService := {
  Service_Name : string;
  Service_Items : list ServiceItem;
  Service_Cost : float32
}.

Record CloudAccount := {
  Account_Name : string;
  Account_Services : list AccountService
}.

Record CloudProvider := {
  Provider_Name : string;
  Provider_Accounts : list CloudAccount;
  Provider_Cost : float32
}.

(** Log records of [grip.Debug]. *)
Record DebugFields := {
  log_ns : string;
  log_id : string;
  log_operation : string;
  log_change_info : option ChangeInfo
}.

Section WithEnvironment.

(** The environment and [GetSessionWithConfig], which belong to the
    root package; of the configuration it returns only the database
    name is used. *)
Variable Environment : Type.
Variable GetSessionWithConfig : Environment -> result string.

Definition costReportCollection : string := "buildCostReports".

Record CostReport := {
  ID : string;
  Report : CostReportMetadata;
  Evergreen_ : EvergreenCost;
  Providers : list CloudProvider;
  env : Environment;
  populated : bool
}.

(** What is stored of a report: its tagged fields. *)
Record CostReportDoc := {
  doc_ID : string;
  doc_Report : CostReportMetadata;
  doc_Evergreen : EvergreenCost;
  doc_Providers : list CloudProvider
}.

(** The zero value, as [&model.CostReport{}] makes it; [nilEnv] is the
    nil environment. *)
Variable nilEnv : Environment.

Definition newCostReport : CostReport :=
  {| ID := "";
     Report := {| Generated := GoTime.zeroTime; Begin := GoTime.zeroTime;
                  End_ := GoTime.zeroTime |};
     Evergreen_ := {| Projects := []; Distros := [] |};
     Providers := [];
     env := nilEnv;
     populated := false |}.

Definition toDoc (id : string) (r : CostReport) : CostReportDoc :=
  {| doc_ID := id; doc_Report := Report r;
     doc_Evergreen := Evergreen_ r; doc_Providers := Providers r |}.

(** *** What the wire format makes of a document

    A document is kept in the collection as it was handed to the driver;
    what BSON makes of its values is applied where it is read.  A time is
    written as the milliseconds since the Unix epoch and read with
    [time.Unix], hence in [time.Local], the milliseconds of the zero time
    being read as the zero time; a [float32] is written as a double and
    converted back; strings and integers are read as they were written. *)
Variable Local : GoTime.Location.

(** [float32(float64(x))]. *)
Variable readFloat32 : float32 -> float32.

Definition bsonMillis (t : GoTime.Time) : Z :=
  (GoTime.unixSec t * 1000 + GoTime.nsec t / 1000000)%Z.

Definition readTime (t : GoTime.Time) : GoTime.Time :=
  let i := bsonMillis t in
  if (i =? -62135596800000)%Z then GoTime.zeroTime
  else GoTime.Unix Local (Z.quot i 1000) (Z.rem i 1000 * 1000000)%Z.

Definition readMetadata (m : CostReportMetadata) : CostReportMetadata :=
  {| Generated := readTime (Generated m); Begin := readTime (Begin m);
     End_ := readTime (End_ m) |}.

Definition readItem (x : ServiceItem) : ServiceItem :=
  {| Item_Name := Item_Name x; Item_ItemType := Item_ItemType x;
     Item_Launched := Item_Launched x; Item_Terminated := Item_Terminated x;
     Item_FixedPrice := readFloat32 (Item_FixedPrice x);
     Item_AvgPrice := readFloat32 (Item_AvgPrice x);
     Item_AvgUptime := readFloat32 (Item_AvgUptime x);
     Item_TotalHours := Item_TotalHours x |}.

Definition readService (x : AccountService) : AccountService :=
  {| Service_Name := Service_Name x; Service_Items := map readItem (Service_Items x);
     Service_Cost := readFloat32 (Service_Cost x) |}.

Definition readAccount (x : CloudAccount) : CloudAccount :=
  {| Account_Name := Account_Name x;
     Account_Services := map readService (Account_Services x) |}.

Definition readProvider (x : CloudProvider) : CloudProvider :=
  {| Provider_Name := Provider_Name x;
     Provider_Accounts := map readAccount (Provider_Accounts x);
     Provider_Cost := readFloat32 (Provider_Cost x) |}.

(** Decoding a document into a report: [bson.Unmarshal] sets the report to
    its zero value, whereby the environment and the populated flag are lost,
    and then sets the tagged fields. *)
Definition decodeInto (d : CostReportDoc) (r : CostReport) : CostReport :=
  {| ID := doc_ID d; Report := readMetadata (doc_Report d);
     Evergreen_ := doc_Evergreen d; Providers := map readProvider (doc_Providers d);
     env := nilEnv; populated := false |}.

Definition setPopulated (b : bool) (r : CostReport) : CostReport :=
  {| ID := ID r; Report := Report r; Evergreen_ := Evergreen_ r;
     Providers := Providers r; env := env r; populated := b |}.

(** [CostReport.Setup]. *)
Definition Setup (e : Environment) (r : CostReport) : CostReport :=
  {| ID := ID r; Report := Report r; Evergreen_ := Evergreen_ r;
     Providers := Providers r; env := e; populated := populated r |}.

(** [CostReport.IsNil]. *)
Definition IsNil (r : CostReport) : bool := populated r.

(** [CostReport.FindID]: the error returned and the receiver
    afterwards.  An error of the query other than not-found is wrapped
    and the result dropped, so the method goes on. *)
Definition FindID (r : CostReport) (id : string)
    (coll : Collection CostReportDoc) : option error * CostReport :=
  match GetSessionWithConfig (env r) with
  | Err e => (WithStack (Some e), r)
  | Ok _ =>
      let r := setPopulated false r in
      let '(err, r) :=
        match FindId_One id coll with
        | Ok d => (None, decodeInto d r)
        | Err e => (Some e, r)
        end in
      if ResultsNotFound err then
        (Some (New ("could not find cost reporting document " +:+ id
                      +:+ " in the database")), r)
      else (None, setPopulated true r)
  end.

(** [CostReport.Save]: the error returned, the collection afterwards
    and the debug records written. *)
Definition Save (r : CostReport) (coll : Collection CostReportDoc)
  : option error * Collection CostReportDoc * list DebugFields :=
  match GetSessionWithConfig (env r) with
  | Err e => (WithStack (Some e), coll, [])
  | Ok DatabaseName =>
      let '(changeInfo, err, coll') := UpsertId (ID r) (toDoc (ID r) r) coll in
      let logged :=
        [{| log_ns := DatabaseName +:+ "." +:+ costReportCollection;
            log_id := ID r;
            log_operation := "save build cost report";
            log_change_info := changeInfo |}] in
      if ResultsNotFound err then
        (Some (New "could not find cost reporting document in the database"),
         coll', logged)
      else
        (Wrap err "problem saving cost reporting configuration", coll', logged)
  end.

(** *** The application configuration ([model/config.go]) *)

Definition cedarConfigurationID : string := "cedar-system-configuration".

(** [Settings] stands for the Splunk, Slack and flag sections, which
    are only carried. *)
Variable Settings : Type.

Record CedarConfig := {
  Config_ID : string;
  Config_Settings : Settings;
  Config_populated : bool;
  Config_env : Environment
}.

(** [CedarConfig.IsNil]. *)
Definition CedarConfig_IsNil (c : CedarConfig) : bool := negb (Config_populated c).

Definition CedarConfig_setPopulated (b : bool) (c : CedarConfig) : CedarConfig :=
  {| Config_ID := Config_ID c; Config_Settings := Config_Settings c;
     Config_populated := b; Config_env := Config_env c |}.

(** The sections as [&CedarConfig{}] has them, and the assignment
    [c.Flags.env = e] inside them. *)
Variable zeroSettings : Settings.
Variable setFlagsEnv : Environment -> Settings -> Settings.

(** [configurationCollection], a constant of the package declared in
    another file. *)
Variable configurationCollection : string.

(** [util.ReadFileYAML] into a configuration: the id and the sections that
    the file gives. *)
Variable ReadFileYAML : string -> result (string * Settings).

(** [NewCedarConfig]. *)
Definition NewCedarConfig (e : Environment) : CedarConfig :=
  {| Config_ID := cedarConfigurationID;
     Config_Settings := setFlagsEnv e zeroSettings;
     Config_populated := false;
     Config_env := e |}.

(** [CedarConfig.Setup]. *)
Definition CedarConfig_Setup (e : Environment) (c : CedarConfig) : CedarConfig :=
  {| Config_ID := Config_ID c; Config_Settings := Config_Settings c;
     Config_populated := Config_populated c; Config_env := e |}.

(** [CedarConfig.Find]; a stored configuration is its id and its
    settings.  Decoding into the configuration sets it to its zero value
    first, whereby its environment is lost: the environment given to the
    flags afterwards is the nil one. *)
Definition CedarConfig_Find (c : CedarConfig)
    (coll : Collection (string * Settings)) : option error * CedarConfig :=
  match GetSessionWithConfig (Config_env c) with
  | Err e => (WithStack (Some e), c)
  | Ok _ =>
      let c := CedarConfig_setPopulated false c in
      let '(err, c) :=
        match FindId_One cedarConfigurationID coll with
        | Ok (id, s) =>
            (None, {| Config_ID := id; Config_Settings := s;
                      Config_populated := false;
                      Config_env := nilEnv |})
        | Err e => (Some e, c)
        end in
      if ResultsNotFound err then
        (Some (New "could not find application configuration in the database"), c)
      else
        match err with
        | Some e => (Wrap (Some e) "problem finding app config document", c)
        | None =>
            (None,
             {| Config_ID := Config_ID c;
                Config_Settings := setFlagsEnv (Config_env c) (Config_Settings c);
                Config_populated := true;
                Config_env := Config_env c |})
        end
  end.

(** [CedarConfig.Save]: the error returned, the receiver afterwards (its id
    is overwritten before the session is asked for), the collection
    afterwards and the debug records written. *)
Definition CedarConfig_Save (c : CedarConfig) (coll : Collection (string * Settings))
  : option error * CedarConfig * Collection (string * Settings) * list DebugFields :=
  if negb (Config_populated c) then
    (Some (New "cannot save a non-populated app configuration"), c, coll, [])
  else
    let c := {| Config_ID := cedarConfigurationID; Config_Settings := Config_Settings c;
                Config_populated := Config_populated c; Config_env := Config_env c |} in
    match GetSessionWithConfig (Config_env c) with
    | Err e => (WithStack (Some e), c, coll, [])
    | Ok DatabaseName =>
        let '(changeInfo, err, coll') :=
          UpsertId cedarConfigurationID (Config_ID c, Config_Settings c) coll in
        (Wrap err "problem saving application configuration", c, coll',
         [{| log_ns := DatabaseName +:+ "." +:+ configurationCollection;
             log_id := cedarConfigurationID;
             log_operation := "save build cost reporting configuration";
             log_change_info := changeInfo |}])
    end.

(** [LoadCedarConfig]: what it reads from the file, marked as populated and
    without an environment. *)
Definition LoadCedarConfig (file : string) : result CedarConfig :=
  match ReadFileYAML file with
  | Err e => Err (Stacked e)
  | Ok (id, s) =>
      Ok {| Config_ID := id; Config_Settings := s;
            Config_populated := true; Config_env := nilEnv |}
  end.

End WithEnvironment.

Arguments ID {Environment} _.
Arguments Report {Environment} _.
Arguments Evergreen_ {Environment} _.
Arguments Providers {Environment} _.
Arguments env {Environment} _.
Arguments populated {Environment} _.
Arguments toDoc {Environment} _ _.
Arguments decodeInto {Environment} _ _ _ _ _.
Arguments setPopulated {Environment} _ _.
Arguments Setup {Environment} _ _.
Arguments IsNil {Environment} _.
Arguments FindID {Environment} _ _ _ _ _ _ _.
Arguments Save {Environment} _ _ _.
Arguments newCostReport {Environment} _.
Arguments Config_ID {Environment Settings} _.
Arguments Config_Settings {Environment Settings} _.
Arguments Config_populated {Environment Settings} _.
Arguments Config_env {Environment Settings} _.
Arguments CedarConfig_IsNil {Environment Settings} _.
Arguments CedarConfig_setPopulated {Environment Settings} _ _.
Arguments CedarConfig_Find {Environment} _ _ {Settings} _ _ _.
Arguments NewCedarConfig {Environment Settings} _ _ _.
Arguments CedarConfig_Setup {Environment Settings} _ _.
Arguments CedarConfig_Save {Environment} _ {Settings} _ _ _.
Arguments LoadCedarConfig {Environment} _ {Settings} _ _.

End Model.

(* ===================================================================== *)
(** ** operations/cost.go *)
(* ===================================================================== *)

Module Operations.
Import Errors.

(** *** The scheduler's tick ([collectLoop]) *)

Section Collect.

(** [time.Local]. *)
Variable Local : GoTime.Location.

(** The work queue, with its [Put]; jobs are told apart by their id. *)
Variable Queue : Type.
Variable Put : Queue -> string -> option error * Queue.

Definition lastHour (t : GoTime.Time) : GoTime.Time :=
  GoTime.Date (GoTime.Time_Year t) (GoTime.Time_Month t) (GoTime.Time_Day t)
              (GoTime.Time_Hour t) 0 0 0 Local.

(** The job id of the tick at [t], the time the closure reads:
    [fmt.Sprintf("brc-%s", lastHour)]. *)
Definition jobID (t : GoTime.Time) : string :=
  "brc-" +:+ GoTime.Time_String (lastHour t).

(** The operation run at every tick: the error it returns, the queue
    afterwards and the id it scheduled. *)
Definition collectTick (t : GoTime.Time) (queue : Queue)
  : option error * Queue * string :=
  let id := jobID t in
  let '(err, queue') := Put queue id in
  (err, queue', id).

End Collect.

Arguments collectTick _ {Queue} _ _ _.

(** Modelled from the spec: the work queue belongs to another library; per
    the spec it rejects the submission of a job whose id it already holds.
    It is kept as the set of the ids of its jobs. *)
Definition dedupPut (queue : gset string) (id : string) : option error * gset string :=
  if decide (id ∈ queue)
  then (Some (New ("duplicate job " +:+ id)), queue)
  else (None, {[id]} ∪ queue).



(** The name under which a report of a window is exported. *)
Definition exportName (start : GoTime.Time) (duration : GoTime.Duration) : string :=
  GoTime.Time_Format start "2006-01-02-15-04" +:+ "."
    +:+ GoTime.Duration_String duration +:+ ".json".

(** *** The on-demand export ([writeCostReport]) *)

Section Write.

Variable Environment : Type.
Variable nilEnv : Environment.

(** [model.CostConfig] and its [GetDuration], which resolves the
    duration to report on from the configuration and the one asked for. *)
Variable CostConfig : Type.
Variable GetDuration : CostConfig -> GoTime.Duration -> result GoTime.Duration.

(** The collaborators of the report builder: the Evergreen breakdown and
    the cloud billing of a window, and the clock. *)
Variable fetchEvergreen :
  GoTime.Time -> GoTime.Duration -> CostConfig -> result Model.EvergreenCost.
Variable collectProviders :
  GoTime.Time -> GoTime.Duration -> CostConfig -> result (list Model.CloudProvider).
Variable now : GoTime.Time.

(** Modelled from the spec: [cost.CreateReport], the report builder, is
    not among the sources.  Per the spec it assembles the report of the
    window from the fetcher's and the billing collector's outputs,
    [Begin]/[End] being the reporting window and [Generated] the time of
    the build, and any failure of a collaborator aborts the build. *)
Definition CreateReport (start : GoTime.Time) (duration : GoTime.Duration)
    (conf : CostConfig) : result (Model.CostReport Environment) :=
  match fetchEvergreen start duration conf with
  | Err e => Err e
  | Ok evg =>
      match collectProviders start duration conf with
      | Err e => Err e
      | Ok providers =>
          Ok {| Model.ID := "";
                Model.Report :=
                  {| Model.Generated := now;
                     Model.Begin := start;
                     Model.End_ := GoTime.Time_Add start duration |};
                Model.Evergreen_ := evg;
                Model.Providers := providers;
                Model.env := nilEnv;
                Model.populated := false |}
      end
  end.

(** The files written, by name. *)
Record FileSystem := {
  files : gmap string (Model.CostReport Environment);
  writeFault : option error
}.

(** Modelled from the spec: [cost.WriteToFile] is not among the sources.
    Per the spec it serializes the report to the file of the given name,
    overwriting a file already there. *)
Definition WriteToFile (conf : CostConfig) (report : Model.CostReport Environment)
    (filename : string) (fs : FileSystem) : option error * FileSystem :=
  match writeFault fs with
  | Some e => (Some e, fs)
  | None => (None, {| files := <[filename:=report]> (files fs); writeFault := None |})
  end.

Definition writeCostReport (conf : CostConfig) (start : GoTime.Time)
    (dur : GoTime.Duration) (fs : FileSystem) : option error * FileSystem :=
  match GetDuration conf dur with
  | Err e => (Wrap (Some e) "Problem with duration", fs)
  | Ok duration =>
      match CreateReport start duration conf with
      | Err e => (Wrap (Some e) "Problem generating report", fs)
      | Ok report =>
          let fnDate :=
            GoTime.Time_Format (Model.Begin (Model.Report report)) "2006-01-02-15-04" in
          let filename :=
            fnDate +:+ "." +:+ GoTime.Duration_String duration +:+ ".json" in
          match WriteToFile conf report filename fs with
          | (Some e, fs') => (Wrap (Some e) "Problem printing report", fs')
          | (None, fs') => (None, fs')
          end
      end
  end.

(** [time.Parse(sink.ShortDateFormat, _)] (the layout is a constant of the
    root package) and [model.LoadCostConfig]. *)
Variable parseStart : string -> result GoTime.Time.
Variable LoadCostConfig : string -> result CostConfig.

(** The action of the [write] command, of the values of its flags [start],
    [config] and [duration]. *)
Definition write (startFlag configFlag : string) (durationFlag : GoTime.Duration)
    (fs : FileSystem) : option error * FileSystem :=
  match parseStart startFlag with
  | Err e => (Some (Wrapped e ("problem parsing time from " +:+ startFlag)), fs)
  | Ok start =>
      match LoadCostConfig configFlag with
      | Err e =>
          (Some (Wrapped e ("problem loading cost configuration from " +:+ configFlag)), fs)
      | Ok conf =>
          match writeCostReport conf start durationFlag fs with
          | (Some e, fs') => (Some (Wrapped e "problem writing cost report"), fs')
          | (None, fs') => (None, fs')
          end
      end
  end.

End Write.

(** *** The commands on the application configuration *)

Section ConfigCommands.

Variable Environment : Type.
Variable GetSessionWithConfig : Environment -> result string.
Variable Settings : Type.
Variable zeroSettings : Settings.
Variable setFlagsEnv : Environment -> Settings -> Settings.
Variable configurationCollection : string.
Variable ReadFileYAML : string -> result (string * Settings).
Variable nilEnv : Environment.

(** [configure], of another file of the package: the error it returns and
    the environment as it has set it up. *)
Variable configure :
  Environment -> Z -> bool -> string -> string -> string -> option error * Environment.

(** [util.WriteJSON]. *)
Variable WriteJSON : string -> Model.CedarConfig Environment Settings -> option error.

(** [cedar.GetEnvironment()]. *)
Variable globalEnv : Environment.

(** The action of the [dump] command. *)
Definition dumpCedarConfig (fileName mongodbURI dbName : string)
    (coll : Model.Collection (string * Settings)) : option error :=
  match configure globalEnv 2 true mongodbURI "" dbName with
  | (Some e, _) => Some (Stacked e)
  | (None, env) =>
      let conf :=
        Model.CedarConfig_Setup env
          {| Model.Config_ID := ""; Model.Config_Settings := zeroSettings;
             Model.Config_populated := false; Model.Config_env := nilEnv |} in
      match Model.CedarConfig_Find GetSessionWithConfig nilEnv setFlagsEnv conf coll with
      | (Some e, _) => Some (Stacked e)
      | (None, conf) => WithStack (WriteJSON fileName conf)
      end
  end.

(** The action of the [load] command: the error it returns and the
    collection afterwards. *)
Definition loadCedarConfig (fileName mongodbURI dbName : string)
    (coll : Model.Collection (string * Settings))
  : option error * Model.Collection (string * Settings) :=
  match configure globalEnv 2 true mongodbURI "" dbName with
  | (Some e, _) => (Some (Stacked e), coll)
  | (None, env) =>
      match Model.LoadCedarConfig nilEnv ReadFileYAML fileName with
      | Err e => (Some (Stacked e), coll)
      | Ok conf =>
          let conf := Model.CedarConfig_Setup env conf in
          let '(err, _, coll', _) :=
            Model.CedarConfig_Save GetSessionWithConfig configurationCollection conf coll in
          (WithStack err, coll')
      end
  end.

End ConfigCommands.

Arguments files {Environment} _.
Arguments writeFault {Environment} _.
Arguments CreateReport {Environment} _ {CostConfig} _ _ _ _ _ _.
Arguments WriteToFile {Environment CostConfig} _ _ _ _.
Arguments writeCostReport {Environment} _ {CostConfig} _ _ _ _ _ _ _ _.
Arguments write {Environment} _ {CostConfig} _ _ _ _ _ _ _ _ _ _.
Arguments dumpCedarConfig {Environment} _ {Settings} _ _ _ _ _ _ _ _ _ _.
Arguments loadCedarConfig {Environment} _ {Settings} _ _ _ _ _ _ _ _ _.

End Operations.

(* ===================================================================== *)
(** ** Concrete collaborators, for the examples *)
(* ===================================================================== *)

Module Fixtures.
Import Errors Evergreen.

Definition cost (id : string) (seconds : Z) : DistroCost :=
  {| DistroID := id; Provider := "p1"; InstanceType := "";
     SumTimeTaken := (seconds * GoTime.Second)%Z; SumEstimatedCost := 0%float |}.

(** The listing names one distro per character of the body; a dash stands
    for a [null] among the entries. *)
Definition unmarshalDistros (data : list Byte.byte)
  : result (option (list (option Distro))) :=
  let body := string_of_list_byte data in
  if String.eqb body "null" then Ok None
  else Ok (Some (map (fun ch => if Ascii.eqb ch "-" then None
                                else Some {| Distro_DistroID := String ch "" |})
                     (list_ascii_of_string body))).

(** A cost document is "<id>=<seconds>", with one-digit seconds standing
    for the scenario's 120, 0 and 45. *)
Definition unmarshalDistroCost (data : list Byte.byte) : result (option DistroCost) :=
  let body := string_of_list_byte data in
  if String.eqb body "a" then Ok (Some (cost "a" 120))
  else if String.eqb body "b" then Ok (Some (cost "b" 0))
  else if String.eqb body "c" then Ok (Some (cost "c" 45))
  else if String.eqb body "null" then Ok None
  else Err (New "unexpected end of JSON input").

Definition answer (body : string) : Response :=
  {| data := list_byte_of_string body; link := ""; err := None |}.

Definition failure (msg : string) : Response :=
  {| data := []; link := ""; err := Some (New msg) |}.

(** The API of the scenario: distros a, b and c with 120s, 0s and 45s. *)
Definition scenario : Client :=
  {| respond := fun _ path =>
       if String.eqb path "/distros" then answer "abc"
       else if String.prefix "/cost/distro/a?" path then answer "a"
       else if String.prefix "/cost/distro/b?" path then answer "b"
       else if String.prefix "/cost/distro/c?" path then answer "c"
       else failure "404" |}.

(** The same API with the lookup of b failing. *)
Definition flaky : Client :=
  {| respond := fun _ path =>
       if String.eqb path "/distros" then answer "abc"
       else if String.prefix "/cost/distro/a?" path then answer "a"
       else if String.prefix "/cost/distro/c?" path then answer "c"
       else failure "500" |}.

(** The API of the scenario with a request layer that gives up on a
    cancelled context. *)
Definition cancellable : Client :=
  {| respond := fun ctx path =>
       if cancelled ctx then failure "context canceled" else respond scenario ctx path |}.

(** An API whose listing has a [null] among its entries. *)
Definition holed : Client :=
  {| respond := fun _ path =>
       if String.eqb path "/distros" then answer "a-c" else respond scenario live path |}.

(** An API that is down, and one that paginates. *)
Definition down : Client := {| respond := fun _ _ => failure "connection refused" |}.

Definition paginated : Client :=
  {| respond := fun _ _ =>
       {| data := []; link := "/next"; err := Some (New "connection reset") |} |}.

Definition inOrder (n : nat) : list nat := seq 0 n.
Definition reversed (n : nat) : list nat := rev (seq 0 n).

Definition st : string := "2024-03-01T00:00:00Z".
Definition dur : string := "2h0m".

(** Two environments: one whose session can be had, one without. *)
Inductive Env : Type := connected | nilEnv.

Definition GetSessionWithConfig (e : Env) : result string :=
  match e with
  | connected => Ok "cedar"
  | nilEnv => Err (New "env is nil")
  end.

Definition march1 : GoTime.Time := GoTime.Date 2024 3 1 0 0 0 0 GoTime.UTC.

Definition report (id : string) (generated : GoTime.Time) : Model.CostReport Env :=
  {| Model.ID := id;
     Model.Report := {| Model.Generated := generated; Model.Begin := march1;
                        Model.End_ := GoTime.Time_Add march1 (2 * GoTime.Hour)%Z |};
     Model.Evergreen_ := {| Model.Projects := []; Model.Distros := [] |};
     Model.Providers := [];
     Model.env := connected;
     Model.populated := false |}.

Definition emptyStore : Model.Collection Model.CostReportDoc :=
  {| Model.docs := ∅; Model.fault := None |}.

(** Collaborators of the export: a configuration that takes the duration
    asked for, an idle fleet, no cloud bill. *)
Definition GetDuration (conf : unit) (dur : GoTime.Duration) : result GoTime.Duration :=
  if (dur <? GoTime.Minute)%Z then Err (New "duration too short") else Ok dur.

Definition fetchEvergreen (start : GoTime.Time) (duration : GoTime.Duration)
    (conf : unit) : result Model.EvergreenCost :=
  Ok {| Model.Projects := []; Model.Distros := [] |}.

Definition collectProviders (start : GoTime.Time) (duration : GoTime.Duration)
    (conf : unit) : result (list Model.CloudProvider) :=
  Ok [].

Definition noon : GoTime.Time := GoTime.Date 2024 3 2 12 0 0 0 GoTime.UTC.

(** A configuration that fixes the duration to report on, or leaves it to
    the request. *)
Definition resolveDuration (conf : option GoTime.Duration) (dur : GoTime.Duration)
  : result GoTime.Duration :=
  match conf with
  | Some fixed => GetDuration tt fixed
  | None => GetDuration tt dur
  end.

Definition idleFleet (start : GoTime.Time) (duration : GoTime.Duration)
    (conf : option GoTime.Duration) : result Model.EvergreenCost :=
  Ok {| Model.Projects := []; Model.Distros := [] |}.

Definition noBill (start : GoTime.Time) (duration : GoTime.Duration)
    (conf : option GoTime.Duration) : result (list Model.CloudProvider) :=
  Ok [].

(** [America/New_York] around 2024: standard time until March 10, daylight
    saving time until November 3 at 06:00 UTC, standard time afterwards. *)
Definition NewYork : GoTime.Location :=
  {| GoTime.lookupZone := fun unix =>
       if (unix <? 1710054000)%Z then
         {| GoTime.zname := "EST"; GoTime.zoffset := -18000;
            GoTime.zstart := 1699164000; GoTime.zend := 1710054000 |}
       else if (unix <? 1730613600)%Z then
         {| GoTime.zname := "EDT"; GoTime.zoffset := -14400;
            GoTime.zstart := 1710054000; GoTime.zend := 1730613600 |}
       else
         {| GoTime.zname := "EST"; GoTime.zoffset := -18000;
            GoTime.zstart := 1730613600; GoTime.zend := 1741503600 |} |}.

Definition emptyDisk : Operations.FileSystem Env :=
  {| Operations.files := ∅; Operations.writeFault := None |}.

Definition write (start : GoTime.Time) (dur : GoTime.Duration)
    (fs : Operations.FileSystem Env) : option error * Operations.FileSystem Env :=
  Operations.writeCostReport nilEnv GetDuration fetchEvergreen collectProviders noon
    tt start dur fs.

Definition writeConfigured (conf : option GoTime.Duration) (start : GoTime.Time)
    (dur : GoTime.Duration) (fs : Operations.FileSystem Env)
  : option error * Operations.FileSystem Env :=
  Operations.writeCostReport nilEnv resolveDuration idleFleet noBill noon
    conf start dur fs.

(** Collaborators of the commands on the application configuration: the
    sections are a string, the database is reached when a URI is given, and
    one file can be read. *)
Definition emptyConfigStore : Model.Collection (string * string) :=
  {| Model.docs := ∅; Model.fault := None |}.

Definition setFlagsEnv (e : Env) (s : string) : string := s.

Definition configure (e : Env) (numWorkers : Z) (localQueue : bool)
    (mongodbURI bucket dbName : string) : option error * Env :=
  if String.eqb mongodbURI "" then (Some (New "no database URI"), e)
  else (None, connected).

Definition ReadFileYAML (file : string) : result (string * string) :=
  if String.eqb file "cedar.yaml" then Ok ("from-the-file", "slack: {level: info}")
  else Err (New "no such file").

Definition WriteJSON (file : string) (c : Model.CedarConfig Env string) : option error :=
  if String.eqb file "" then Some (New "no file name") else None.

End Fixtures.

(* ===================================================================== *)
(** * Statements *)
(* ===================================================================== *)

(** ** Errors *)

Section ErrorFacts.
Import Errors.

Lemma Wrap_is_Some (err : option error) (msg : string) :
  is_Some (Wrap err msg) <-> is_Some err.
Proof. destruct err; simpl; split; intros [x H]; eauto; discriminate. Qed.

Lemma Cause_Wrapped (e : error) (msg : string) : Cause (Wrapped e msg) = Cause e.
Proof. reflexivity. Qed.

Lemma Cause_idempotent (e : error) : Cause (Cause e) = Cause e.
Proof. induction e; simpl; auto. Qed.

Lemma HasErrors_true (c : Catcher) : HasErrors c = true <-> c <> [].
Proof. destruct c; simpl; split; congruence. Qed.

Lemma HasErrors_Add (c : Catcher) (err : option error) :
  HasErrors c = true -> HasErrors (Add c err) = true.
Proof. destruct err, c; simpl; auto. Qed.

Lemma HasErrors_Add_Some (c : Catcher) (e : error) : HasErrors (Add c (Some e)) = true.
Proof. destruct c; reflexivity. Qed.

Lemma Resolve_is_Some (c : Catcher) : is_Some (Resolve c) <-> HasErrors c = true.
Proof.
  unfold Resolve. destruct (HasErrors c); split; intros H; eauto.
  - destruct H; discriminate.
  - discriminate.
Qed.

End ErrorFacts.

(** ** The worker pool of [getDistroCosts] *)

Section PoolFacts.
Import Errors Evergreen.

Variable unmarshalDistroCost : list Byte.byte -> result (option DistroCost).
Variables (c : Client) (st dur : string).

Local Abbreviation work := (Evergreen.work unmarshalDistroCost c st dur).
Local Abbreviation step := (Evergreen.step unmarshalDistroCost c st dur).
Local Abbreviation run := (Evergreen.run unmarshalDistroCost c st dur).
Local Abbreviation lookupOf := (lookupResult unmarshalDistroCost c st dur).

(** A lookup appends its call to the log, and its answer depends on the
    context and the path only. *)
Lemma GetDistroCost_log (ctx0 : Context) (id : string) (log : list Request) :
  GetDistroCost unmarshalDistroCost c ctx0 id st dur log
  = (fst (GetDistroCost unmarshalDistroCost c ctx0 id st dur []),
     log ++ [(ctx0, costPath id st dur)]).
Proof.
  unfold GetDistroCost, bind, get, ret. simpl.
  destruct (negb _); [reflexivity|].
  destruct (err _); [reflexivity|].
  destruct (unmarshalDistroCost _); reflexivity.
Qed.

Lemma lookupResult_path (ctx0 : Context) (id id' : string) :
  costPath id st dur = costPath id' st dur -> lookupOf ctx0 id = lookupOf ctx0 id'.
Proof.
  intros H. unfold lookupResult, GetDistroCost, bind, get, ret. simpl.
  rewrite H. reflexivity.
Qed.

(** A lookup returns a record or an error, never both. *)
Lemma lookupResult_exclusive (ctx0 : Context) (id : string) (dc : DistroCost) :
  fst (lookupOf ctx0 id) = Some dc -> snd (lookupOf ctx0 id) = None.
Proof.
  unfold lookupResult, GetDistroCost, bind, get, ret. simpl.
  destruct (negb _); simpl; [discriminate|].
  destruct (err _); simpl; [discriminate|].
  destruct (unmarshalDistroCost _); simpl; [reflexivity | discriminate].
Qed.

Lemma ctx_Err_None (ctx0 : Context) : ctx_Err ctx0 = None -> ctx0 = live.
Proof. destruct ctx0 as [[]]; unfold ctx_Err; simpl; [discriminate | reflexivity]. Qed.


(** [work] computes exactly the turns. *)
Lemma work_turn (i : nat) (s s' : pool) :
  work i s = Some s' <-> turn unmarshalDistroCost c st dur i s s'.
Proof.
  unfold Evergreen.work. split.
  - destruct (workers s !! i) as [w|] eqn:Hw; [|discriminate].
    destruct w.
    + destruct (distros s) eqn:Hq; intros [= <-]; econstructor; eauto.
    + destruct (ctx_Err (ctx s)) eqn:Hc; intros [= <-].
      * eapply turn_cancelled; eauto.
        unfold ctx_Err in Hc. destruct (cancelled (ctx s)); congruence.
      * eapply turn_checked; eauto.
        unfold ctx_Err in Hc. destruct (cancelled (ctx s)); congruence.
    + rewrite GetDistroCost_log. fold (lookupOf (ctx s) distro).
      destruct (lookupOf (ctx s) distro) as [dc er] eqn:Hr. intros [= <-].
      pose proof (turn_lookup unmarshalDistroCost c st dur i s distro Hw) as T.
      rewrite Hr in T. simpl in T. exact T.
    + intros [= <-].
      pose proof (turn_deliver unmarshalDistroCost c st dur i s dc Hw) as T.
      unfold positive in T. destruct (decide (0 < SumTimeTaken dc)%Z) as [H|H].
      * apply Z.ltb_lt in H. rewrite H. exact T.
      * apply Z.ltb_nlt in H. rewrite H. exact T.
    + discriminate.
  - intros T. destruct T as [Hw Hq|d q Hw Hq|d Hw Hc|d Hw Hc|d Hw|dc Hw]; rewrite Hw.
    + rewrite Hq. reflexivity.
    + rewrite Hq. reflexivity.
    + unfold ctx_Err. rewrite Hc. reflexivity.
    + unfold ctx_Err. rewrite Hc. reflexivity.
    + rewrite GetDistroCost_log. fold (lookupOf (ctx s) d).
      destruct (lookupOf (ctx s) d) as [dc er]. simpl. reflexivity.
    + unfold positive. destruct (decide (0 < SumTimeTaken dc)%Z) as [H|H].
      * apply Z.ltb_lt in H. rewrite H. reflexivity.
      * apply Z.ltb_nlt in H. rewrite H. reflexivity.
Qed.

(** *** Termination *)

Lemma weights_insert (ws : list worker) (i : nat) (w w' : worker) :
  ws !! i = Some w ->
  weights (<[i:=w']> ws) + weight w = weights ws + weight w'.
Proof.
  revert i. induction ws as [|x ws IH]; intros [|i] H; simpl in *; try discriminate.
  - injection H as ->. lia.
  - specialize (IH _ H). lia.
Qed.

Lemma step_measure (e : event) (s s' : pool) :
  step e s = Some s' -> measure s' < measure s.
Proof.
  destruct e as [i|]; simpl.
  - intros T. apply work_turn in T.
    destruct T as [Hw Hq|d q Hw Hq|d Hw Hc|d Hw Hc|d Hw|dc Hw];
      unfold measure; simpl; rewrite ?Hq; simpl.
    + pose proof (weights_insert _ i _ Exited Hw). simpl in *; lia.
    + pose proof (weights_insert _ i _ (Got d) Hw). simpl in *; lia.
    + pose proof (weights_insert _ i _ Exited Hw). simpl in *; lia.
    + pose proof (weights_insert _ i _ (Checked d) Hw). simpl in *; lia.
    + destruct (fst (lookupOf (ctx s) d)) as [x|].
      * pose proof (weights_insert _ i _ (Sending x) Hw). simpl in *; lia.
      * pose proof (weights_insert _ i _ Ready Hw). simpl in *; lia.
    + pose proof (weights_insert _ i _ Ready Hw). simpl in *; lia.
  - destruct (cancelled (ctx s)) eqn:Hc; [discriminate|].
    intros [= <-]. unfold measure. simpl. rewrite Hc. lia.
Qed.

Lemma firstLive_Some (ws : list worker) (j : nat) :
  firstLive ws = Some j -> exists w, ws !! j = Some w /\ exited w = false.
Proof.
  revert j. induction ws as [|x ws IH]; simpl; intros j H; [discriminate|].
  destruct (exited x) eqn:Hx.
  - destruct (firstLive ws) as [k|]; simpl in H; [|discriminate].
    injection H as <-. simpl. eauto.
  - injection H as <-. simpl. eauto.
Qed.

Lemma firstLive_None (ws : list worker) :
  firstLive ws = None <-> Forall (fun w => w = Exited) ws.
Proof.
  induction ws as [|x ws IH]; simpl.
  - split; auto.
  - destruct x; simpl; try (split; [discriminate | inversion 1; discriminate]).
    destruct (firstLive ws); simpl.
    + split; [discriminate|]. inversion 1; subst. apply IH in H3. discriminate.
    + split; auto. intros _. constructor; auto. apply IH; auto.
Qed.

(** A goroutine that has not returned can always take its turn: the
    channel [distros] is closed, and the main goroutine is always ready to
    receive. *)
Lemma work_enabled (s : pool) (j : nat) :
  firstLive (workers s) = Some j -> is_Some (work j s).
Proof.
  intros H. apply firstLive_Some in H as (w & Hw & Hx).
  unfold Evergreen.work. rewrite Hw. destruct w; simpl in Hx; try discriminate.
  - destruct (distros s); eauto.
  - destruct (ctx_Err (ctx s)); eauto.
  - destruct (GetDistroCost _ _ _ _ _ _ _) as [[dc er] lg]. eauto.
  - eauto.
Qed.

(** With fuel for [measure s] events the run ends with every goroutine
    returned, whatever the scheduler does. *)
Lemma run_finished (fuel : nat) (sched : list event) (s : pool) :
  measure s <= fuel -> finished (run fuel sched s).
Proof.
  revert sched s. induction fuel as [|fuel IH]; intros sched s Hm; simpl.
  - unfold finished. destruct (firstLive (workers s)) as [j|] eqn:Hj; [|reflexivity].
    destruct (work_enabled _ _ Hj) as [s' Hs'].
    pose proof (step_measure (Work j) s _ Hs'). lia.
  - destruct (firstLive (workers s)) as [j|] eqn:Hj; [|exact Hj].
    destruct (step _ s) as [s'|] eqn:Hs.
    + apply IH. apply step_measure in Hs. lia.
    + destruct (work_enabled _ _ Hj) as [s' Hs']. simpl. rewrite Hs'. simpl.
      apply IH. pose proof (step_measure (Work j) s _ Hs'). lia.
Qed.

(** *** The scheduler produces the complete executions, and all of them *)

Lemma run_complete (es : list event) (s s' : pool) :
  execution unmarshalDistroCost c st dur s es s' ->
  forall fuel, measure s <= fuel -> run fuel es s = s'.
Proof.
  induction 1 as [s Hf|e s s' es s'' Hn Hs _ IH]; intros fuel Hm.
  - unfold finished in Hf. destruct fuel; simpl; [reflexivity|]. by rewrite Hf.
  - pose proof (step_measure _ _ _ Hs) as Hlt.
    destruct fuel as [|fuel]; [lia|]. simpl.
    unfold finished in Hn. destruct (firstLive (workers s)); [|congruence].
    rewrite Hs. apply IH. lia.
Qed.

Lemma run_is_execution (fuel : nat) (sched : list event) (s : pool) :
  measure s <= fuel ->
  exists es, execution unmarshalDistroCost c st dur s es (run fuel sched s).
Proof.
  revert sched s. induction fuel as [|fuel IH]; intros sched s Hm.
  - pose proof (run_finished 0 sched s Hm) as Hf. simpl in *.
    exists []. by constructor.
  - simpl. destruct (firstLive (workers s)) as [j|] eqn:Hj.
    2:{ exists []. by constructor. }
    assert (Hn : ~ finished s) by (unfold finished; congruence).
    destruct (step _ s) as [s'|] eqn:Hs.
    + destruct (IH (tail sched) s') as [es He].
      { apply step_measure in Hs. lia. }
      eexists (_ :: es). eapply execution_step; eauto.
    + destruct (work_enabled _ _ Hj) as [s' Hs']. simpl. rewrite Hs'. simpl.
      destruct (IH (tail sched) s') as [es He].
      { pose proof (step_measure (Work j) s _ Hs'). lia. }
      exists (Work j :: es). eapply execution_step; eauto.
Qed.

(** *** Invariants *)

(** What every event preserves holds at the end of a run. *)
Lemma run_invariant (P : pool -> Prop) :
  (forall e s s', P s -> step e s = Some s' -> P s') ->
  forall fuel sched s, P s -> P (run fuel sched s).
Proof.
  intros Hstep. induction fuel as [|fuel IH]; intros sched s Hs; simpl; [exact Hs|].
  destruct (firstLive (workers s)) as [j|] eqn:Hj; [|exact Hs].
  destruct (step _ s) as [s'|] eqn:Hs'.
  - apply IH. eapply Hstep; eauto.
  - destruct (work_enabled _ _ Hj) as [s'' Hs'']. simpl. rewrite Hs''. simpl.
    apply IH. apply (Hstep (Work j) s); auto.
Qed.

(** The same for the runs in which the context is not cancelled meanwhile. *)
Lemma run_invariant_work (P : pool -> Prop) :
  (forall i s s', P s -> work i s = Some s' -> P s') ->
  forall fuel sched s, Forall (fun e => e <> Cancel) sched -> P s -> P (run fuel sched s).
Proof.
  intros Hstep. induction fuel as [|fuel IH]; intros sched s Hsched Hs; simpl; [exact Hs|].
  assert (Htl : Forall (fun e => e <> Cancel) (tail sched)).
  { destruct sched; simpl; auto. inversion Hsched; auto. }
  destruct (firstLive (workers s)) as [j|] eqn:Hj; [|exact Hs].
  destruct (step _ s) as [s'|] eqn:Hs'.
  - apply IH; auto. destruct sched as [|[i|] sched]; simpl in Hs'.
    + eapply Hstep; eauto.
    + eapply Hstep; eauto.
    + inversion Hsched; subst. congruence.
  - destruct (work_enabled _ _ Hj) as [s'' Hs'']. simpl. rewrite Hs''. simpl.
    apply IH; auto. apply (Hstep j s); auto.
Qed.


(** *** The observations of a fetch are invariant *)

Lemma elem_of_insert_inv {A : Type} (l : list A) (i : nat) (x y : A) :
  y ∈ <[i:=x]> l -> y = x \/ y ∈ l.
Proof.
  revert i. induction l as [|a l IH]; intros [|i]; simpl; intros H; auto.
  - apply elem_of_cons in H as [->|H]; auto. right. by apply list_elem_of_further.
  - apply elem_of_cons in H as [->|H].
    + right. apply list_elem_of_here.
    + destruct (IH _ H); auto. right. by apply list_elem_of_further.
Qed.

Lemma elem_of_insert_keep {A : Type} (l : list A) (i : nat) (x x0 y : A) :
  l !! i = Some x0 -> y ∈ l -> y = x0 \/ y ∈ <[i:=x]> l.
Proof.
  revert i. induction l as [|a l IH]; intros [|i]; simpl; intros Hi H;
    try discriminate.
  - injection Hi as ->. apply elem_of_cons in H as [->|H]; auto.
    right. by apply list_elem_of_further.
  - apply elem_of_cons in H as [->|H].
    + right. apply list_elem_of_here.
    + destruct (IH _ Hi H); auto. right. by apply list_elem_of_further.
Qed.

Variable log0 : list Request.

Local Abbreviation observed := (Evergreen.observed unmarshalDistroCost c st dur log0).
Local Abbreviation obtained := (Evergreen.obtained unmarshalDistroCost c st dur log0).
Local Abbreviation failed := (Evergreen.failed unmarshalDistroCost c st dur log0).

Lemma issued_snoc (log : list Request) (p : Request) :
  log = log0 ++ issued log0 log ->
  issued log0 (log ++ [p]) = issued log0 log ++ [p].
Proof.
  intros H. unfold issued. rewrite drop_app_le; [reflexivity|].
  apply (f_equal length) in H. rewrite length_app in H. lia.
Qed.

Lemma observed_start (ctx0 : Context) (q : list string) :
  observed {| distros := q; workers := replicate 16 Ready; catcher := NewCatcher;
              distroCosts := []; ctx := ctx0; requests := log0 |}.
Proof.
  unfold Evergreen.observed, Evergreen.obtained, Evergreen.failed, lookedUp, issued. simpl.
  rewrite drop_all, app_nil_r.
  split; [reflexivity|]. split.
  { split; [discriminate|]. intros (x & id & H & _). by apply elem_of_nil in H. }
  split. { intros dc H. by apply elem_of_nil in H. }
  split.
  { intros dc H. repeat (apply elem_of_cons in H as [H|H]; [discriminate|]).
    by apply elem_of_nil in H. }
  intros dc (x & id & H & _). by apply elem_of_nil in H.
Qed.

(** A turn that looks nothing up keeps the observations, if it moves no
    record in or out of the hands of a goroutine. *)
Lemma observed_quiet (i : nat) (w w' : worker) (s : pool) :
  workers s !! i = Some w ->
  (forall dc, w <> Sending dc) -> (forall dc, w' <> Sending dc) ->
  observed s -> observed (setWorker i w' s).
Proof.
  intros Hw Hn Hn' (Hlog & Herr & Hcosts & Hsend & Hkept).
  unfold Evergreen.observed, Evergreen.obtained, Evergreen.failed in *; simpl.
  split; [exact Hlog|]. split; [exact Herr|]. split; [exact Hcosts|]. split.
  - intros dc H. apply elem_of_insert_inv in H as [H|H]; auto.
    symmetry in H. by apply Hn' in H.
  - intros dc Ho Hp. destruct (Hkept dc Ho Hp) as [H|H]; auto.
    right. destruct (elem_of_insert_keep _ i w' _ _ Hw H) as [H'|H']; auto.
    symmetry in H'. by apply Hn in H'.
Qed.

Lemma observed_step (e : event) (s s' : pool) :
  observed s -> step e s = Some s' -> observed s'.
Proof.
  intros Ho. destruct e as [i|]; simpl.
  2:{ destruct Ho as (Hlog & Herr & Hcosts & Hsend & Hkept).
      destruct (cancelled (ctx s)); [discriminate|]. intros [= <-].
      unfold Evergreen.observed, Evergreen.obtained, Evergreen.failed in *. simpl. auto. }
  intros T. apply work_turn in T.
  destruct T as [Hw Hq|d q Hw Hq|d Hw Hc|d Hw Hc|d Hw|dc Hw].
  - (* the channel is drained *)
    apply (observed_quiet i Ready Exited s Hw); auto; discriminate.
  - (* a distro is received *)
    pose proof (observed_quiet i Ready (Got d) s Hw) as H.
    destruct H as (Hlog & Herr & Hcosts & Hsend & Hkept); auto; try discriminate.
    unfold Evergreen.observed, Evergreen.obtained, Evergreen.failed in *; simpl in *.
    auto.
  - (* the context is cancelled *)
    apply (observed_quiet i (Got d) Exited s Hw); auto; discriminate.
  - (* the context is live *)
    apply (observed_quiet i (Got d) (Checked d) s Hw); auto; discriminate.
  - (* a lookup *)
    destruct Ho as (Hlog & Herr & Hcosts & Hsend & Hkept).
    unfold Evergreen.observed, Evergreen.obtained, Evergreen.failed in *; simpl.
    unfold lookedUp in *. rewrite (issued_snoc _ _ Hlog).
    assert (Hnew : forall x id,
               (x, costPath id st dur)
                 ∈ issued log0 (requests s) ++ [(ctx s, costPath d st dur)] ->
               (x, costPath id st dur) ∈ issued log0 (requests s)
               \/ (x = ctx s /\ lookupOf x id = lookupOf x d)).
    { intros x id H. apply elem_of_app in H as [H|H]; auto.
      apply elem_of_cons in H as [H|H]; [|by apply elem_of_nil in H].
      assert (Hx : x = ctx s) by congruence.
      assert (Hp : costPath id st dur = costPath d st dur) by congruence.
      subst x. right. split; [reflexivity|]. by apply lookupResult_path. }
    assert (Hd : (ctx s, costPath d st dur)
                   ∈ issued log0 (requests s) ++ [(ctx s, costPath d st dur)]).
    { apply elem_of_app. right. apply list_elem_of_singleton. reflexivity. }
    split. { rewrite Hlog at 1. by rewrite app_assoc. }
    split.
    { split.
      - intros H. destruct (snd (lookupOf (ctx s) d)) as [e|] eqn:He.
        + exists (ctx s), d. rewrite He. eauto.
        + simpl in H. apply Herr in H as (x & id & H1 & H2). exists x, id.
          split; [|exact H2]. apply elem_of_app. auto.
      - intros (x & id & H1 & H2). apply Hnew in H1 as [H1|[-> H1]].
        + apply HasErrors_Add. apply Herr. exists x, id. auto.
        + rewrite H1 in H2. destruct H2 as [e ->]. simpl. apply HasErrors_Add_Some. }
    split.
    { intros dc H. destruct (Hcosts dc H) as (Hp & x & id & H1 & H2). split; auto.
      exists x, id. split; [|exact H2]. apply elem_of_app. auto. }
    split.
    { intros dc H. apply elem_of_insert_inv in H as [H|H].
      - exists (ctx s), d. split; auto.
        destruct (fst (lookupOf (ctx s) d)); congruence.
      - destruct (Hsend dc H) as (x & id & H1 & H2). exists x, id.
        split; [|exact H2]. apply elem_of_app. auto. }
    intros dc (x & id & H1 & H2) Hp. apply Hnew in H1 as [H1|[-> H1]].
    + destruct (Hkept dc (ex_intro _ x (ex_intro _ id (conj H1 H2))) Hp) as [H|H]; auto.
      right.
      destruct (elem_of_insert_keep _ i
                  (match fst (lookupOf (ctx s) d) with
                   | None => Ready | Some dc => Sending dc end)
                  _ _ Hw H); [discriminate|auto].
    + rewrite H1 in H2. rewrite H2. right.
      apply list_elem_of_insert. by eapply lookup_lt_Some.
  - (* a record is delivered *)
    destruct Ho as (Hlog & Herr & Hcosts & Hsend & Hkept).
    unfold Evergreen.observed, Evergreen.obtained, Evergreen.failed in *; simpl.
    repeat split; auto; try tauto.
    + destruct (decide (positive dc)) as [Hp|Hp].
      * apply elem_of_app in H as [H|H]; [by apply Hcosts|].
        apply list_elem_of_singleton in H. by subst.
      * by apply Hcosts.
    + destruct (decide (positive dc)) as [Hp|Hp].
      * apply elem_of_app in H as [H|H]; [by apply Hcosts|].
        apply list_elem_of_singleton in H. subst. apply Hsend.
        apply list_elem_of_lookup. eauto.
      * by apply Hcosts.
    + intros dc' H. apply elem_of_insert_inv in H as [H|H]; [discriminate|auto].
    + intros dc' Ho Hp. destruct (Hkept dc' Ho Hp) as [H|H].
      * left. destruct (decide (positive dc)); auto. apply elem_of_app. auto.
      * destruct (elem_of_insert_keep _ i Ready _ _ Hw H) as [H'|H']; auto.
        injection H' as ->. left. rewrite decide_True by done.
        apply elem_of_app. right. by apply list_elem_of_singleton.
Qed.

(** At the end of a run no goroutine holds a record. *)
Lemma finished_no_sending (s : pool) (dc : DistroCost) :
  finished s -> Sending dc ∉ workers s.
Proof.
  unfold finished. rewrite firstLive_None. intros H Hin.
  rewrite Forall_forall in H. apply H in Hin. discriminate.
Qed.


(** *** The balance of a fetch whose context stays live *)

Local Abbreviation recordsOf := (Evergreen.recordsOf unmarshalDistroCost c st dur live).
Local Abbreviation errorsOf := (Evergreen.errorsOf unmarshalDistroCost c st dur live).
Local Abbreviation balanced := (Evergreen.balanced unmarshalDistroCost c st dur).
Local Abbreviation liveLookup := (lookupResult unmarshalDistroCost c st dur live).

Lemma omap_insert {A : Type} (g : worker -> option A) (ws : list worker)
    (i : nat) (w w' : worker) :
  ws !! i = Some w ->
  option_list (g w) ++ omap g (<[i:=w']> ws) ≡ₚ option_list (g w') ++ omap g ws.
Proof.
  revert i. induction ws as [|x ws IH]; intros [|i] H; simpl in *; try discriminate.
  - injection H as ->. destruct (g w), (g w'); simpl; auto.
    apply Permutation_swap.
  - specialize (IH _ H). destruct (g x) as [a|]; simpl; auto.
    rewrite <- !Permutation_middle. by rewrite IH.
Qed.

Lemma omap_insert_same {A : Type} (g : worker -> option A) (ws : list worker)
    (i : nat) (w w' : worker) :
  ws !! i = Some w -> g w = g w' -> omap g (<[i:=w']> ws) ≡ₚ omap g ws.
Proof.
  intros H Hg. pose proof (omap_insert g ws i w w' H) as P.
  rewrite Hg in P. by apply Permutation_app_inv_l in P.
Qed.

Lemma recordsOf_Permutation : Proper ((≡ₚ) ==> (≡ₚ)) recordsOf.
Proof. intros l1 l2 H. unfold Evergreen.recordsOf. by rewrite H. Qed.

Lemma errorsOf_Permutation : Proper ((≡ₚ) ==> (≡ₚ)) errorsOf.
Proof. intros l1 l2 H. unfold Evergreen.errorsOf. by rewrite H. Qed.

#[local] Existing Instance recordsOf_Permutation.
#[local] Existing Instance errorsOf_Permutation.

Lemma recordsOf_app (l1 l2 : list string) :
  recordsOf (l1 ++ l2) = recordsOf l1 ++ recordsOf l2.
Proof. apply omap_app. Qed.

Lemma errorsOf_app (l1 l2 : list string) :
  errorsOf (l1 ++ l2) = errorsOf l1 ++ errorsOf l2.
Proof. apply omap_app. Qed.

Lemma Add_option_list (ca : Catcher) (err : option error) :
  Add ca err = ca ++ option_list err.
Proof. destruct err; simpl; [reflexivity | by rewrite app_nil_r]. Qed.

Lemma cancelled_false (ctx0 : Context) : cancelled ctx0 = false -> ctx0 = live.
Proof. destruct ctx0 as [b]. simpl. by intros ->. Qed.

Lemma balanced_turn (queue0 : list string) (i : nat) (s s' : pool) :
  balanced queue0 s -> work i s = Some s' -> balanced queue0 s'.
Proof.
  intros (Hlive & Hrec & Herr & Hex) T. apply work_turn in T.
  destruct T as [Hw Hq|d q Hw Hq|d Hw Hc|d Hw Hc|d Hw|dc Hw];
    unfold Evergreen.balanced, pending in *; simpl.
  - (* the channel is drained *)
    rewrite (omap_insert_same sendingOf _ i Ready Exited Hw eq_refl).
    rewrite (omap_insert_same heldOf _ i Ready Exited Hw eq_refl).
    repeat split; auto.
  - (* a distro is received *)
    rewrite (omap_insert_same sendingOf _ i Ready (Got d) Hw eq_refl).
    pose proof (omap_insert heldOf _ i Ready (Got d) Hw) as P. simpl in P.
    rewrite Hq in Hrec, Herr.
    assert (Hp : omap heldOf (<[i:=Got d]> (workers s)) ++ q
                 ≡ₚ omap heldOf (workers s) ++ d :: q).
    { rewrite P. by rewrite <- Permutation_middle. }
    unfold Evergreen.recordsOf, Evergreen.errorsOf in *.
    rewrite Hp. repeat split; auto.
    intros H. apply elem_of_insert_inv in H as [H|H]; [discriminate|].
    apply Hex in H. congruence.
  - congruence.
  - (* the context is live *)
    rewrite (omap_insert_same sendingOf _ i (Got d) (Checked d) Hw eq_refl).
    rewrite (omap_insert_same heldOf _ i (Got d) (Checked d) Hw eq_refl).
    repeat split; auto.
    intros H. apply elem_of_insert_inv in H as [H|H]; [discriminate|auto].
  - (* a lookup *)
    rewrite (cancelled_false _ Hlive).
    pose proof (omap_insert heldOf _ i (Checked d)
                  (match fst (liveLookup d) with None => Ready | Some dc => Sending dc end)
                  Hw) as Pg.
    pose proof (omap_insert sendingOf _ i (Checked d)
                  (match fst (liveLookup d) with None => Ready | Some dc => Sending dc end)
                  Hw) as Ps.
    assert (Hg : heldOf (match fst (liveLookup d) with
                         | None => Ready | Some dc => Sending dc end)
                 = None) by (destruct (fst (liveLookup d)); reflexivity).
    assert (Hs : sendingOf (match fst (liveLookup d) with
                            | None => Ready | Some dc => Sending dc end)
                 = fst (liveLookup d)) by (destruct (fst (liveLookup d)); reflexivity).
    rewrite Hg in Pg. rewrite Hs in Ps. simpl in Pg, Ps.
    split; [reflexivity|]. split; [|split].
    + rewrite Ps, Hrec. rewrite <- Pg.
      rewrite !recordsOf_app. simpl. unfold Evergreen.recordsOf at 2. simpl.
      fold (liveLookup d). destruct (fst (liveLookup d)) as [x|]; simpl; [|reflexivity].
      rewrite !filter_cons.
      destruct (decide (positive x)); simpl; rewrite ?filter_app; [|reflexivity].
      rewrite <- !Permutation_middle. reflexivity.
    + rewrite Add_option_list, Herr. rewrite <- Pg.
      rewrite !errorsOf_app. simpl. unfold Evergreen.errorsOf at 2. simpl.
      fold (liveLookup d).
      destruct (wrapLookup (snd (liveLookup d))) as [x|]; simpl.
      * rewrite <- !app_assoc. simpl. by rewrite <- !Permutation_middle.
      * by rewrite app_nil_r.
    + intros H. apply elem_of_insert_inv in H as [H|H]; auto.
      destruct (fst (liveLookup d)); discriminate.
  - (* a record is delivered *)
    rewrite (omap_insert_same heldOf _ i (Sending dc) Ready Hw eq_refl).
    pose proof (omap_insert sendingOf _ i (Sending dc) Ready Hw) as Ps. simpl in Ps.
    split; [assumption|]. split; [|split]; auto.
    + rewrite Hrec, <- Ps. rewrite filter_cons.
      destruct (decide (positive dc)); [|reflexivity].
      rewrite <- !app_assoc. simpl. by rewrite <- !Permutation_middle.
    + intros H. apply elem_of_insert_inv in H as [H|H]; [discriminate|auto].
Qed.

Lemma balanced_start (queue0 : list string) (log : list Request) :
  balanced queue0 {| distros := queue0; workers := replicate 16 Ready;
                     catcher := NewCatcher; distroCosts := [];
                     ctx := live; requests := log |}.
Proof.
  unfold Evergreen.balanced, pending. simpl. repeat split; auto.
  intros H. repeat (apply elem_of_cons in H as [H|H]; [discriminate|]).
  by apply elem_of_nil in H.
Qed.

(** At the end every distro has been looked up: the kept records are the
    records with positive time, the catcher holds the errors. *)
Lemma balanced_finished (queue0 : list string) (s : pool) :
  workers s <> [] -> balanced queue0 s -> finished s ->
  distroCosts s ≡ₚ filter positive (recordsOf queue0)
  /\ catcher s ≡ₚ errorsOf queue0.
Proof.
  intros Hne (Hlive & Hrec & Herr & Hex) Hfin. unfold finished in Hfin.
  rewrite firstLive_None in Hfin.
  assert (Hq : distros s = []).
  { apply Hex. destruct (workers s) as [|w ws]; [congruence|].
    inversion Hfin; subst. apply list_elem_of_here. }
  assert (Hs : omap sendingOf (workers s) = []).
  { clear -Hfin. induction Hfin as [|w ws -> _ IH]; simpl; auto. }
  assert (Hg : omap heldOf (workers s) = []).
  { clear -Hfin. induction Hfin as [|w ws -> _ IH]; simpl; auto. }
  unfold pending in *. rewrite Hq, Hs, Hg in *. simpl in *.
  rewrite app_nil_r in Hrec, Herr. split; by symmetry.
Qed.

Lemma idle_step (e : event) (s s' : pool) :
  idle s -> step e s = Some s' -> idle s'.
Proof.
  intros (Hc & Hca & Hco & Hs & Hk). destruct e as [i|]; simpl.
  2:{ rewrite Hc. discriminate. }
  assert (Hq : forall w w', workers s !! i = Some w ->
               (forall dc, w' <> Sending dc) -> (forall d, w' <> Checked d) ->
               idle (setWorker i w' s)).
  { intros w w' Hw H1 H2. unfold idle; simpl. repeat split; auto.
    - intros dc H. apply elem_of_insert_inv in H as [H|H]; [|by apply Hs in H].
      symmetry in H. by apply H1 in H.
    - intros d H. apply elem_of_insert_inv in H as [H|H]; [|by apply Hk in H].
      symmetry in H. by apply H2 in H. }
  intros T. apply work_turn in T.
  destruct T as [Hw Hq'|d q Hw Hq'|d Hw _|d Hw Hc'|d Hw|dc Hw].
  - apply (Hq _ _ Hw); discriminate.
  - destruct (Hq _ (Got d) Hw) as (H1 & H2 & H3 & H4 & H5); try discriminate.
    unfold idle; simpl in *. auto.
  - apply (Hq _ _ Hw); discriminate.
  - congruence.
  - exfalso. apply (Hk d). apply list_elem_of_lookup. eauto.
  - exfalso. apply (Hs dc). apply list_elem_of_lookup. eauto.
Qed.

End PoolFacts.

(** ** [getDistroCosts] *)

Section FetchFacts.
Import Errors Evergreen.

Variable unmarshalDistroCost : list Byte.byte -> result (option DistroCost).
Variables (c : Client) (st dur : string).

Local Abbreviation lookupOf := (lookupResult unmarshalDistroCost c st dur).
Local Abbreviation recordsOf := (Evergreen.recordsOf unmarshalDistroCost c st dur live).
Local Abbreviation errorsOf := (Evergreen.errorsOf unmarshalDistroCost c st dur live).

(** Reading a slice at the indices of a permutation of its index range
    gives a permutation of the slice: this is the shuffle. *)
Lemma lookup_seq {A : Type} (l : list A) (k : nat) :
  omap (fun idx => l !! idx) (seq k (length l - k)) = drop k l.
Proof.
  remember (length l - k) as n eqn:Hn. revert k Hn.
  induction n as [|n IH]; intros k Hn; simpl.
  - symmetry. apply drop_ge. lia.
  - destruct (l !! k) as [x|] eqn:Hx.
    + rewrite IH by lia. symmetry. by apply drop_S.
    + apply lookup_ge_None in Hx. lia.
Qed.

Lemma shuffle_Permutation {A : Type} (l : list A) (perm : list nat) :
  perm ≡ₚ seq 0 (length l) -> omap (fun idx => l !! idx) perm ≡ₚ l.
Proof.
  intros ->. pose proof (lookup_seq l 0) as H.
  rewrite Nat.sub_0_r in H. by rewrite H.
Qed.

(** Every fetch ends, with all goroutines returned, in a state of which
    the observations hold. *)
Lemma fetch_ends (rand_Perm : nat -> list nat) (ctx0 : Context)
    (sched : list event) (distroIDs : list string) (log : list Request) :
  let s0 := start rand_Perm ctx0 distroIDs log in
  let s := run unmarshalDistroCost c st dur (measure s0) sched s0 in
  finished s /\ observed unmarshalDistroCost c st dur log s.
Proof.
  intros s0 s. split.
  - apply run_finished. lia.
  - apply run_invariant.
    + apply observed_step.
    + apply observed_start.
Qed.

Lemma fetch_result (rand_Perm : nat -> list nat) (ctx0 : Context)
    (sched : list event) (distroIDs : list string) (log : list Request) :
  let s0 := start rand_Perm ctx0 distroIDs log in
  let s := run unmarshalDistroCost c st dur (measure s0) sched s0 in
  getDistroCosts unmarshalDistroCost rand_Perm c st dur ctx0 sched distroIDs log
  = (if HasErrors (catcher s) then (None, Resolve (catcher s))
     else (Some (distroCosts s), None), requests s).
Proof. reflexivity. Qed.


(** A fetch whose context is live and stays so looks every distro up:
    what it keeps and what it catches are, up to order, the records with
    positive time and the errors of the distros asked for. *)
Lemma fetch_live (rand_Perm : nat -> list nat) (sched : list event)
    (distroIDs : list string) (log : list Request) :
  rand_Perm (length distroIDs) ≡ₚ seq 0 (length distroIDs) ->
  Forall (fun e => e <> Cancel) sched ->
  exists kept caught,
    kept ≡ₚ filter positive (recordsOf distroIDs)
    /\ caught ≡ₚ errorsOf distroIDs
    /\ fst (getDistroCosts unmarshalDistroCost rand_Perm c st dur live sched distroIDs log)
       = if HasErrors caught then (None, Resolve caught) else (Some kept, None).
Proof.
  intros Hperm Hsched. rewrite fetch_result.
  set (s0 := start rand_Perm live distroIDs log).
  set (s := run unmarshalDistroCost c st dur (measure s0) sched s0).
  assert (Hb : balanced unmarshalDistroCost c st dur (distros s0) s).
  { apply run_invariant_work; auto.
    - intros i x x'. apply balanced_turn.
    - apply balanced_start. }
  assert (Hf : finished s) by (apply run_finished; lia).
  assert (Hne : workers s <> []).
  { assert (Hlen : length (workers s) = 16).
    { apply (run_invariant unmarshalDistroCost c st dur
               (fun x => length (workers x) = 16)); [|reflexivity].
      intros [i|] x x' Hx; simpl.
      - intros T. apply work_turn in T.
        destruct T; simpl; rewrite ?length_insert; auto.
      - destruct (cancelled (ctx x)); [discriminate|]. by intros [= <-]. }
    intros E. rewrite E in Hlen. discriminate. }
  destruct (balanced_finished _ _ _ _ _ _ Hne Hb Hf) as [Hk Hc].
  assert (Hq : distros s0 ≡ₚ distroIDs) by (by apply shuffle_Permutation).
  exists (distroCosts s), (catcher s). simpl.
  split; [|split; [|reflexivity]].
  - rewrite Hk. unfold Evergreen.recordsOf. by rewrite Hq.
  - rewrite Hc. unfold Evergreen.errorsOf. by rewrite Hq.
Qed.

(** A fetch whose context is cancelled beforehand looks nothing up and
    returns the empty list without an error. *)
Lemma fetch_cancelled (rand_Perm : nat -> list nat) (sched : list event)
    (distroIDs : list string) (log : list Request) :
  fst (getDistroCosts unmarshalDistroCost rand_Perm c st dur {| cancelled := true |} sched distroIDs log) = (Some [], None).
Proof.
  rewrite fetch_result.
  set (s0 := start rand_Perm {| cancelled := true |} distroIDs log).
  set (s := run unmarshalDistroCost c st dur (measure s0) sched s0).
  assert (Hi : idle s).
  { apply run_invariant.
    - apply idle_step.
    - unfold idle. simpl. repeat split; auto; intros x H;
        repeat (apply elem_of_cons in H as [H|H]; [discriminate|]);
        by apply elem_of_nil in H. }
  destruct Hi as (_ & -> & -> & _). reflexivity.
Qed.

Lemma HasErrors_Permutation (c1 c2 : Catcher) :
  c1 ≡ₚ c2 -> HasErrors c1 = HasErrors c2.
Proof.
  intros H. destruct c1, c2; simpl; auto.
  - apply Permutation_nil_l in H. discriminate.
  - symmetry in H. apply Permutation_nil_l in H. discriminate.
Qed.

(** While the context stays live, one failing distro among those asked for
    fails the fetch. *)
Lemma fetch_live_fails (rand_Perm : nat -> list nat) (sched : list event)
    (distroIDs : list string) (log : list Request) (id : string) :
  rand_Perm (length distroIDs) ≡ₚ seq 0 (length distroIDs) ->
  Forall (fun e => e <> Cancel) sched ->
  id ∈ distroIDs -> is_Some (snd (lookupOf live id)) ->
  exists e,
    fst (getDistroCosts unmarshalDistroCost rand_Perm c st dur live sched distroIDs log)
    = (None, Some e).
Proof.
  intros Hperm Hsched Hin [e He].
  destruct (fetch_live rand_Perm sched distroIDs log Hperm Hsched)
    as (kept & caught & Hk & Hc & ->).
  assert (Hx : Wrapped e "error when getting distro cost data from Evergreen" ∈ caught).
  { rewrite Hc. unfold Evergreen.errorsOf. apply list_elem_of_omap. exists id. split; auto.
    rewrite He. reflexivity. }
  destruct caught as [|x caught]; [by apply elem_of_nil in Hx|].
  simpl. eauto.
Qed.

End FetchFacts.


(** ** The fetcher's contract *)



(** C2 as worded does not hold when another lookup of the fetch fails: of
    the distros a (120s) and b, whose lookup fails, the record of a is
    obtained and has positive time, yet the output, being nil, does not hold
    it. *)
Lemma zero_usage_filter_counterexample :
  let r := Evergreen.getDistroCosts Fixtures.unmarshalDistroCost Fixtures.inOrder
             Fixtures.flaky Fixtures.st Fixtures.dur Evergreen.live []
             ["a"; "b"]%string [] in
  ~ (forall ctx id dc,
        Evergreen.lookedUp Fixtures.st Fixtures.dur [] (snd r) ctx id ->
        fst (Evergreen.lookupResult Fixtures.unmarshalDistroCost Fixtures.flaky
               Fixtures.st Fixtures.dur ctx id) = Some dc ->
        (dc ∈ default [] (fst (fst r)) <-> Evergreen.positive dc)).
Proof.
  intros r H.
  specialize (H Evergreen.live "a"%string (Fixtures.cost "a" 120)).
  assert (H1 : Evergreen.lookedUp Fixtures.st Fixtures.dur [] (snd r) Evergreen.live "a").
  { vm_compute. apply list_elem_of_here. }
  assert (H2 : fst (Evergreen.lookupResult Fixtures.unmarshalDistroCost Fixtures.flaky
                      Fixtures.st Fixtures.dur Evergreen.live "a")
               = Some (Fixtures.cost "a" 120)).
  { vm_compute. reflexivity. }
  destruct (H H1 H2) as [_ H3].
  assert (H4 : Fixtures.cost "a" 120 ∈ default [] (fst (fst r))).
  { apply H3. reflexivity. }
  vm_compute in H4. by apply elem_of_nil in H4.
Qed.

(** C2 (amended).  Zero-usage filtering: in every run of [getDistroCosts],
    whatever the output holds was obtained by a lookup of this fetch and has
    strictly positive summed time, so a record with zero time never appears;
    and when the fetch returns no error, a record obtained by a lookup
    appears in the output if and only if its summed time is strictly
    positive. *)
Theorem getDistroCosts_zero_usage_filter
    (unmarshalDistroCost : list Byte.byte -> Errors.result (option Evergreen.DistroCost))
    (rand_Perm : nat -> list nat) (c : Evergreen.Client) (st dur : string)
    (ctx0 : Evergreen.Context) (sched : list Evergreen.event)
    (distroIDs : list string) (log : list Evergreen.Request)
    (res : option (list Evergreen.DistroCost)) (err : option Errors.error)
    (log' : list Evergreen.Request) :
  Evergreen.getDistroCosts unmarshalDistroCost rand_Perm c st dur ctx0 sched distroIDs log
  = (res, err, log') ->
  let obtained dc :=
    exists ctx id,
      Evergreen.lookedUp st dur log log' ctx id
      /\ fst (Evergreen.lookupResult unmarshalDistroCost c st dur ctx id) = Some dc in
  (forall dc, dc ∈ default [] res -> Evergreen.positive dc /\ obtained dc)
  /\ (forall dc, Evergreen.SumTimeTaken dc = 0%Z -> dc ∉ default [] res)
  /\ (err = None ->
      forall dc, obtained dc -> (dc ∈ default [] res <-> Evergreen.positive dc)).
Proof.
  intros Hrun. rewrite fetch_result in Hrun.
  destruct (fetch_ends unmarshalDistroCost c st dur rand_Perm ctx0 sched distroIDs log)
    as (Hfin & _ & Herr & Hcosts & _ & Hkept).
  set (s := Evergreen.run _ _ _ _ _ _ _) in *.
  unfold Evergreen.obtained in *. simpl.
  injection Hrun as Hres Hlog. rewrite Hlog in *. clear Hlog.
  assert (Hout : forall dc, dc ∈ default [] res -> dc ∈ Evergreen.distroCosts s).
  { intros dc. destruct (Errors.HasErrors (Evergreen.catcher s));
      injection Hres as <- _; simpl; auto. intros H. by apply elem_of_nil in H. }
  split; [|split].
  - intros dc H. apply Hcosts. auto.
  - intros dc Hz H. apply Hout, Hcosts in H as [H _].
    unfold Evergreen.positive in H. lia.
  - intros ->. destruct (Errors.HasErrors (Evergreen.catcher s)) eqn:Hc.
    { injection Hres as _ Hr. unfold Errors.Resolve in Hr. rewrite Hc in Hr.
      discriminate. }
    injection Hres as <-. simpl. intros dc Ho. split.
    + intros H. by apply Hcosts in H as [H _].
    + intros Hp. destruct (Hkept dc Ho Hp) as [H|H]; auto.
      by apply finished_no_sending in H.
Qed.

Lemma getDistroCosts_zero_usage_filter_witness :
  let r := Evergreen.getDistroCosts Fixtures.unmarshalDistroCost Fixtures.reversed
             Fixtures.scenario Fixtures.st Fixtures.dur Evergreen.live
             [Evergreen.Work 7; Evergreen.Work 2]
             ["a"; "b"; "c"]%string [] in
  let obtained dc :=
    exists ctx id,
      Evergreen.lookedUp Fixtures.st Fixtures.dur [] (snd r) ctx id
      /\ fst (Evergreen.lookupResult Fixtures.unmarshalDistroCost
                Fixtures.scenario Fixtures.st Fixtures.dur ctx id) = Some dc in
  (forall dc, dc ∈ default [] (fst (fst r)) -> Evergreen.positive dc /\ obtained dc)
  /\ (forall dc, Evergreen.SumTimeTaken dc = 0%Z -> dc ∉ default [] (fst (fst r)))
  /\ (snd (fst r) = None ->
      forall dc, obtained dc -> (dc ∈ default [] (fst (fst r)) <-> Evergreen.positive dc)).
Proof.
  intros r.
  apply (getDistroCosts_zero_usage_filter Fixtures.unmarshalDistroCost Fixtures.reversed
           Fixtures.scenario Fixtures.st Fixtures.dur Evergreen.live
           [Evergreen.Work 7; Evergreen.Work 2]
           ["a"; "b"; "c"]%string [] (fst (fst r)) (snd (fst r)) (snd r)).
  vm_compute. reflexivity.
Defined.

(** The scenario of the spec: of a (120s), b (0s) and c (45s) the fetch keeps
    a and c. *)
Example scenario_fetch :
  fst (Evergreen.getDistroCosts Fixtures.unmarshalDistroCost Fixtures.inOrder
         Fixtures.scenario Fixtures.st Fixtures.dur Evergreen.live []
         ["a"; "b"; "c"]%string [])
  = (Some [Fixtures.cost "a" 120; Fixtures.cost "c" 45], None).
Proof. vm_compute. reflexivity. Qed.

(** End to end, with the window of the scenario: the lookups are made
    with the start time in RFC 3339 and the duration trimmed of its
    trailing zeros and s. *)
Example scenario_GetEvergreenDistrosData :
  Evergreen.GetEvergreenDistrosData Fixtures.unmarshalDistros
    Fixtures.unmarshalDistroCost Fixtures.reversed Fixtures.scenario Evergreen.live []
    (GoTime.Date 2024 3 1 0 0 0 0 GoTime.UTC) (2 * GoTime.Hour)%Z []
  = (Evergreen.Returned (Some [Fixtures.cost "c" 45; Fixtures.cost "a" 120], None),
     map (pair Evergreen.live)
       ["/distros";
        "/cost/distro/c?starttime=2024-03-01T00:00:00Z&duration=2h0m";
        "/cost/distro/b?starttime=2024-03-01T00:00:00Z&duration=2h0m";
        "/cost/distro/a?starttime=2024-03-01T00:00:00Z&duration=2h0m"]%string).
Proof. vm_compute. reflexivity. Qed.

(** C8 as worded does not hold when the context is cancelled during a run:
    with the same answers of the API, a run that is cancelled before its
    first lookup returns the empty list, without an error, where the
    uncancelled run returns a and c. *)
Lemma same_set_counterexample :
  let run sched :=
    fst (Evergreen.getDistroCosts Fixtures.unmarshalDistroCost Fixtures.inOrder
           Fixtures.scenario Fixtures.st Fixtures.dur Evergreen.live sched
           ["a"; "b"; "c"]%string []) in
  snd (run []) = None /\ snd (run [Evergreen.Cancel]) = None
  /\ ~ (default [] (fst (run [])) ≡ₚ default [] (fst (run [Evergreen.Cancel]))).
Proof.
  intros run. split; [|split].
  - vm_compute. reflexivity.
  - vm_compute. reflexivity.
  - intros H. apply Permutation_length in H. vm_compute in H. discriminate.
Qed.

(** C8 (amended).  For fixed answers of the API and a context that is not
    cancelled while the fetch runs (it is live throughout, or cancelled
    already when the fetch begins), any two runs of [getDistroCosts] return
    the same records up to order, and fail or succeed alike, whatever the
    shuffles and the interleavings of the goroutines. *)
Theorem getDistroCosts_same_set
    (unmarshalDistroCost : list Byte.byte -> Errors.result (option Evergreen.DistroCost))
    (c : Evergreen.Client) (st dur : string) (ctx0 : Evergreen.Context)
    (distroIDs : list string)
    (rand_Perm1 rand_Perm2 : nat -> list nat)
    (sched1 sched2 : list Evergreen.event) (log1 log2 : list Evergreen.Request) :
  rand_Perm1 (length distroIDs) ≡ₚ seq 0 (length distroIDs) ->
  rand_Perm2 (length distroIDs) ≡ₚ seq 0 (length distroIDs) ->
  Forall (fun e => e <> Evergreen.Cancel) sched1 ->
  Forall (fun e => e <> Evergreen.Cancel) sched2 ->
  let r1 := fst (Evergreen.getDistroCosts unmarshalDistroCost rand_Perm1 c st dur
                   ctx0 sched1 distroIDs log1) in
  let r2 := fst (Evergreen.getDistroCosts unmarshalDistroCost rand_Perm2 c st dur
                   ctx0 sched2 distroIDs log2) in
  default [] (fst r1) ≡ₚ default [] (fst r2)
  /\ (fst r1 = None <-> fst r2 = None)
  /\ (snd r1 = None <-> snd r2 = None).
Proof.
  intros Hp1 Hp2 Hs1 Hs2. cbv zeta. destruct ctx0 as [[]].
  - rewrite !fetch_cancelled. simpl. split; [reflexivity|]. tauto.
  - fold Evergreen.live.
    destruct (fetch_live unmarshalDistroCost c st dur rand_Perm1 sched1 distroIDs log1 Hp1 Hs1)
      as (k1 & c1 & Hk1 & Hc1 & ->).
    destruct (fetch_live unmarshalDistroCost c st dur rand_Perm2 sched2 distroIDs log2 Hp2 Hs2)
      as (k2 & c2 & Hk2 & Hc2 & ->).
    assert (Hc : Errors.HasErrors c1 = Errors.HasErrors c2).
    { apply HasErrors_Permutation. by rewrite Hc1, Hc2. }
    rewrite <- Hc. unfold Errors.Resolve. rewrite <- Hc.
    destruct (Errors.HasErrors c1); simpl.
    + split; [reflexivity|]. split; split; auto; discriminate.
    + split; [by rewrite Hk1, Hk2|]. split; split; auto; discriminate.
Qed.

Lemma getDistroCosts_same_set_witness :
  let r1 := fst (Evergreen.getDistroCosts Fixtures.unmarshalDistroCost Fixtures.inOrder
                   Fixtures.scenario Fixtures.st Fixtures.dur Evergreen.live
                   [] ["a"; "b"; "c"]%string []) in
  let r2 := fst (Evergreen.getDistroCosts Fixtures.unmarshalDistroCost Fixtures.reversed
                   Fixtures.scenario Fixtures.st Fixtures.dur Evergreen.live
                   [Evergreen.Work 7; Evergreen.Work 2; Evergreen.Work 7]
                   ["a"; "b"; "c"]%string [(Evergreen.live, "/distros"%string)]) in
  default [] (fst r1) ≡ₚ default [] (fst r2)
  /\ (fst r1 = None <-> fst r2 = None)
  /\ (snd r1 = None <-> snd r2 = None).
Proof.
  apply (getDistroCosts_same_set Fixtures.unmarshalDistroCost Fixtures.scenario
           Fixtures.st Fixtures.dur Evergreen.live ["a"; "b"; "c"]%string
           Fixtures.inOrder Fixtures.reversed
           [] [Evergreen.Work 7; Evergreen.Work 2; Evergreen.Work 7]
           [] [(Evergreen.live, "/distros"%string)]).
  - reflexivity.
  - vm_compute. apply Permutation_rev.
  - constructor.
  - repeat constructor; discriminate.
Defined.

(** ** The registry client *)

(** A request error, a pagination link and a decoding error of the listing
    each fail [getDistroIDs], which wraps what [GetDistros] returns. *)
Lemma getDistroIDs_error
    (unmarshalDistros :
       list Byte.byte -> Errors.result (option (list (option Evergreen.Distro))))
    (c : Evergreen.Client) (ctx0 : Evergreen.Context) (log : list Evergreen.Request) :
  let r := Evergreen.respond c ctx0 "/distros" in
  snd (Evergreen.getDistroIDs unmarshalDistros c ctx0 log)
  = log ++ [(ctx0, "/distros"%string)]
  /\ (Evergreen.link r <> ""%string ->
      fst (Evergreen.getDistroIDs unmarshalDistros c ctx0 log)
      = Evergreen.Returned
          (None, Some (Errors.Wrapped
                         (Errors.New "/distros should not be a paginated route")
                         "error getting distros ids")))
  /\ (forall cause, Evergreen.link r = ""%string -> Evergreen.err r = Some cause ->
      fst (Evergreen.getDistroIDs unmarshalDistros c ctx0 log)
      = Evergreen.Returned
          (None, Some (Errors.Wrapped (Errors.Wrapped cause "error in getting distros")
                         "error getting distros ids"))).
Proof.
  intros r. unfold Evergreen.getDistroIDs, Evergreen.GetDistros, Evergreen.bind,
    Evergreen.get, Evergreen.ret. simpl. fold r.
  split; [|split].
  - destruct (negb _); simpl; [reflexivity|].
    destruct (Evergreen.err r); simpl; [reflexivity|].
    destruct (unmarshalDistros _) as [listing|]; simpl; [|reflexivity].
    destruct (Evergreen.appendIDs _ _); reflexivity.
  - intros H. apply String.eqb_neq in H. rewrite H. reflexivity.
  - intros cause H1 H2. rewrite H1, H2. reflexivity.
Qed.

(** C9.  [GetDistros] and [GetDistroCost] return (nil, error) whenever the
    response carries a non-empty pagination link; the link is looked at
    before the request error, so the answer is the pagination error whatever
    the error of the request is (no assumption is made on it). *)
Theorem paginated_route_is_an_error
    (unmarshalDistros :
       list Byte.byte -> Errors.result (option (list (option Evergreen.Distro))))
    (unmarshalDistroCost : list Byte.byte -> Errors.result (option Evergreen.DistroCost))
    (c : Evergreen.Client) (ctx0 : Evergreen.Context)
    (distroID starttime duration : string) (log : list Evergreen.Request) :
  (Evergreen.link (Evergreen.respond c ctx0 "/distros") <> ""%string ->
   Evergreen.GetDistros unmarshalDistros c ctx0 log
   = ((None, Some (Errors.New "/distros should not be a paginated route")),
      log ++ [(ctx0, "/distros"%string)]))
  /\ (Evergreen.link
        (Evergreen.respond c ctx0 (Evergreen.costPath distroID starttime duration))
      <> ""%string ->
      Evergreen.GetDistroCost unmarshalDistroCost c ctx0 distroID starttime duration log
      = ((None, Some (Errors.New "/cost/distro should not be a paginated route")),
         log ++ [(ctx0, Evergreen.costPath distroID starttime duration)])).
Proof.
  split; intros H; apply String.eqb_neq in H;
    unfold Evergreen.GetDistros, Evergreen.GetDistroCost, Evergreen.bind,
      Evergreen.get, Evergreen.ret; simpl; rewrite H; reflexivity.
Qed.

Lemma paginated_route_is_an_error_witness :
  Evergreen.err (Evergreen.respond Fixtures.paginated Evergreen.live "/distros")
  = Some (Errors.New "connection reset")
  /\ Evergreen.GetDistros Fixtures.unmarshalDistros Fixtures.paginated Evergreen.live []
     = ((None, Some (Errors.New "/distros should not be a paginated route")),
        [(Evergreen.live, "/distros"%string)])
  /\ Evergreen.GetDistroCost Fixtures.unmarshalDistroCost Fixtures.paginated
       Evergreen.live "a" Fixtures.st Fixtures.dur []
     = ((None, Some (Errors.New "/cost/distro should not be a paginated route")),
        [(Evergreen.live, Evergreen.costPath "a" Fixtures.st Fixtures.dur)]).
Proof.
  split; [reflexivity|].
  destruct (paginated_route_is_an_error Fixtures.unmarshalDistros
              Fixtures.unmarshalDistroCost Fixtures.paginated Evergreen.live
              "a" Fixtures.st Fixtures.dur []) as [H1 H2].
  split.
  - apply H1. vm_compute. discriminate.
  - apply H2. vm_compute. discriminate.
Defined.

(** C7.  If retrieving the distro ids fails, [GetEvergreenDistrosData]
    returns (nil, error) where the error is the one of [getDistroIDs] wrapped
    with the description of this stage, hence with the same cause; the only
    request made is the listing, so no distro cost is looked up. *)
Theorem GetEvergreenDistrosData_distro_list_failure
    (unmarshalDistros :
       list Byte.byte -> Errors.result (option (list (option Evergreen.Distro))))
    (unmarshalDistroCost : list Byte.byte -> Errors.result (option Evergreen.DistroCost))
    (rand_Perm : nat -> list nat)
    (c : Evergreen.Client) (ctx0 : Evergreen.Context) (sched : list Evergreen.event)
    (starttime : GoTime.Time) (duration : GoTime.Duration) (log : list Evergreen.Request)
    (ids : option (list string)) (e : Errors.error) (log1 : list Evergreen.Request) :
  Evergreen.getDistroIDs unmarshalDistros c ctx0 log
  = (Evergreen.Returned (ids, Some e), log1) ->
  let returned :=
    Errors.Wrapped e "error in getting distroID in GetEvergreenDistrosData" in
  Evergreen.GetEvergreenDistrosData unmarshalDistros unmarshalDistroCost rand_Perm
    c ctx0 sched starttime duration log
  = (Evergreen.Returned (None, Some returned), log ++ [(ctx0, "/distros"%string)])
  /\ Errors.Cause returned = Errors.Cause e
  /\ forall ctx id st dur,
       ~ Evergreen.lookedUp st dur log (log ++ [(ctx0, "/distros"%string)]) ctx id.
Proof.
  intros H. simpl.
  pose proof (getDistroIDs_error unmarshalDistros c ctx0 log) as (Hlog & _).
  rewrite H in Hlog. simpl in Hlog. subst log1.
  split; [|split].
  - unfold Evergreen.GetEvergreenDistrosData, Evergreen.bind. rewrite H. reflexivity.
  - reflexivity.
  - intros ctx id st dur Hl. unfold Evergreen.lookedUp, Evergreen.issued in Hl.
    rewrite drop_app_length in Hl.
    apply elem_of_cons in Hl as [Hl|Hl]; [|by apply elem_of_nil in Hl].
    unfold Evergreen.costPath in Hl. simpl in Hl. discriminate.
Qed.

Lemma GetEvergreenDistrosData_distro_list_failure_witness :
  let returned :=
    Errors.Wrapped
      (Errors.Wrapped
         (Errors.Wrapped (Errors.New "connection refused") "error in getting distros")
         "error getting distros ids")
      "error in getting distroID in GetEvergreenDistrosData" in
  Evergreen.GetEvergreenDistrosData Fixtures.unmarshalDistros
    Fixtures.unmarshalDistroCost Fixtures.reversed Fixtures.down Evergreen.live []
    (GoTime.Date 2024 3 1 0 0 0 0 GoTime.UTC) (2 * GoTime.Hour)%Z []
  = (Evergreen.Returned (None, Some returned), [(Evergreen.live, "/distros"%string)])
  /\ Errors.Cause returned = Errors.New "connection refused"
  /\ forall ctx id st dur,
       ~ Evergreen.lookedUp st dur [] [(Evergreen.live, "/distros"%string)] ctx id.
Proof.
  apply (GetEvergreenDistrosData_distro_list_failure Fixtures.unmarshalDistros
           Fixtures.unmarshalDistroCost Fixtures.reversed Fixtures.down Evergreen.live []
           (GoTime.Date 2024 3 1 0 0 0 0 GoTime.UTC) (2 * GoTime.Hour)%Z []
           None
           (Errors.Wrapped
              (Errors.Wrapped (Errors.New "connection refused") "error in getting distros")
              "error getting distros ids")
           [(Evergreen.live, "/distros"%string)]).
  vm_compute. reflexivity.
Defined.

(** ** Persistence of the report *)

Section SaveFacts.
Import Errors Model.

Variable Environment : Type.
Variable GetSessionWithConfig : Environment -> result string.

(** [Save] in its three cases. *)
Lemma Save_no_session (r : CostReport Environment) (coll : Collection CostReportDoc)
    (e : error) :
  GetSessionWithConfig (env r) = Err e ->
  Save GetSessionWithConfig r coll = (Some (Stacked e), coll, []).
Proof. intros H. unfold Save. rewrite H. reflexivity. Qed.

Lemma Save_store_fault (r : CostReport Environment) (coll : Collection CostReportDoc)
    (db : string) (e : error) :
  GetSessionWithConfig (env r) = Ok db -> fault coll = Some e ->
  exists e', fst (fst (Save GetSessionWithConfig r coll)) = Some e'
             /\ snd (fst (Save GetSessionWithConfig r coll)) = coll.
Proof.
  intros H Hf. unfold Save, UpsertId. rewrite H, Hf.
  destruct (ResultsNotFound (Some e)); simpl; eauto.
Qed.

Lemma Save_ok (r : CostReport Environment) (coll : Collection CostReportDoc)
    (db : string) :
  GetSessionWithConfig (env r) = Ok db -> fault coll = None ->
  Save GetSessionWithConfig r coll
  = (None,
     {| docs := <[ID r:=toDoc (ID r) r]> (docs coll); fault := None |},
     [{| log_ns := db +:+ "." +:+ costReportCollection;
         log_id := ID r;
         log_operation := "save build cost report";
         log_change_info :=
           Some match docs coll !! ID r with
                | Some _ => {| Updated := 1; Matched := 1; UpsertedId := None |}
                | None => {| Updated := 0; Matched := 0; UpsertedId := Some (ID r) |}
                end |}]).
Proof. intros H Hf. unfold Save, UpsertId. rewrite H, Hf. reflexivity. Qed.

End SaveFacts.

(** C6.  [CostReport.Save] upserts the report under its id: when it returns
    no error the store holds the report's document under the report's id,
    in place of any document that was there, and nothing else changes.  It
    returns an error exactly when the session cannot be had or the store
    fails the operation, so whether a document existed before plays no part;
    that is told only by the change info of the debug record. *)
Theorem Save_upserts
    (Environment : Type) (GetSessionWithConfig : Environment -> Errors.result string)
    (r : Model.CostReport Environment) (coll : Model.Collection Model.CostReportDoc) :
  let '(err, coll', logged) := Model.Save GetSessionWithConfig r coll in
  (is_Some err <->
   (exists e, GetSessionWithConfig (Model.env r) = Errors.Err e)
   \/ is_Some (Model.fault coll))
  /\ (err = None ->
      Model.docs coll' = <[Model.ID r:=Model.toDoc (Model.ID r) r]> (Model.docs coll)
      /\ Model.docs coll' !! Model.ID r = Some (Model.toDoc (Model.ID r) r)
      /\ (forall id, id <> Model.ID r -> Model.docs coll' !! id = Model.docs coll !! id)
      /\ exists entry info,
           logged = [entry] /\ Model.log_change_info entry = Some info
           /\ (Model.UpsertedId info = None <-> is_Some (Model.docs coll !! Model.ID r)))
  /\ (is_Some err -> coll' = coll).
Proof.
  destruct (GetSessionWithConfig (Model.env r)) as [db|e] eqn:Hs.
  - destruct (Model.fault coll) as [e|] eqn:Hf.
    + destruct (Save_store_fault _ GetSessionWithConfig r coll _ _ Hs Hf) as (e' & H1 & H2).
      destruct (Model.Save GetSessionWithConfig r coll) as [[err coll'] logged].
      simpl in *. subst. split; [|split].
      * split; eauto.
      * discriminate.
      * reflexivity.
    + rewrite (Save_ok _ GetSessionWithConfig r coll _ Hs Hf). split; [|split].
      * split.
        -- intros [x Hx]. discriminate.
        -- intros [[e He]|[e He]]; discriminate.
      * intros _. simpl. split; [reflexivity|]. split; [apply lookup_insert_eq|].
        split; [intros id Hid; by apply lookup_insert_ne|].
        eexists _, _. split; [reflexivity|]. split; [reflexivity|].
        destruct (Model.docs coll !! Model.ID r); simpl; split; eauto.
        -- discriminate.
        -- intros [x Hx]. discriminate.
      * intros [x Hx]. discriminate.
  - rewrite (Save_no_session _ GetSessionWithConfig r coll _ Hs). split; [|split].
    + split; eauto.
    + discriminate.
    + reflexivity.
Qed.

(** Saving two reports with one id leaves the document of the second. *)
Lemma Save_twice
    (Environment : Type) (GetSessionWithConfig : Environment -> Errors.result string)
    (r1 r2 : Model.CostReport Environment) (coll : Model.Collection Model.CostReportDoc)
    (db1 db2 : string) :
  GetSessionWithConfig (Model.env r1) = Errors.Ok db1 ->
  GetSessionWithConfig (Model.env r2) = Errors.Ok db2 ->
  Model.fault coll = None ->
  Model.ID r1 = Model.ID r2 ->
  let coll1 := snd (fst (Model.Save GetSessionWithConfig r1 coll)) in
  let coll2 := snd (fst (Model.Save GetSessionWithConfig r2 coll1)) in
  Model.docs coll2 = <[Model.ID r2:=Model.toDoc (Model.ID r2) r2]> (Model.docs coll).
Proof.
  intros H1 H2 Hf Hid. simpl.
  rewrite (Save_ok _ GetSessionWithConfig r1 coll _ H1 Hf). simpl.
  rewrite (Save_ok _ GetSessionWithConfig r2
             {| Model.docs := <[Model.ID r1:=Model.toDoc (Model.ID r1) r1]> (Model.docs coll);
                Model.fault := None |} _ H2 eq_refl). simpl.
  rewrite Hid. apply insert_insert_eq.
Qed.

Lemma Save_upserts_witness :
  let first := Fixtures.report "brc-2024-03-01" Fixtures.march1 in
  let second := Fixtures.report "brc-2024-03-01" (GoTime.Time_Add Fixtures.march1 GoTime.Hour) in
  let coll := snd (fst (Model.Save Fixtures.GetSessionWithConfig first Fixtures.emptyStore)) in
  let '(err, coll', logged) := Model.Save Fixtures.GetSessionWithConfig second coll in
  (is_Some err <->
   (exists e, Fixtures.GetSessionWithConfig (Model.env second) = Errors.Err e)
   \/ is_Some (Model.fault coll))
  /\ (err = None ->
      Model.docs coll'
      = <[Model.ID second:=Model.toDoc (Model.ID second) second]> (Model.docs coll)
      /\ Model.docs coll' !! Model.ID second = Some (Model.toDoc (Model.ID second) second)
      /\ (forall id, id <> Model.ID second -> Model.docs coll' !! id = Model.docs coll !! id)
      /\ exists entry info,
           logged = [entry] /\ Model.log_change_info entry = Some info
           /\ (Model.UpsertedId info = None
               <-> is_Some (Model.docs coll !! Model.ID second)))
  /\ (is_Some err -> coll' = coll).
Proof.
  intros first second coll.
  exact (Save_upserts Fixtures.Env Fixtures.GetSessionWithConfig second coll).
Defined.

(** ** The populated flag *)

(** [FindID] returns no error only after it has set the flag. *)
Lemma FindID_populates
    (Environment : Type) (GetSessionWithConfig : Environment -> Errors.result string)
    (nilEnv : Environment) (Local : GoTime.Location)
    (readFloat32 : Model.float32 -> Model.float32)
    (r r' : Model.CostReport Environment) (id : string)
    (coll : Model.Collection Model.CostReportDoc) :
  Model.FindID GetSessionWithConfig nilEnv Local readFloat32 r id coll = (None, r') ->
  Model.populated r' = true.
Proof.
  unfold Model.FindID. destruct (GetSessionWithConfig (Model.env r)); [|discriminate].
  destruct (Model.FindId_One id coll) as [d|e].
  - simpl. intros [= <-]. reflexivity.
  - destruct (Errors.ResultsNotFound (Some e)); [discriminate|].
    intros [= <-]. reflexivity.
Qed.

(** An error of the query other than not-found does not fail [FindID]: the
    wrapped error is dropped and the report counts as populated. *)
Example FindID_drops_query_errors :
  let broken : Model.Collection Model.CostReportDoc :=
    {| Model.docs := ∅; Model.fault := Some (Errors.New "no reachable servers") |} in
  let fresh := Model.Setup Fixtures.connected (Model.newCostReport Fixtures.nilEnv) in
  let found :=
    Model.FindID Fixtures.GetSessionWithConfig Fixtures.nilEnv GoTime.UTC (fun x => x)
      fresh "brc-2024-03-01" broken in
  fst found = None /\ Model.IsNil (snd found) = true.
Proof. split; reflexivity. Qed.

(** C10.  [CostReport.IsNil] returns the populated flag as it is: false for
    a freshly constructed report, true after a [FindID] that returned no
    error.  [CedarConfig.IsNil] returns true exactly when its configuration
    is not populated, so for equal flags the two answer oppositely. *)
Theorem IsNil_polarity
    (Environment : Type) (GetSessionWithConfig : Environment -> Errors.result string)
    (Local : GoTime.Location) (readFloat32 : Model.float32 -> Model.float32)
    (Settings : Type) :
  (forall r : Model.CostReport Environment, Model.IsNil r = Model.populated r)
  /\ (forall nilEnv : Environment, Model.IsNil (Model.newCostReport nilEnv) = false)
  /\ (forall (nilEnv : Environment) (r r' : Model.CostReport Environment) id coll,
        Model.FindID GetSessionWithConfig nilEnv Local readFloat32 r id coll = (None, r') ->
        Model.IsNil r' = true)
  /\ (forall c : Model.CedarConfig Environment Settings,
        Model.CedarConfig_IsNil c = true <-> Model.Config_populated c = false)
  /\ (forall (r : Model.CostReport Environment)
             (c : Model.CedarConfig Environment Settings),
        Model.populated r = Model.Config_populated c ->
        Model.IsNil r = negb (Model.CedarConfig_IsNil c)).
Proof.
  split; [reflexivity|]. split; [reflexivity|]. split; [|split].
  - intros nilEnv r r' id coll H. unfold Model.IsNil. eapply FindID_populates; eauto.
  - intros c. unfold Model.CedarConfig_IsNil.
    destruct (Model.Config_populated c); simpl; split; congruence.
  - intros r c H. unfold Model.IsNil, Model.CedarConfig_IsNil. rewrite H.
    by destruct (Model.Config_populated c).
Qed.

Lemma IsNil_polarity_witness :
  let fresh := Model.Setup Fixtures.connected (Model.newCostReport Fixtures.nilEnv) in
  let stored :=
    snd (fst (Model.Save Fixtures.GetSessionWithConfig
                (Fixtures.report "brc-2024-03-01" Fixtures.march1) Fixtures.emptyStore)) in
  let found :=
    Model.FindID Fixtures.GetSessionWithConfig Fixtures.nilEnv GoTime.UTC (fun x => x)
      fresh "brc-2024-03-01" stored in
  Model.IsNil fresh = false /\ fst found = None /\ Model.IsNil (snd found) = true.
Proof.
  intros fresh stored found.
  destruct (IsNil_polarity Fixtures.Env Fixtures.GetSessionWithConfig GoTime.UTC
              (fun x => x) unit)
    as (_ & _ & Hfind & _).
  split; [reflexivity|]. split; [reflexivity|].
  apply (Hfind Fixtures.nilEnv fresh (snd found) "brc-2024-03-01"%string stored).
  reflexivity.
Defined.

(** ** Calendar arithmetic *)

Section CalendarFacts.
Import GoTime.
Local Open Scope Z_scope.

Ltac split_ifs :=
  repeat match goal with
         | |- context [if ?b then _ else _] => destruct b eqn:?
         end;
  rewrite ?Z.leb_le, ?Z.leb_gt, ?Z.ltb_lt, ?Z.ltb_ge in *.

(** The hour and the day of a wall clock depend on its hour bucket only. *)
Lemma hour_of_bucket (w : Z) : (w mod 86400) / 3600 = (w / 3600) mod 24.
Proof. Z.div_mod_to_equations; lia. Qed.

Lemma day_of_bucket (w : Z) : w / 86400 = (w / 3600) / 24.
Proof. Z.div_mod_to_equations; lia. Qed.

Lemma bucket_start (w : Z) :
  (w / 86400) * 86400 + ((w mod 86400) / 3600) * 3600 = 3600 * (w / 3600).
Proof. Z.div_mod_to_equations; lia. Qed.

(** The calendar date of a day number is a date of that day number, and
    its month is a month. *)
Lemma days_from_civil_from_days (z : Z) :
  let '(y, m, d) := civil_from_days z in days_from_civil y m d = z.
Proof.
  unfold civil_from_days, days_from_civil.
  split_ifs; Z.div_mod_to_equations; lia.
Qed.

Lemma civil_from_days_month (z : Z) :
  let '(y, m, d) := civil_from_days z in 1 <= m <= 12.
Proof.
  unfold civil_from_days. split_ifs; Z.div_mod_to_equations; lia.
Qed.

Lemma days_from_civil_day (y m d : Z) :
  days_from_civil y m 1 + (d - 1) = days_from_civil y m d.
Proof. unfold days_from_civil. lia. Qed.

(** Ticks of one hour bucket read the same year, month, day and hour. *)
Lemma same_bucket_same_fields (t1 t2 : Time) :
  wall t1 / 3600 = wall t2 / 3600 ->
  Time_Year t1 = Time_Year t2 /\ Time_Month t1 = Time_Month t2
  /\ Time_Day t1 = Time_Day t2 /\ Time_Hour t1 = Time_Hour t2.
Proof.
  intros H. unfold Time_Year, Time_Month, Time_Day, Time_Hour.
  rewrite !day_of_bucket, !hour_of_bucket, H. auto.
Qed.

(** [time.Date] of the year, month, day and hour of [t], in any location:
    the wall clock asked for is the start of the wall-clock hour of [t], and
    the offset taken off it is the one that [time.Date] finds for it. *)
Lemma Date_of_fields_in (l : Location) (t : Time) :
  Date (Time_Year t) (Time_Month t) (Time_Day t) (Time_Hour t) 0 0 0 l
  = let unix := 3600 * (wall t / 3600) in
    let z := lookupZone l unix in
    {| unixSec :=
         unix - (if zoffset z =? 0 then 0
                 else if (unix - zoffset z <? zstart z) || (zend z <=? unix - zoffset z)
                      then zoffset (lookupZone l (unix - zoffset z))
                      else zoffset z);
       nsec := 0; loc := l |}.
Proof.
  unfold Date, Time_Year, Time_Month, Time_Day, Time_Hour.
  pose proof (days_from_civil_from_days (wall t / 86400)) as Hd.
  pose proof (civil_from_days_month (wall t / 86400)) as Hm.
  destruct (civil_from_days (wall t / 86400)) as [[y m] d]. simpl fst; simpl snd.
  assert (Hy : y + (m - 1) / 12 = y) by (Z.div_mod_to_equations; lia).
  assert (Hm' : (m - 1) mod 12 + 1 = m) by (Z.div_mod_to_equations; lia).
  rewrite Hy, Hm', days_from_civil_day, Hd.
  change (0 / 1000000000) with 0. change (0 mod 1000000000) with 0.
  replace (wall t / 86400 * 86400 + wall t mod 86400 / 3600 * 3600 + 0 * 60 + (0 + 0))
    with (3600 * (wall t / 3600)) by (rewrite <- bucket_start; lia).
  reflexivity.
Qed.

(** In a zone of fixed offset, [time.Date] of the year, month, day and
    hour of [t] is the instant at which the wall-clock hour of [t]
    began. *)
Lemma Date_of_fields (name : string) (offset : Z) (t : Time) :
  Date (Time_Year t) (Time_Month t) (Time_Day t) (Time_Hour t) 0 0 0
       (FixedZone name offset)
  = {| unixSec := 3600 * (wall t / 3600) - offset; nsec := 0;
       loc := FixedZone name offset |}.
Proof.
  rewrite Date_of_fields_in. cbv zeta. simpl lookupZone. simpl zoffset.
  f_equal. destruct (offset =? 0) eqn:Ho.
  - apply Z.eqb_eq in Ho. lia.
  - destruct (_ || _); reflexivity.
Qed.


End CalendarFacts.

(** ** The scheduler's job identity *)




(** With a queue that rejects duplicate ids, a second tick in the same hour
    schedules nothing. *)
Lemma collectTick_same_hour (Local : GoTime.Location) (t1 t2 : GoTime.Time)
    (queue : gset string) :
  (GoTime.wall t1 / 3600 = GoTime.wall t2 / 3600)%Z ->
  let '(err1, queue1, id1) := Operations.collectTick Local Operations.dedupPut t1 queue in
  let '(err2, queue2, id2) := Operations.collectTick Local Operations.dedupPut t2 queue1 in
  id1 = id2 /\ id1 ∈ queue1 /\ is_Some err2 /\ queue2 = queue1.
Proof.
  intros H. destruct (same_bucket_same_fields t1 t2 H) as (Hy & Hm & Hd & Hh).
  unfold Operations.collectTick.
  assert (Hid : Operations.jobID Local t1 = Operations.jobID Local t2).
  { unfold Operations.jobID, Operations.lastHour. by rewrite Hy, Hm, Hd, Hh. }
  rewrite <- Hid. clear. generalize (Operations.jobID Local t1). intros id.
  unfold Operations.dedupPut.
  destruct (decide (id ∈ queue)) as [Hin|Hin].
  - rewrite decide_True by done. simpl. eauto.
  - rewrite decide_True by set_solver. simpl.
    repeat split; eauto. set_solver.
Qed.

(** A tick of the next hour is given another id. *)
Example jobID_next_hour :
  let EST := GoTime.FixedZone "EST" (-18000) in
  Operations.jobID EST (GoTime.Date 2024 3 1 10 0 0 0 EST)
  = "brc-2024-03-01 10:00:00 -0500 EST"%string.
Proof. vm_compute. reflexivity. Qed.

(** The id in a zone without a name: [Time.String] prints the offset, with
    hours and minutes, in its place. *)
Example jobID_unnamed_zone :
  let zone := GoTime.FixedZone "" 19800 in
  Operations.jobID zone (GoTime.Date 2024 3 1 10 45 0 0 zone)
  = "brc-2024-03-01 10:00:00 +0530 +0530"%string
  /\ Operations.jobID (GoTime.FixedZone "" 18000)
       (GoTime.Date 2024 3 1 10 45 0 0 (GoTime.FixedZone "" 18000))
     = "brc-2024-03-01 10:00:00 +0500 +0500"%string.
Proof. split; vm_compute; reflexivity. Qed.

(** ** The on-demand export *)

(** The layout of the export's file name spelled out: year, month, day, hour
    and minute, zero padded and joined by dashes. *)
Lemma append_empty_r (s : string) : s +:+ "" = s.
Proof.
  induction s as [|a s IH]; [reflexivity|].
  change (String a s +:+ "") with (String a (s +:+ "")). by rewrite IH.
Qed.

Lemma append_assoc (s1 s2 s3 : string) : (s1 +:+ s2) +:+ s3 = s1 +:+ (s2 +:+ s3).
Proof.
  induction s1 as [|a s1 IH]; [reflexivity|].
  change (String a ((s1 +:+ s2) +:+ s3) = String a (s1 +:+ (s2 +:+ s3))).
  by rewrite IH.
Qed.

Lemma Format_fnDate (t : GoTime.Time) :
  GoTime.Time_Format t "2006-01-02-15-04"
  = GoTime.appendInt (GoTime.Time_Year t) 4 +:+ "-"
    +:+ GoTime.appendInt (GoTime.Time_Month t) 2 +:+ "-"
    +:+ GoTime.appendInt (GoTime.Time_Day t) 2 +:+ "-"
    +:+ GoTime.appendInt (GoTime.Time_Hour t) 2 +:+ "-"
    +:+ GoTime.appendInt (GoTime.Time_Minute t) 2.
Proof.
  unfold GoTime.Time_Format. simpl. by rewrite append_empty_r.
Qed.

Section WriteFacts.
Import Errors.

Variable Environment : Type.
Variable nilEnv : Environment.
Variable CostConfig : Type.
Variable GetDuration : CostConfig -> GoTime.Duration -> result GoTime.Duration.
Variable fetchEvergreen :
  GoTime.Time -> GoTime.Duration -> CostConfig -> result Model.EvergreenCost.
Variable collectProviders :
  GoTime.Time -> GoTime.Duration -> CostConfig -> result (list Model.CloudProvider).
Variable now : GoTime.Time.

Local Abbreviation CreateReport :=
  (Operations.CreateReport nilEnv fetchEvergreen collectProviders now).
Local Abbreviation writeCostReport :=
  (Operations.writeCostReport nilEnv GetDuration fetchEvergreen collectProviders now).

(** A built report spans the window it was asked for. *)
Lemma CreateReport_window (start : GoTime.Time) (duration : GoTime.Duration)
    (conf : CostConfig) (report : Model.CostReport Environment) :
  CreateReport start duration conf = Ok report ->
  Model.Begin (Model.Report report) = start
  /\ Model.End_ (Model.Report report) = GoTime.Time_Add start duration.
Proof.
  unfold Operations.CreateReport.
  destruct (fetchEvergreen _ _ _); [|discriminate].
  destruct (collectProviders _ _ _); [|discriminate].
  intros [= <-]. auto.
Qed.

(** When the collaborators succeed, the export succeeds. *)
Lemma writeCostReport_succeeds (conf : CostConfig) (start : GoTime.Time)
    (dur duration : GoTime.Duration) (fs : Operations.FileSystem Environment)
    (evg : Model.EvergreenCost) (providers : list Model.CloudProvider) :
  GetDuration conf dur = Ok duration ->
  fetchEvergreen start duration conf = Ok evg ->
  collectProviders start duration conf = Ok providers ->
  Operations.writeFault fs = None ->
  fst (writeCostReport conf start dur fs) = None.
Proof.
  intros H1 H2 H3 H4.
  unfold Operations.writeCostReport, Operations.CreateReport, Operations.WriteToFile.
  rewrite H1, H2, H3, H4. reflexivity.
Qed.

Lemma writeCostReport_exports (conf : CostConfig) (start : GoTime.Time)
    (dur : GoTime.Duration) (fs fs' : Operations.FileSystem Environment) :
  writeCostReport conf start dur fs = (None, fs') ->
  exists duration report,
    GetDuration conf dur = Ok duration
    /\ CreateReport start duration conf = Ok report
    /\ Operations.files fs' = <[Operations.exportName start duration:=report]> (Operations.files fs).
Proof.
  unfold Operations.writeCostReport.
  destruct (GetDuration conf dur) as [duration|]; [|discriminate].
  destruct (CreateReport start duration conf) as [report|] eqn:Hr; [|discriminate].
  pose proof (CreateReport_window _ _ _ _ Hr) as [Hb _]. rewrite Hb.
  unfold Operations.WriteToFile.
  destruct (Operations.writeFault fs); [discriminate|].
  intros [= <-]. exists duration, report. auto.
Qed.

End WriteFacts.

(** C5 as worded does not hold of the duration asked for: the duration that
    names the file and ends the window is the one that [GetDuration] of
    the configuration resolves.  With a configuration that fixes the
    duration to four hours, the run for 2024-03-01 and two hours writes
    2024-03-01-00-00.4h0m0s.json, whose report ends four hours after the
    start, and no file of the name that the claim gives. *)
Lemma writeCostReport_requested_duration_counterexample :
  let r := Fixtures.writeConfigured (Some (4 * GoTime.Hour)%Z) Fixtures.march1
             (2 * GoTime.Hour)%Z Fixtures.emptyDisk in
  fst r = None
  /\ Operations.files (snd r) !! "2024-03-01-00-00.2h0m0s.json"%string = None
  /\ exists report,
       Operations.files (snd r) !! "2024-03-01-00-00.4h0m0s.json"%string = Some report
       /\ Model.End_ (Model.Report report)
          = GoTime.Time_Add Fixtures.march1 (4 * GoTime.Hour)%Z
       /\ Model.End_ (Model.Report report)
          <> GoTime.Time_Add Fixtures.march1 (2 * GoTime.Hour)%Z.
Proof.
  intros r. split; [reflexivity|]. split; [vm_compute; reflexivity|].
  eexists. split; [vm_compute; reflexivity|]. split; [vm_compute; reflexivity|].
  vm_compute. discriminate.
Qed.

(** C5 (amended).  Every on-demand run that exports writes one file: its name
    is the start of the report's window printed as
    year-month-day-hour-minute, a dot, the duration that [GetDuration] of
    the configuration resolves from the one asked for, printed by
    [Duration.String], and ".json"; the report in it begins at the start
    asked for and ends the resolved duration later. *)
Theorem writeCostReport_file_name
    (Environment : Type) (nilEnv : Environment) (CostConfig : Type)
    (GetDuration : CostConfig -> GoTime.Duration -> Errors.result GoTime.Duration)
    (fetchEvergreen :
       GoTime.Time -> GoTime.Duration -> CostConfig -> Errors.result Model.EvergreenCost)
    (collectProviders :
       GoTime.Time -> GoTime.Duration -> CostConfig
       -> Errors.result (list Model.CloudProvider))
    (now : GoTime.Time)
    (conf : CostConfig) (start : GoTime.Time) (dur : GoTime.Duration)
    (fs fs' : Operations.FileSystem Environment) :
  Operations.writeCostReport nilEnv GetDuration fetchEvergreen collectProviders now
    conf start dur fs = (None, fs') ->
  exists duration report,
    let fileName :=
      GoTime.appendInt (GoTime.Time_Year start) 4 +:+ "-"
      +:+ GoTime.appendInt (GoTime.Time_Month start) 2 +:+ "-"
      +:+ GoTime.appendInt (GoTime.Time_Day start) 2 +:+ "-"
      +:+ GoTime.appendInt (GoTime.Time_Hour start) 2 +:+ "-"
      +:+ GoTime.appendInt (GoTime.Time_Minute start) 2 +:+ "."
      +:+ GoTime.Duration_String duration +:+ ".json" in
    GetDuration conf dur = Errors.Ok duration
    /\ Operations.files fs' = <[fileName:=report]> (Operations.files fs)
    /\ Operations.files fs' !! fileName = Some report
    /\ Model.Begin (Model.Report report) = start
    /\ Model.End_ (Model.Report report) = GoTime.Time_Add start duration.
Proof.
  intros H.
  destruct (writeCostReport_exports _ nilEnv _ GetDuration fetchEvergreen
              collectProviders now conf start dur fs fs' H)
    as (duration & report & Hd & Hr & Hf).
  destruct (CreateReport_window _ nilEnv _ fetchEvergreen collectProviders now
              start duration conf report Hr) as [Hb He].
  exists duration, report. cbv zeta.
  assert (Hn : GoTime.appendInt (GoTime.Time_Year start) 4 +:+ "-"
               +:+ GoTime.appendInt (GoTime.Time_Month start) 2 +:+ "-"
               +:+ GoTime.appendInt (GoTime.Time_Day start) 2 +:+ "-"
               +:+ GoTime.appendInt (GoTime.Time_Hour start) 2 +:+ "-"
               +:+ GoTime.appendInt (GoTime.Time_Minute start) 2 +:+ "."
               +:+ GoTime.Duration_String duration +:+ ".json"
               = Operations.exportName start duration).
  { unfold Operations.exportName. rewrite Format_fnDate.
    generalize (GoTime.Duration_String duration +:+ ".json"). intros tail.
    repeat (rewrite ?append_assoc; simpl). reflexivity. }
  rewrite Hn. split; [exact Hd|]. split; [exact Hf|].
  split; [rewrite Hf; apply lookup_insert_eq|]. auto.
Qed.

Lemma writeCostReport_file_name_witness :
  let r := Fixtures.writeConfigured (Some (4 * GoTime.Hour)%Z) Fixtures.march1
             (2 * GoTime.Hour)%Z Fixtures.emptyDisk in
  fst r = None
  /\ exists report,
       Operations.files (snd r) !! "2024-03-01-00-00.4h0m0s.json"%string = Some report
       /\ Model.Begin (Model.Report report) = Fixtures.march1
       /\ Model.End_ (Model.Report report)
          = GoTime.Time_Add Fixtures.march1 (4 * GoTime.Hour)%Z.
Proof.
  intros r. split; [reflexivity|].
  destruct (writeCostReport_file_name Fixtures.Env Fixtures.nilEnv (option GoTime.Duration)
              Fixtures.resolveDuration Fixtures.idleFleet Fixtures.noBill Fixtures.noon
              (Some (4 * GoTime.Hour)%Z) Fixtures.march1 (2 * GoTime.Hour)%Z
              Fixtures.emptyDisk (snd r))
    as (duration & report & Hd & _ & Hl & Hb & He).
  - reflexivity.
  - injection Hd as <-. exists report. split; [exact Hl|]. split; [exact Hb | exact He].
Defined.

(** The scenario of the spec, with a configuration that leaves the duration
    to the request. *)
Example scenario_write :
  let r := Fixtures.write Fixtures.march1 (2 * GoTime.Hour)%Z Fixtures.emptyDisk in
  fst r = None
  /\ exists report,
       Operations.files (snd r) !! "2024-03-01-00-00.2h0m0s.json"%string = Some report
       /\ Model.Begin (Model.Report report) = Fixtures.march1
       /\ Model.End_ (Model.Report report)
          = GoTime.Time_Add Fixtures.march1 (2 * GoTime.Hour)%Z.
Proof.
  intros r. split; [reflexivity|]. eexists.
  split; [vm_compute; reflexivity|]. split; reflexivity.
Qed.

(* ===================================================================== *)

(** * Further properties of the code *)
(* ===================================================================== *)

(** ** The requests of a fetch *)

Section RequestFacts.
Import Errors Evergreen.

Variable unmarshalDistroCost : list Byte.byte -> result (option DistroCost).
Variables (c : Client) (st dur : string).
Variable log0 : list Request.

Local Abbreviation work := (Evergreen.work unmarshalDistroCost c st dur).
Local Abbreviation step := (Evergreen.step unmarshalDistroCost c st dur).
Local Abbreviation run := (Evergreen.run unmarshalDistroCost c st dur).
Local Abbreviation lookupOf := (lookupResult unmarshalDistroCost c st dur).
Local Abbreviation paths := (map (fun id => costPath id st dur)).
Local Abbreviation asked := (map (snd : Request -> string)).

(** What a turn does to the paths requested and the distros still to be
    looked up: it keeps their sum, or, on a cancelled context, drops a
    distro without a request. *)
Lemma turn_requests (i : nat) (s s' : pool) :
  requests s = log0 ++ issued log0 (requests s) ->
  work i s = Some s' ->
  requests s' = log0 ++ issued log0 (requests s')
  /\ ctx s' = ctx s
  /\ (exists new, issued log0 (requests s') = issued log0 (requests s) ++ new
                  /\ Forall (fun r => fst r = ctx s) new)
  /\ (asked (issued log0 (requests s')) ++ paths (pending s')
      ≡ₚ asked (issued log0 (requests s)) ++ paths (pending s)
      \/ (cancelled (ctx s) = true /\ requests s' = requests s
          /\ exists d, d :: pending s' ≡ₚ pending s)).
Proof.
  intros Hlog T. apply work_turn in T.
  assert (Hsame : exists new, issued log0 (requests s) = issued log0 (requests s) ++ new
                              /\ Forall (fun r : Request => fst r = ctx s) new).
  { exists []. by rewrite app_nil_r. }
  destruct T as [Hw Hq|d q Hw Hq|d Hw Hc|d Hw Hc|d Hw|dc Hw]; unfold pending; simpl.
  - split; [exact Hlog|]. split; [reflexivity|]. split; [exact Hsame|]. left.
    by rewrite (omap_insert_same heldOf _ i Ready Exited Hw eq_refl).
  - split; [exact Hlog|]. split; [reflexivity|]. split; [exact Hsame|]. left.
    pose proof (omap_insert heldOf _ i Ready (Got d) Hw) as P. simpl in P.
    rewrite Hq, P. simpl. rewrite !map_app. simpl. by rewrite <- !Permutation_middle.
  - split; [exact Hlog|]. split; [reflexivity|]. split; [exact Hsame|]. right.
    split; [exact Hc|]. split; [reflexivity|]. exists d.
    pose proof (omap_insert heldOf _ i (Got d) Exited Hw) as P. simpl in P.
    by rewrite <- P.
  - split; [exact Hlog|]. split; [reflexivity|]. split; [exact Hsame|]. left.
    by rewrite (omap_insert_same heldOf _ i (Got d) (Checked d) Hw eq_refl).
  - rewrite (issued_snoc _ _ _ Hlog).
    split. { rewrite Hlog at 1. by rewrite app_assoc. }
    split; [reflexivity|].
    split. { eexists. split; [reflexivity|]. by repeat constructor. }
    left.
    pose proof (omap_insert heldOf _ i (Checked d)
                  (match fst (lookupOf (ctx s) d) with
                   | None => Ready | Some dc => Sending dc end)
                  Hw) as P.
    assert (Hg : heldOf (match fst (lookupOf (ctx s) d) with
                         | None => Ready | Some dc => Sending dc end)
                 = None) by (destruct (fst (lookupOf (ctx s) d)); reflexivity).
    rewrite Hg in P. simpl in P. rewrite <- P. rewrite map_app. simpl.
    rewrite <- app_assoc. simpl. reflexivity.
  - split; [exact Hlog|]. split; [reflexivity|]. split; [exact Hsame|]. left.
    by rewrite (omap_insert_same heldOf _ i (Sending dc) Ready Hw eq_refl).
Qed.

(** In any run the paths requested are lookups of distros of the channel,
    none more often than it was sent. *)
Lemma run_requests_within (queue0 : list string) (fuel : nat) (sched : list event)
    (s : pool) :
  requests s = log0 -> pending s = queue0 ->
  asked (issued log0 (requests (run fuel sched s))) ⊆+ paths queue0.
Proof.
  intros Hr Hp.
  assert (H : requests (run fuel sched s) = log0 ++ issued log0 (requests (run fuel sched s))
              /\ asked (issued log0 (requests (run fuel sched s)))
                   ++ paths (pending (run fuel sched s)) ⊆+ paths queue0).
  { apply (run_invariant unmarshalDistroCost c st dur
             (fun x => requests x = log0 ++ issued log0 (requests x)
                       /\ asked (issued log0 (requests x)) ++ paths (pending x)
                          ⊆+ paths queue0)).
    - intros [i|] x x' [Hlog Hsub]; simpl.
      + intros T.
        destruct (turn_requests i x x' Hlog T) as (Hlog' & _ & _ & [Hperm|Hdrop]).
        * split; [exact Hlog'|]. by rewrite Hperm.
        * destruct Hdrop as (_ & Heq & d & Hd). rewrite Heq. split; [exact Hlog|].
          rewrite <- Hd in Hsub. simpl in Hsub.
          etransitivity; [|exact Hsub]. apply submseteq_skips_l. by constructor.
      + destruct (cancelled (ctx x)); [discriminate|]. intros [= <-]. simpl. auto.
    - rewrite Hr, Hp. unfold issued. rewrite drop_all, app_nil_r. simpl. auto. }
  destruct H as [_ H]. etransitivity; [|exact H]. by apply submseteq_inserts_r.
Qed.

(** Requests that were all made under one context are their paths, each
    with that context. *)
Lemma requests_under (ctx0 : Context) (l : list Request) :
  Forall (fun r => fst r = ctx0) l -> l = map (pair ctx0) (asked l).
Proof.
  induction 1 as [|[x p] l Hx _ IH]; [reflexivity|].
  simpl in *. subst x. by rewrite <- IH.
Qed.

(** In a run whose context stays live, when every goroutine has returned
    every distro of the channel has been looked up once, under the live
    context. *)
Lemma run_requests_exact (queue0 : list string) (fuel : nat) (sched : list event)
    (s : pool) :
  Forall (fun e => e <> Cancel) sched ->
  requests s = log0 -> pending s = queue0 ->
  balanced unmarshalDistroCost c st dur queue0 s -> workers s <> [] ->
  finished (run fuel sched s) ->
  issued log0 (requests (run fuel sched s))
  ≡ₚ map (fun id => (live, costPath id st dur)) queue0.
Proof.
  intros Hsched Hr Hp Hb Hne Hfin.
  assert (H : (requests (run fuel sched s) = log0 ++ issued log0 (requests (run fuel sched s))
               /\ asked (issued log0 (requests (run fuel sched s)))
                    ++ paths (pending (run fuel sched s)) ≡ₚ paths queue0
               /\ Forall (fun r => fst r = live) (issued log0 (requests (run fuel sched s))))
              /\ balanced unmarshalDistroCost c st dur queue0 (run fuel sched s)
              /\ length (workers (run fuel sched s)) = length (workers s)).
  { apply (run_invariant_work unmarshalDistroCost c st dur
             (fun x => (requests x = log0 ++ issued log0 (requests x)
                        /\ asked (issued log0 (requests x)) ++ paths (pending x)
                           ≡ₚ paths queue0
                        /\ Forall (fun r => fst r = live) (issued log0 (requests x)))
                       /\ balanced unmarshalDistroCost c st dur queue0 x
                       /\ length (workers x) = length (workers s))); auto.
    - intros i x x' ((Hlog & Hperm & Hall) & Hbx & Hlen) T. split; [|split].
      + destruct (turn_requests i x x' Hlog T)
          as (Hlog' & _ & (new & Hnew & Hctx) & [Hperm'|Hdrop]).
        * split; [exact Hlog'|]. split; [by rewrite Hperm'|].
          rewrite Hnew. apply Forall_app. split; [exact Hall|].
          destruct Hbx as (Hlive & _). by rewrite (cancelled_false _ Hlive) in Hctx.
        * destruct Hbx as (Hlive & _). destruct Hdrop as (Hc & _). congruence.
      + eapply balanced_turn; eauto.
      + rewrite <- Hlen. apply work_turn in T.
        destruct T; simpl; by rewrite ?length_insert.
    - split; [|split; auto]. rewrite Hr, Hp. unfold issued.
      rewrite drop_all, app_nil_r. simpl. auto. }
  destruct H as ((_ & Hperm & Hall) & (_ & _ & _ & Hex) & Hlen).
  unfold finished in Hfin. rewrite firstLive_None in Hfin.
  set (s' := run fuel sched s) in *.
  assert (Hq : distros s' = []).
  { apply Hex. destruct (workers s') as [|w ws] eqn:Hw.
    - destruct (workers s); [congruence | discriminate].
    - inversion Hfin; subst. apply list_elem_of_here. }
  assert (Hg : omap heldOf (workers s') = []).
  { clear -Hfin. induction Hfin as [|w ws -> _ IH]; simpl; auto. }
  unfold pending in Hperm. rewrite Hq, Hg in Hperm. simpl in Hperm.
  rewrite app_nil_r in Hperm.
  rewrite (requests_under live _ Hall), Hperm. by rewrite map_map.
Qed.

(** In a fetch whose context was cancelled before it began nothing is
    requested. *)
Lemma run_cancelled_quiet (fuel : nat) (sched : list event) (s : pool) :
  idle s -> requests (run fuel sched s) = requests s.
Proof.
  intros Hi.
  assert (H : idle (run fuel sched s) /\ requests (run fuel sched s) = requests s).
  { apply (run_invariant unmarshalDistroCost c st dur
             (fun x => idle x /\ requests x = requests s)); auto.
    intros e x x' [Hix Hrx] Hs. split; [by eapply idle_step|].
    destruct Hix as (Hcx & _ & _ & _ & Hk). destruct e as [i|]; simpl in Hs.
    - apply work_turn in Hs. destruct Hs as [| | | |d Hw|]; simpl; auto.
      exfalso. apply (Hk d). apply list_elem_of_lookup. eauto.
    - rewrite Hcx in Hs. discriminate. }
  apply H.
Qed.

End RequestFacts.

Section FetchRequestFacts.
Import Errors Evergreen.

Variable unmarshalDistroCost : list Byte.byte -> result (option DistroCost).
Variables (c : Client) (st dur : string).

Local Abbreviation lookupOf := (lookupResult unmarshalDistroCost c st dur).
Local Abbreviation paths := (map (fun id => costPath id st dur)).
Local Abbreviation asked := (map (snd : Request -> string)).

Lemma start_pending (rand_Perm : nat -> list nat) (ctx0 : Context)
    (distroIDs : list string) (log : list Request) :
  pending (start rand_Perm ctx0 distroIDs log)
  = omap (fun idx => distroIDs !! idx) (rand_Perm (length distroIDs)).
Proof. reflexivity. Qed.

Lemma start_idle (rand_Perm : nat -> list nat) (distroIDs : list string)
    (log : list Request) :
  idle (start rand_Perm cancelledCtx distroIDs log).
Proof.
  unfold idle. simpl. repeat split; auto; intros x H;
    repeat (apply elem_of_cons in H as [H|H]; [discriminate|]);
    by apply elem_of_nil in H.
Qed.

(** The requests of a fetch come after those made before, and are lookups of
    distros of the shuffled list. *)
Lemma fetch_requests_within (rand_Perm : nat -> list nat) (ctx0 : Context)
    (sched : list event) (distroIDs : list string) (log : list Request) :
  exists new,
    snd (getDistroCosts unmarshalDistroCost rand_Perm c st dur ctx0 sched distroIDs log)
    = log ++ new
    /\ asked new
       ⊆+ paths (omap (fun idx => distroIDs !! idx) (rand_Perm (length distroIDs))).
Proof.
  rewrite fetch_result. simpl.
  set (s0 := start rand_Perm ctx0 distroIDs log).
  destruct (fetch_ends unmarshalDistroCost c st dur rand_Perm ctx0 sched distroIDs log)
    as (_ & Hlog & _).
  fold s0 in Hlog. eexists. split; [exact Hlog|].
  apply (run_requests_within unmarshalDistroCost c st dur log _ _ sched s0); reflexivity.
Qed.

(** A fetch whose context stays live looks every distro up exactly once. *)
Lemma fetch_requests_exact (rand_Perm : nat -> list nat)
    (sched : list event) (distroIDs : list string) (log : list Request) :
  rand_Perm (length distroIDs) ≡ₚ seq 0 (length distroIDs) ->
  Forall (fun e => e <> Cancel) sched ->
  exists new,
    snd (getDistroCosts unmarshalDistroCost rand_Perm c st dur live sched distroIDs log)
    = log ++ new
    /\ new ≡ₚ map (fun id => (live, costPath id st dur)) distroIDs.
Proof.
  intros Hperm Hsched. rewrite fetch_result. simpl.
  set (s0 := start rand_Perm live distroIDs log).
  destruct (fetch_ends unmarshalDistroCost c st dur rand_Perm live sched distroIDs log)
    as (Hfin & Hlog & _).
  fold s0 in Hlog, Hfin. eexists. split; [exact Hlog|].
  rewrite (run_requests_exact unmarshalDistroCost c st dur log (distros s0) _ sched s0);
    auto.
  - subst s0. simpl. by rewrite (shuffle_Permutation distroIDs _ Hperm).
  - apply balanced_start.
Qed.

(** A fetch that makes no request returns the empty list and no error. *)
Lemma fetch_without_requests (rand_Perm : nat -> list nat) (ctx0 : Context)
    (sched : list event) (distroIDs : list string) (log : list Request) :
  snd (getDistroCosts unmarshalDistroCost rand_Perm c st dur ctx0 sched distroIDs log) = log ->
  fst (getDistroCosts unmarshalDistroCost rand_Perm c st dur ctx0 sched distroIDs log)
  = (Some [], None).
Proof.
  rewrite fetch_result. simpl.
  destruct (fetch_ends unmarshalDistroCost c st dur rand_Perm ctx0 sched distroIDs log)
    as (_ & _ & Herr & Hcosts & _).
  set (s := run _ _ _ _ _ _ _) in *. intros Hlog.
  assert (Hnone : forall x id, ~ lookedUp st dur log (requests s) x id).
  { intros x id Hl. unfold lookedUp, issued in Hl. rewrite Hlog, drop_all in Hl.
    by apply elem_of_nil in Hl. }
  destruct (HasErrors (catcher s)) eqn:Hc.
  - destruct Herr as [Herr _]. destruct (Herr eq_refl) as (x & id & Hl & _).
    by apply Hnone in Hl.
  - f_equal. f_equal. apply elem_of_nil_inv. intros dc Hin.
    apply Hcosts in Hin as (_ & x & id & Hl & _). by apply Hnone in Hl.
Qed.

(** A fetch over no distros. *)
Lemma fetch_of_nothing (rand_Perm : nat -> list nat) (ctx0 : Context)
    (sched : list event) (log : list Request) :
  getDistroCosts unmarshalDistroCost rand_Perm c st dur ctx0 sched [] log
  = ((Some [], None), log).
Proof.
  destruct (fetch_requests_within rand_Perm ctx0 sched [] log) as (new & Hlog & Hsub).
  assert (Hq : forall l : list nat, omap (fun idx => ([] : list string) !! idx) l = []).
  { induction l as [|n l IH]; simpl; [reflexivity|]. exact IH. }
  rewrite Hq in Hsub. apply submseteq_nil_r in Hsub. apply map_eq_nil in Hsub.
  subst new. rewrite app_nil_r in Hlog.
  pose proof (fetch_without_requests rand_Perm ctx0 sched [] log Hlog) as Hres.
  destruct (getDistroCosts _ _ _ _ _ _ _ _ _) as [r l]. simpl in *. congruence.
Qed.

End FetchRequestFacts.

(** X1.  A fetch over no distros returns the empty, non-nil list and no
    error, and makes no request, whatever the context and the scheduler. *)
Theorem getDistroCosts_no_distros
    (unmarshalDistroCost : list Byte.byte -> Errors.result (option Evergreen.DistroCost))
    (rand_Perm : nat -> list nat) (c : Evergreen.Client) (st dur : string)
    (ctx0 : Evergreen.Context) (sched : list Evergreen.event)
    (log : list Evergreen.Request) :
  Evergreen.getDistroCosts unmarshalDistroCost rand_Perm c st dur ctx0 sched [] log
  = ((Some [], None), log).
Proof. apply fetch_of_nothing. Qed.

(** X2.  Whatever the scheduler does and whenever the context is cancelled, the
    requests of [getDistroCosts] are appended to the log and are lookups of
    the distros it was given, none made more often than the distro is
    listed: nothing else is requested and no lookup is repeated. *)
Theorem getDistroCosts_requests_within
    (unmarshalDistroCost : list Byte.byte -> Errors.result (option Evergreen.DistroCost))
    (rand_Perm : nat -> list nat) (c : Evergreen.Client) (st dur : string)
    (ctx0 : Evergreen.Context) (sched : list Evergreen.event)
    (distroIDs : list string) (log : list Evergreen.Request) :
  rand_Perm (length distroIDs) ≡ₚ seq 0 (length distroIDs) ->
  let log' :=
    snd (Evergreen.getDistroCosts unmarshalDistroCost rand_Perm c st dur ctx0 sched
           distroIDs log) in
  log' = log ++ Evergreen.issued log log'
  /\ map snd (Evergreen.issued log log')
     ⊆+ map (fun id => Evergreen.costPath id st dur) distroIDs.
Proof.
  intros Hperm. cbv zeta.
  destruct (fetch_requests_within unmarshalDistroCost c st dur rand_Perm ctx0 sched
              distroIDs log) as (new & -> & Hsub).
  unfold Evergreen.issued. rewrite drop_app_length. split; [reflexivity|].
  by rewrite (shuffle_Permutation distroIDs _ Hperm) in Hsub.
Qed.

Lemma getDistroCosts_requests_within_witness :
  let log := [(Evergreen.live, "/distros"%string)] in
  let log' :=
    snd (Evergreen.getDistroCosts Fixtures.unmarshalDistroCost Fixtures.reversed
           Fixtures.scenario Fixtures.st Fixtures.dur Evergreen.live
           [Evergreen.Work 3; Evergreen.Work 3; Evergreen.Work 5; Evergreen.Cancel]
           ["a"; "b"; "c"]%string log) in
  log' = log ++ Evergreen.issued log log'
  /\ map snd (Evergreen.issued log log')
     ⊆+ map (fun id => Evergreen.costPath id Fixtures.st Fixtures.dur)
            ["a"; "b"; "c"]%string.
Proof.
  apply (getDistroCosts_requests_within Fixtures.unmarshalDistroCost Fixtures.reversed
           Fixtures.scenario Fixtures.st Fixtures.dur Evergreen.live
           [Evergreen.Work 3; Evergreen.Work 3; Evergreen.Work 5; Evergreen.Cancel]
           ["a"; "b"; "c"]%string [(Evergreen.live, "/distros"%string)]).
  vm_compute. apply Permutation_rev.
Defined.

(** X3.  When the context is not cancelled during the fetch, every distro
    given to [getDistroCosts] is looked up exactly once, in some order, and
    under the live context. *)
Theorem getDistroCosts_each_distro_once
    (unmarshalDistroCost : list Byte.byte -> Errors.result (option Evergreen.DistroCost))
    (rand_Perm : nat -> list nat) (c : Evergreen.Client) (st dur : string)
    (sched : list Evergreen.event) (distroIDs : list string)
    (log : list Evergreen.Request) :
  rand_Perm (length distroIDs) ≡ₚ seq 0 (length distroIDs) ->
  Forall (fun e => e <> Evergreen.Cancel) sched ->
  Evergreen.issued log
    (snd (Evergreen.getDistroCosts unmarshalDistroCost rand_Perm c st dur Evergreen.live
            sched distroIDs log))
  ≡ₚ map (fun id => (Evergreen.live, Evergreen.costPath id st dur)) distroIDs.
Proof.
  intros Hperm Hsched.
  destruct (fetch_requests_exact unmarshalDistroCost c st dur rand_Perm sched
              distroIDs log Hperm Hsched) as (new & -> & Hnew).
  unfold Evergreen.issued. by rewrite drop_app_length.
Qed.

Lemma getDistroCosts_each_distro_once_witness :
  Evergreen.issued [(Evergreen.live, "/distros"%string)]
    (snd (Evergreen.getDistroCosts Fixtures.unmarshalDistroCost Fixtures.reversed
            Fixtures.flaky Fixtures.st Fixtures.dur Evergreen.live
            [Evergreen.Work 7; Evergreen.Work 2] ["a"; "b"; "c"]%string
            [(Evergreen.live, "/distros"%string)]))
  ≡ₚ map (fun id => (Evergreen.live, Evergreen.costPath id Fixtures.st Fixtures.dur))
         ["a"; "b"; "c"]%string.
Proof.
  apply (getDistroCosts_each_distro_once Fixtures.unmarshalDistroCost Fixtures.reversed
           Fixtures.flaky Fixtures.st Fixtures.dur
           [Evergreen.Work 7; Evergreen.Work 2] ["a"; "b"; "c"]%string
           [(Evergreen.live, "/distros"%string)]).
  - vm_compute. apply Permutation_rev.
  - repeat constructor; discriminate.
Defined.

(** X4.  A fetch whose context is cancelled before it begins makes no
    request and returns the empty list without any error: the cancellation
    is not reported. *)
Theorem getDistroCosts_cancelled_beforehand
    (unmarshalDistroCost : list Byte.byte -> Errors.result (option Evergreen.DistroCost))
    (rand_Perm : nat -> list nat) (c : Evergreen.Client) (st dur : string)
    (sched : list Evergreen.event) (distroIDs : list string)
    (log : list Evergreen.Request) :
  Evergreen.getDistroCosts unmarshalDistroCost rand_Perm c st dur
    {| Evergreen.cancelled := true |} sched distroIDs log
  = ((Some [], None), log).
Proof.
  pose proof (fetch_cancelled unmarshalDistroCost c st dur rand_Perm sched distroIDs log)
    as Hres.
  assert (Hlog : snd (Evergreen.getDistroCosts unmarshalDistroCost rand_Perm c st dur
                        {| Evergreen.cancelled := true |} sched distroIDs log) = log).
  { rewrite fetch_result. simpl.
    rewrite (run_cancelled_quiet unmarshalDistroCost c st dur); [reflexivity|].
    apply start_idle. }
  destruct (Evergreen.getDistroCosts _ _ _ _ _ _ _ _ _) as [r l]. simpl in *. congruence.
Qed.

(** ** The whole retrieval *)

Section RetrievalFacts.
Import Errors Evergreen.

Variable unmarshalDistros : list Byte.byte -> result (option (list (option Distro))).
Variable unmarshalDistroCost : list Byte.byte -> result (option DistroCost).
Variable rand_Perm : nat -> list nat.
Variable c : Client.

(** The loop over a listing without nil entries collects the ids in the
    order of the listing; a nil entry makes it panic. *)
Lemma appendIDs_objects (distroIDs : list string) (listing : list Distro) :
  appendIDs distroIDs (map Some listing)
  = Returned (distroIDs ++ map Distro_DistroID listing).
Proof.
  revert distroIDs. induction listing as [|d listing IH]; intros distroIDs; simpl.
  - by rewrite app_nil_r.
  - rewrite IH. by rewrite <- app_assoc.
Qed.

Lemma appendIDs_nil_entry (distroIDs : list string) (entries : list (option Distro)) :
  None ∈ entries -> appendIDs distroIDs entries = Panicked.
Proof.
  revert distroIDs. induction entries as [|[d|] entries IH]; intros distroIDs H; simpl.
  - by apply elem_of_nil in H.
  - apply IH. apply elem_of_cons in H as [H|H]; [discriminate | exact H].
  - reflexivity.
Qed.

(** With a listing that can be read, [getDistroIDs] is the loop over its
    entries. *)
Lemma getDistroIDs_ok (ctx0 : Context) (log : list Request)
    (listing : option (list (option Distro))) :
  link (respond c ctx0 "/distros") = ""%string ->
  err (respond c ctx0 "/distros") = None ->
  unmarshalDistros (data (respond c ctx0 "/distros")) = Ok listing ->
  getDistroIDs unmarshalDistros c ctx0 log
  = (match appendIDs [] (default [] listing) with
     | Returned distroIDs => Returned (Some distroIDs, None)
     | Panicked => Panicked
     end, log ++ [(ctx0, "/distros"%string)]).
Proof.
  intros Hl He Hu. unfold getDistroIDs, GetDistros, bind, get, ret. simpl.
  rewrite Hl, He, Hu. simpl. destruct (appendIDs _ _); reflexivity.
Qed.

(** After the listing, [GetEvergreenDistrosData] is the fetch with its error
    wrapped. *)
Lemma GetEvergreenDistrosData_ok (ctx0 : Context) (sched : list event)
    (starttime : GoTime.Time) (duration : GoTime.Duration) (log : list Request)
    (listing : option (list (option Distro))) (distroIDs : list string) :
  link (respond c ctx0 "/distros") = ""%string ->
  err (respond c ctx0 "/distros") = None ->
  unmarshalDistros (data (respond c ctx0 "/distros")) = Ok listing ->
  appendIDs [] (default [] listing) = Returned distroIDs ->
  GetEvergreenDistrosData unmarshalDistros unmarshalDistroCost rand_Perm c ctx0 sched
    starttime duration log
  = let '(res, err, log') :=
      getDistroCosts unmarshalDistroCost rand_Perm c
        (GoTime.Time_Format starttime "2006-01-02T15:04:05Z07:00")
        (GoTime.TrimRight (GoTime.Duration_String duration) "0s")
        ctx0 sched distroIDs (log ++ [(ctx0, "/distros"%string)]) in
    (Returned
       match err with
       | Some e =>
           (None, Some (Wrapped e "error in getting distro costs in GetEvergreenDistrosData"))
       | None => (res, None)
       end, log').
Proof.
  intros Hl He Hu Hids. unfold GetEvergreenDistrosData, bind.
  rewrite (getDistroIDs_ok ctx0 log listing Hl He Hu), Hids. cbv beta iota.
  simpl default.
  destruct (getDistroCosts _ _ _ _ _ _ _ _ _) as [[res [e|]] log']; reflexivity.
Qed.

End RetrievalFacts.

(** X6.  The whole retrieval, when the listing can be read, has no null
    among its entries, and the context is not cancelled meanwhile: the
    requests are the listing and then one lookup per listed distro, each
    with the start time in RFC 3339 and the trimmed duration; if no lookup
    fails the result is, in some order, the records with positive summed
    time, and if one fails the result is nil with an error wrapped with the
    description of the stage. *)
Theorem GetEvergreenDistrosData_complete
    (unmarshalDistros :
       list Byte.byte -> Errors.result (option (list (option Evergreen.Distro))))
    (unmarshalDistroCost : list Byte.byte -> Errors.result (option Evergreen.DistroCost))
    (rand_Perm : nat -> list nat) (c : Evergreen.Client) (sched : list Evergreen.event)
    (starttime : GoTime.Time) (duration : GoTime.Duration) (log : list Evergreen.Request)
    (listing : list Evergreen.Distro) :
  Evergreen.link (Evergreen.respond c Evergreen.live "/distros") = ""%string ->
  Evergreen.err (Evergreen.respond c Evergreen.live "/distros") = None ->
  unmarshalDistros (Evergreen.data (Evergreen.respond c Evergreen.live "/distros"))
  = Errors.Ok (Some (map Some listing)) ->
  (forall n, rand_Perm n ≡ₚ seq 0 n) ->
  Forall (fun e => e <> Evergreen.Cancel) sched ->
  let st := GoTime.Time_Format starttime "2006-01-02T15:04:05Z07:00" in
  let dur := GoTime.TrimRight (GoTime.Duration_String duration) "0s" in
  let ids := map Evergreen.Distro_DistroID listing in
  let lookup := Evergreen.lookupResult unmarshalDistroCost c st dur Evergreen.live in
  let r := Evergreen.GetEvergreenDistrosData unmarshalDistros unmarshalDistroCost
             rand_Perm c Evergreen.live sched starttime duration log in
  (exists new,
      snd r = log ++ (Evergreen.live, "/distros"%string) :: new
      /\ new ≡ₚ map (fun id => (Evergreen.live, Evergreen.costPath id st dur)) ids)
  /\ ((forall id, id ∈ ids -> snd (lookup id) = None) ->
      exists kept,
        fst r = Evergreen.Returned (Some kept, None)
        /\ kept ≡ₚ filter Evergreen.positive (omap (fun id => fst (lookup id)) ids))
  /\ ((exists id, id ∈ ids /\ is_Some (snd (lookup id))) ->
      exists e,
        fst r = Evergreen.Returned
                  (None,
                   Some (Errors.Wrapped e
                           "error in getting distro costs in GetEvergreenDistrosData"))).
Proof.
  intros Hl He Hu Hperm Hsched. cbv zeta.
  rewrite (GetEvergreenDistrosData_ok unmarshalDistros unmarshalDistroCost rand_Perm c
             Evergreen.live sched starttime duration log (Some (map Some listing))
             (map Evergreen.Distro_DistroID listing) Hl He Hu);
    [|apply appendIDs_objects].
  set (st := GoTime.Time_Format _ _). set (dur := GoTime.TrimRight _ _).
  set (ids := map Evergreen.Distro_DistroID listing).
  set (log1 := log ++ [(Evergreen.live, "/distros"%string)]).
  destruct (fetch_requests_exact unmarshalDistroCost c st dur rand_Perm sched ids log1
              (Hperm _) Hsched) as (new & Hlog & Hnew).
  destruct (fetch_live unmarshalDistroCost c st dur rand_Perm sched ids log1
              (Hperm _) Hsched) as (kept & caught & Hk & Hc & Hres).
  destruct (Evergreen.getDistroCosts _ _ _ _ _ _ _ _ _) as [[res err] log'].
  simpl in Hlog, Hres. subst log'. split; [|split].
  - exists new. split; [|exact Hnew]. destruct err; simpl; unfold log1;
      by rewrite <- app_assoc.
  - intros Hall.
    assert (Hnone : Evergreen.errorsOf unmarshalDistroCost c st dur Evergreen.live ids = []).
    { apply elem_of_nil_inv. intros x Hx. unfold Evergreen.errorsOf in Hx.
      apply list_elem_of_omap in Hx as (id & Hin & Hw).
      rewrite (Hall id Hin) in Hw. discriminate. }
    rewrite Hnone in Hc. apply Permutation_nil_r in Hc. subst caught.
    simpl in Hres. injection Hres as -> ->. exists kept. split; [reflexivity | exact Hk].
  - intros (id & Hin & [e Hs]).
    assert (Hx : Errors.Wrapped e "error when getting distro cost data from Evergreen"
                   ∈ caught).
    { rewrite Hc. unfold Evergreen.errorsOf. apply list_elem_of_omap.
      exists id. split; [exact Hin|]. rewrite Hs. reflexivity. }
    destruct caught as [|x caught]; [by apply elem_of_nil in Hx|].
    simpl in Hres. injection Hres as -> ->. eauto.
Qed.

Lemma GetEvergreenDistrosData_complete_witness :
  let r := Evergreen.GetEvergreenDistrosData Fixtures.unmarshalDistros
             Fixtures.unmarshalDistroCost Fixtures.reversed Fixtures.scenario
             Evergreen.live [] (GoTime.Date 2024 3 1 0 0 0 0 GoTime.UTC)
             (2 * GoTime.Hour)%Z [] in
  exists kept, fst r = Evergreen.Returned (Some kept, None)
               /\ kept ≡ₚ [Fixtures.cost "a" 120; Fixtures.cost "c" 45].
Proof.
  intros r.
  destruct (GetEvergreenDistrosData_complete Fixtures.unmarshalDistros
              Fixtures.unmarshalDistroCost Fixtures.reversed Fixtures.scenario []
              (GoTime.Date 2024 3 1 0 0 0 0 GoTime.UTC) (2 * GoTime.Hour)%Z []
              [{| Evergreen.Distro_DistroID := "a" |};
               {| Evergreen.Distro_DistroID := "b" |};
               {| Evergreen.Distro_DistroID := "c" |}])
    as (_ & Hok & _).
  - reflexivity.
  - reflexivity.
  - reflexivity.
  - intros n. unfold Fixtures.reversed. symmetry. apply Permutation_rev.
  - constructor.
  - destruct Hok as (kept & Hres & Hkept).
    + intros id Hin. vm_compute in Hin.
      repeat (apply elem_of_cons in Hin as [->|Hin]; [reflexivity|]).
      by apply elem_of_nil in Hin.
    + exists kept. split; [exact Hres|]. rewrite Hkept. vm_compute. reflexivity.
Defined.

(** X27.  A listing with a null among its entries makes
    [GetEvergreenDistrosData] panic: [getDistroIDs] reads the id of the nil
    entry.  The listing has been requested by then, and nothing else. *)
Theorem GetEvergreenDistrosData_null_entry_panics
    (unmarshalDistros :
       list Byte.byte -> Errors.result (option (list (option Evergreen.Distro))))
    (unmarshalDistroCost : list Byte.byte -> Errors.result (option Evergreen.DistroCost))
    (rand_Perm : nat -> list nat) (c : Evergreen.Client) (ctx0 : Evergreen.Context)
    (sched : list Evergreen.event)
    (starttime : GoTime.Time) (duration : GoTime.Duration) (log : list Evergreen.Request)
    (entries : list (option Evergreen.Distro)) :
  Evergreen.link (Evergreen.respond c ctx0 "/distros") = ""%string ->
  Evergreen.err (Evergreen.respond c ctx0 "/distros") = None ->
  unmarshalDistros (Evergreen.data (Evergreen.respond c ctx0 "/distros"))
  = Errors.Ok (Some entries) ->
  None ∈ entries ->
  Evergreen.GetEvergreenDistrosData unmarshalDistros unmarshalDistroCost rand_Perm c ctx0
    sched starttime duration log
  = (Evergreen.Panicked, log ++ [(ctx0, "/distros"%string)]).
Proof.
  intros Hl He Hu Hnil. unfold Evergreen.GetEvergreenDistrosData, Evergreen.bind.
  rewrite (getDistroIDs_ok unmarshalDistros c ctx0 log (Some entries) Hl He Hu).
  change (default [] (Some entries)) with entries.
  by rewrite (appendIDs_nil_entry [] entries Hnil).
Qed.

Lemma GetEvergreenDistrosData_null_entry_panics_witness :
  Evergreen.GetEvergreenDistrosData Fixtures.unmarshalDistros Fixtures.unmarshalDistroCost
    Fixtures.inOrder Fixtures.holed Evergreen.live [] Fixtures.march1
    (2 * GoTime.Hour)%Z []
  = (Evergreen.Panicked, [(Evergreen.live, "/distros"%string)]).
Proof.
  apply (GetEvergreenDistrosData_null_entry_panics Fixtures.unmarshalDistros
           Fixtures.unmarshalDistroCost Fixtures.inOrder Fixtures.holed Evergreen.live []
           Fixtures.march1 (2 * GoTime.Hour)%Z []
           [Some {| Evergreen.Distro_DistroID := "a" |}; None;
            Some {| Evergreen.Distro_DistroID := "c" |}]).
  - reflexivity.
  - reflexivity.
  - reflexivity.
  - apply list_elem_of_further, list_elem_of_here.
Defined.

(** ** The duration sent to the API *)

Section TrimFacts.
Import GoTime.

Lemma append_cons (a : ascii) (s t : string) : String a s +:+ t = String a (s +:+ t).
Proof. reflexivity. Qed.

Lemma append_snoc_not_empty (r : string) (ch : ascii) : r +:+ String ch "" <> ""%string.
Proof. destruct r; discriminate. Qed.

(** [TrimRight] cuts a suffix made of characters of the cutset, and what it
    leaves does not end in one. *)
Lemma TrimRight_spec (s cutset : string) :
  exists cut,
    s = TrimRight s cutset +:+ cut
    /\ Forall (fun ch => inCutset ch cutset = true) (list_ascii_of_string cut)
    /\ forall r ch, TrimRight s cutset = r +:+ String ch "" -> inCutset ch cutset = false.
Proof.
  induction s as [|a s (cut & Hs & Hcut & Hlast)].
  - exists ""%string. split; [reflexivity|]. split; [constructor|].
    intros r ch H. simpl in H. symmetry in H. by apply append_snoc_not_empty in H.
  - simpl. destruct (TrimRight s cutset) as [|b t] eqn:Ht.
    + destruct (inCutset a cutset) eqn:Ha.
      * exists (String a cut). split; [|split].
        -- rewrite Hs at 1. reflexivity.
        -- simpl. constructor; auto.
        -- intros r ch H. symmetry in H. by apply append_snoc_not_empty in H.
      * exists cut. split; [|split]; auto.
        -- rewrite Hs at 1. reflexivity.
        -- intros r ch H. destruct r as [|x r].
           ++ injection H as <-. exact Ha.
           ++ rewrite append_cons in H. injection H as _ H.
              symmetry in H. by apply append_snoc_not_empty in H.
    + exists cut. split; [|split]; auto.
      * rewrite Hs at 1. reflexivity.
      * intros r ch H. destruct r as [|x r].
        -- discriminate.
        -- rewrite append_cons in H. injection H as _ H. by apply (Hlast r ch).
Qed.

(** What the number formatters write goes in front of what is there. *)
Lemma fmtIntLoop_prefix (fuel : nat) (v : Z) (acc : string) :
  exists p, fmtIntLoop fuel v acc = p +:+ acc.
Proof.
  revert v acc. induction fuel as [|fuel IH]; intros v acc; simpl.
  - by exists ""%string.
  - destruct (v / 10 =? 0)%Z.
    + by exists (String (digit (v mod 10)) "").
    + destruct (IH (v / 10)%Z (String (digit (v mod 10)) acc)) as [p ->].
      exists (p +:+ String (digit (v mod 10)) ""). by rewrite append_assoc.
Qed.

Lemma fmtInt_prefix (v : Z) (acc : string) : exists p, fmtInt v acc = p +:+ acc.
Proof.
  unfold fmtInt. destruct (v =? 0)%Z.
  - by exists "0"%string.
  - apply fmtIntLoop_prefix.
Qed.

Lemma fmtFracLoop_prefix (prec : nat) (v : Z) (print : bool) (acc : string) :
  exists p, fst (fst (fmtFracLoop prec v print acc)) = p +:+ acc.
Proof.
  revert v print acc. induction prec as [|prec IH]; intros v print acc; simpl.
  - by exists ""%string.
  - destruct (print || negb (v mod 10 =? 0)%Z).
    + destruct (IH (v / 10)%Z true (String (digit (v mod 10)) acc)) as [p ->].
      exists (p +:+ String (digit (v mod 10)) ""). by rewrite append_assoc.
    + apply IH.
Qed.

Lemma fmtFrac_prefix (v : Z) (prec : nat) (acc : string) :
  exists p, fst (fmtFrac v prec acc) = p +:+ acc.
Proof.
  unfold fmtFrac. destruct (fmtFracLoop_prefix prec v false acc) as [p Hp].
  destruct (fmtFracLoop prec v false acc) as [[acc' v'] print]. simpl in *. subst acc'.
  destruct print; simpl.
  - by exists (String "." p).
  - by exists p.
Qed.

(** A printed duration ends in s. *)
Lemma Duration_String_ends_in_s (d : Duration) :
  exists p, Duration_String d = p +:+ "s".
Proof.
  assert (Hint : forall v acc, (exists p, acc = p +:+ "s") ->
                               exists p, fmtInt v acc = p +:+ "s").
  { intros v acc [p ->]. destruct (fmtInt_prefix v (p +:+ "s")) as [q ->].
    exists (q +:+ p). by rewrite append_assoc. }
  assert (Hfrac : forall v prec acc, (exists p, acc = p +:+ "s") ->
                                     exists p, fst (fmtFrac v prec acc) = p +:+ "s").
  { intros v prec acc [p ->]. destruct (fmtFrac_prefix v prec (p +:+ "s")) as [q ->].
    exists (q +:+ p). by rewrite append_assoc. }
  assert (Hcons : forall ch acc, (exists p, acc = p +:+ "s") ->
                                 exists p, String ch acc = p +:+ "s").
  { intros ch acc [p ->]. by exists (String ch p). }
  assert (Hs : exists p, "s"%string = p +:+ "s") by (by exists ""%string).
  unfold Duration_String.
  assert (Hbody : exists p,
             (if (Z.abs d <? Second)%Z then
                if (Z.abs d =? 0)%Z then "0s"%string
                else if (Z.abs d <? Microsecond)%Z then
                  let '(s, v) := fmtFrac (Z.abs d) 0 "ns" in fmtInt v s
                else if (Z.abs d <? Millisecond)%Z then
                  let '(s, v) :=
                    fmtFrac (Z.abs d) 3
                      (String (ascii_of_nat 194) (String (ascii_of_nat 181) "s")) in
                  fmtInt v s
                else
                  let '(s, v) := fmtFrac (Z.abs d) 6 "ms" in fmtInt v s
              else
                let '(s1, u1) := fmtFrac (Z.abs d) 9 "s" in
                let s2 := fmtInt (u1 mod 60) s1 in
                let u2 := (u1 / 60)%Z in
                if (0 <? u2)%Z then
                  let s3 := fmtInt (u2 mod 60) (String "m" s2) in
                  let u3 := (u2 / 60)%Z in
                  if (0 <? u3)%Z then fmtInt u3 (String "h" s3) else s3
                else s2) = p +:+ "s").
  { destruct (Z.abs d <? Second)%Z.
    - destruct (Z.abs d =? 0)%Z; [by exists "0"%string|].
      destruct (Z.abs d <? Microsecond)%Z; [|destruct (Z.abs d <? Millisecond)%Z].
      + pose proof (Hfrac (Z.abs d) 0%nat "ns"%string (Hcons _ _ Hs)) as H.
        destruct (fmtFrac (Z.abs d) 0 "ns") as [s v]. by apply Hint.
      + pose proof (Hfrac (Z.abs d) 3%nat _ (Hcons (ascii_of_nat 194) _
                      (Hcons (ascii_of_nat 181) _ Hs))) as H.
        destruct (fmtFrac (Z.abs d) 3 _) as [s v]. by apply Hint.
      + pose proof (Hfrac (Z.abs d) 6%nat "ms"%string (Hcons _ _ Hs)) as H.
        destruct (fmtFrac (Z.abs d) 6 "ms") as [s v]. by apply Hint.
    - pose proof (Hfrac (Z.abs d) 9%nat "s"%string Hs) as H.
      destruct (fmtFrac (Z.abs d) 9 "s") as [s1 u1]. simpl in H.
      cbv zeta. destruct (0 <? u1 / 60)%Z; [|by apply Hint].
      destruct (0 <? u1 / 60 / 60)%Z.
      + apply Hint, Hcons, Hint, Hcons, Hint, H.
      + apply Hint, Hcons, Hint, H. }
  destruct Hbody as [p Hp]. cbv zeta in Hp |- *. rewrite Hp.
  destruct (d <? 0)%Z; [by exists (String "-" p) | by exists p].
Qed.

End TrimFacts.

(** [getDistroIDs] makes the one request of the listing. *)
Lemma getDistroIDs_log
    (unmarshalDistros :
       list Byte.byte -> Errors.result (option (list (option Evergreen.Distro))))
    (c : Evergreen.Client) (ctx0 : Evergreen.Context) (log : list Evergreen.Request) :
  snd (Evergreen.getDistroIDs unmarshalDistros c ctx0 log)
  = log ++ [(ctx0, "/distros"%string)].
Proof.
  unfold Evergreen.getDistroIDs, Evergreen.GetDistros, Evergreen.bind, Evergreen.get,
    Evergreen.ret. simpl.
  destruct (negb _); simpl; [reflexivity|].
  destruct (Evergreen.err _); simpl; [reflexivity|].
  destruct (unmarshalDistros _); simpl; [|reflexivity].
  destruct (Evergreen.appendIDs _ _); reflexivity.
Qed.

(** X7.  Whatever the registry answers, the requests of
    [GetEvergreenDistrosData] are the listing and then lookups whose start
    time is the given one in RFC 3339 and whose duration is the printed
    duration with its trailing characters 0 and s cut off.  Since a printed
    duration ends in s, something is always cut: the string sent does not
    end in s or 0, so that 2h0m0s is sent as 2h0m and 30s as 3. *)
Theorem GetEvergreenDistrosData_duration_parameter
    (unmarshalDistros :
       list Byte.byte -> Errors.result (option (list (option Evergreen.Distro))))
    (unmarshalDistroCost : list Byte.byte -> Errors.result (option Evergreen.DistroCost))
    (rand_Perm : nat -> list nat) (c : Evergreen.Client) (ctx0 : Evergreen.Context)
    (sched : list Evergreen.event)
    (starttime : GoTime.Time) (duration : GoTime.Duration)
    (log : list Evergreen.Request) :
  let printed := GoTime.Duration_String duration in
  let st := GoTime.Time_Format starttime "2006-01-02T15:04:05Z07:00" in
  exists dur cut new,
    printed = dur +:+ cut
    /\ cut <> ""%string
    /\ Forall (fun ch => ch = "0"%char \/ ch = "s"%char) (list_ascii_of_string cut)
    /\ (forall r ch, dur = r +:+ String ch "" -> ch <> "0"%char /\ ch <> "s"%char)
    /\ snd (Evergreen.GetEvergreenDistrosData unmarshalDistros unmarshalDistroCost
              rand_Perm c ctx0 sched starttime duration log)
       = log ++ (ctx0, "/distros"%string) :: new
    /\ Forall (fun q => exists id, snd q = Evergreen.costPath id st dur) new.
Proof.
  cbv zeta. destruct (TrimRight_spec (GoTime.Duration_String duration) "0s")
    as (cut & Hs & Hcut & Hlast).
  set (st := GoTime.Time_Format starttime "2006-01-02T15:04:05Z07:00").
  set (dur := GoTime.TrimRight (GoTime.Duration_String duration) "0s") in *.
  assert (Hreq : exists new,
             snd (Evergreen.GetEvergreenDistrosData unmarshalDistros unmarshalDistroCost
                    rand_Perm c ctx0 sched starttime duration log)
             = log ++ (ctx0, "/distros"%string) :: new
             /\ Forall (fun q => exists id, snd q = Evergreen.costPath id st dur) new).
  { unfold Evergreen.GetEvergreenDistrosData, Evergreen.bind. fold st. fold dur.
    pose proof (getDistroIDs_log unmarshalDistros c ctx0 log) as Hlog.
    destruct (Evergreen.getDistroIDs unmarshalDistros c ctx0 log) as [called log1].
    simpl in Hlog. subst log1.
    destruct called as [[distroIDs [e|]]|]; unfold Evergreen.ret; cbv beta iota.
    - exists []. by split.
    - destruct (fetch_requests_within unmarshalDistroCost c st dur rand_Perm ctx0 sched
                  (default [] distroIDs) (log ++ [(ctx0, "/distros"%string)]))
        as (new & Hnew & Hsub).
      destruct (Evergreen.getDistroCosts _ _ _ _ _ _ _ _ _) as [[res e] log'].
      simpl in Hnew. subst log'. exists new. split.
      + destruct e; cbn [snd]; by rewrite <- app_assoc.
      + apply Forall_forall. intros q Hq.
        assert (Hin : snd q ∈ map (snd : Evergreen.Request -> string) new).
        { apply list_elem_of_fmap. by exists q. }
        eapply elem_of_submseteq in Hin; [|exact Hsub].
        apply list_elem_of_fmap in Hin as (id & Hid & _). by exists id.
    - exists []. by split. }
  destruct Hreq as (new & Hlog & Hnew).
  exists dur, cut, new. split; [exact Hs|]. split; [|split; [|split; [|split]]].
  - intros ->. rewrite append_empty_r in Hs.
    destruct (Duration_String_ends_in_s duration) as [p Hp].
    rewrite Hp in Hs at 1. symmetry in Hs. apply Hlast in Hs. discriminate.
  - eapply Forall_impl; [exact Hcut|]. intros ch H. simpl in H.
    destruct (Ascii.eqb_spec ch "0"); [by left|].
    destruct (Ascii.eqb_spec ch "s"); [by right|]. discriminate.
  - intros r ch H. apply Hlast in H. simpl in H.
    split; intros ->; discriminate.
  - exact Hlog.
  - exact Hnew.
Qed.

(** The two durations of the statement, and the requests they lead to. *)
Example duration_parameter_examples :
  GoTime.TrimRight (GoTime.Duration_String (2 * GoTime.Hour)%Z) "0s" = "2h0m"%string
  /\ GoTime.TrimRight (GoTime.Duration_String (30 * GoTime.Second)%Z) "0s" = "3"%string
  /\ map snd
       (snd (Evergreen.GetEvergreenDistrosData Fixtures.unmarshalDistros
               Fixtures.unmarshalDistroCost Fixtures.inOrder Fixtures.scenario
               Evergreen.live [] Fixtures.march1 (30 * GoTime.Second)%Z []))
     = ["/distros";
        "/cost/distro/a?starttime=2024-03-01T00:00:00Z&duration=3";
        "/cost/distro/b?starttime=2024-03-01T00:00:00Z&duration=3";
        "/cost/distro/c?starttime=2024-03-01T00:00:00Z&duration=3"]%string.
Proof. repeat split; vm_compute; reflexivity. Qed.

(** ** Reports in the store *)

(** X8.  [FindID] of an id that a healthy store does not hold returns the
    error that names the id, and leaves the report marked as not populated,
    also when it was populated before; its fields are as they were. *)
Theorem FindID_missing_document
    (Environment : Type) (GetSessionWithConfig : Environment -> Errors.result string)
    (nilEnv : Environment) (Local : GoTime.Location)
    (readFloat32 : Model.float32 -> Model.float32)
    (r : Model.CostReport Environment) (id db : string)
    (coll : Model.Collection Model.CostReportDoc) :
  GetSessionWithConfig (Model.env r) = Errors.Ok db ->
  Model.fault coll = None ->
  Model.docs coll !! id = None ->
  let '(err, r') := Model.FindID GetSessionWithConfig nilEnv Local readFloat32 r id coll in
  err = Some (Errors.New ("could not find cost reporting document " +:+ id
                            +:+ " in the database"))
  /\ Model.IsNil r' = false
  /\ Model.toDoc (Model.ID r') r' = Model.toDoc (Model.ID r) r
  /\ Model.env r' = Model.env r.
Proof.
  intros Hs Hf Hd. unfold Model.FindID, Model.FindId_One. rewrite Hs, Hf, Hd.
  simpl. auto.
Qed.

Lemma FindID_missing_document_witness :
  let r := Model.setPopulated true (Fixtures.report "brc-2024-03-01" Fixtures.march1) in
  let '(err, r') :=
    Model.FindID Fixtures.GetSessionWithConfig Fixtures.nilEnv GoTime.UTC (fun x => x) r "brc-2024-03-02" Fixtures.emptyStore in
  Model.IsNil r = true
  /\ err = Some (Errors.New
                   "could not find cost reporting document brc-2024-03-02 in the database")
  /\ Model.IsNil r' = false.
Proof.
  intros r.
  pose proof (FindID_missing_document Fixtures.Env Fixtures.GetSessionWithConfig
                Fixtures.nilEnv GoTime.UTC (fun x => x) r
                "brc-2024-03-02" "cedar" Fixtures.emptyStore eq_refl eq_refl eq_refl) as H.
  destruct (Model.FindID Fixtures.GetSessionWithConfig Fixtures.nilEnv GoTime.UTC (fun x => x) r "brc-2024-03-02" Fixtures.emptyStore)
    as [err r'].
  destruct H as (H1 & H2 & _). split; [reflexivity|]. split; [exact H1 | exact H2].
Defined.

(** X9.  When the query fails with an error other than not-found, [FindID]
    returns no error: the wrapped error is discarded, nothing is read into
    the report, and the report is marked as populated all the same. *)
Theorem FindID_swallows_query_errors
    (Environment : Type) (GetSessionWithConfig : Environment -> Errors.result string)
    (nilEnv : Environment) (Local : GoTime.Location)
    (readFloat32 : Model.float32 -> Model.float32)
    (r : Model.CostReport Environment) (id db : string)
    (coll : Model.Collection Model.CostReportDoc) (e : Errors.error) :
  GetSessionWithConfig (Model.env r) = Errors.Ok db ->
  Model.fault coll = Some e ->
  Errors.Cause e <> Errors.ErrNotFound ->
  let '(err, r') := Model.FindID GetSessionWithConfig nilEnv Local readFloat32 r id coll in
  err = None
  /\ Model.IsNil r' = true
  /\ Model.toDoc (Model.ID r') r' = Model.toDoc (Model.ID r) r.
Proof.
  intros Hs Hf He. unfold Model.FindID, Model.FindId_One. rewrite Hs, Hf.
  unfold Errors.ResultsNotFound. destruct (Errors.Cause e); try congruence; simpl; auto.
Qed.

Lemma FindID_swallows_query_errors_witness :
  let broken : Model.Collection Model.CostReportDoc :=
    {| Model.docs := ∅; Model.fault := Some (Errors.New "no reachable servers") |} in
  let fresh := Model.Setup Fixtures.connected (Model.newCostReport Fixtures.nilEnv) in
  let '(err, r') :=
    Model.FindID Fixtures.GetSessionWithConfig Fixtures.nilEnv GoTime.UTC (fun x => x) fresh "brc-2024-03-01" broken in
  err = None /\ Model.IsNil r' = true
  /\ Model.toDoc (Model.ID r') r' = Model.toDoc "" (Model.newCostReport Fixtures.nilEnv).
Proof.
  intros broken fresh.
  apply (FindID_swallows_query_errors Fixtures.Env Fixtures.GetSessionWithConfig
           Fixtures.nilEnv GoTime.UTC (fun x => x) fresh
           "brc-2024-03-01" "cedar" broken (Errors.New "no reachable servers")
           eq_refl eq_refl).
  discriminate.
Defined.

(** What the wire format keeps of a time: the instant cut to the
    millisecond, read in the local zone unless it is the zero time. *)
Lemma readTime_instant (Local : GoTime.Location) (t : GoTime.Time) :
  (0 <= GoTime.nsec t < 1000000000)%Z ->
  GoTime.unixSec (Model.readTime Local t) = GoTime.unixSec t
  /\ GoTime.nsec (Model.readTime Local t) = (GoTime.nsec t / 1000000 * 1000000)%Z
  /\ (Model.readTime Local t = GoTime.zeroTime
      \/ GoTime.loc (Model.readTime Local t) = Local).
Proof.
  intros Hn. unfold Model.readTime, Model.bsonMillis. cbv zeta.
  destruct (Z.eqb_spec (GoTime.unixSec t * 1000 + GoTime.nsec t / 1000000)
              (-62135596800000)) as [He|He].
  - simpl. split; [|split]; [| |by left]; Z.to_euclidean_division_equations; lia.
  - set (i := (GoTime.unixSec t * 1000 + GoTime.nsec t / 1000000)%Z) in *.
    assert (Hm : (0 <= GoTime.nsec t / 1000000 < 1000)%Z)
      by (Z.to_euclidean_division_equations; lia).
    unfold GoTime.Unix.
    destruct (Z.ltb_spec (Z.rem i 1000 * 1000000) 0) as [Hneg|Hpos].
    + simpl orb. cbv iota.
      assert (Hq : Z.quot (Z.rem i 1000 * 1000000) 1000000000 = 0%Z)
        by (subst i; Z.to_euclidean_division_equations; lia).
      rewrite Hq. cbv zeta.
      destruct (Z.ltb_spec (Z.rem i 1000 * 1000000 - 0 * 1000000000) 0) as [_|Hx];
        [|lia].
      simpl. split; [|split]; [| |by right];
        subst i; Z.to_euclidean_division_equations; lia.
    + destruct (Z.leb_spec 1000000000 (Z.rem i 1000 * 1000000)) as [Hbig|_].
      * exfalso. subst i. Z.to_euclidean_division_equations. lia.
      * simpl. split; [|split]; [| |by right];
          subst i; Z.to_euclidean_division_equations; lia.
Qed.

(** X10.  A report that [Save] has stored is read back by [FindID] of its id
    as the wire format gives it: the id, the Evergreen part and the strings
    and integers of the providers are those saved, the prices went through
    [float64], and each time is the saved instant cut to the millisecond and
    read in the local zone (the zero time apart).  The report found has lost
    its environment and is marked as populated.  Looking up another id is
    answered as before the save. *)
Theorem Save_then_FindID
    (Environment : Type) (GetSessionWithConfig : Environment -> Errors.result string)
    (nilEnv : Environment) (Local : GoTime.Location)
    (readFloat32 : Model.float32 -> Model.float32)
    (r r0 : Model.CostReport Environment) (db db0 : string)
    (coll : Model.Collection Model.CostReportDoc) :
  GetSessionWithConfig (Model.env r) = Errors.Ok db ->
  GetSessionWithConfig (Model.env r0) = Errors.Ok db0 ->
  Model.fault coll = None ->
  let '(err, coll', _) := Model.Save GetSessionWithConfig r coll in
  let '(err', r') :=
    Model.FindID GetSessionWithConfig nilEnv Local readFloat32 r0 (Model.ID r) coll' in
  err = None /\ err' = None
  /\ Model.ID r' = Model.ID r
  /\ Model.Evergreen_ r' = Model.Evergreen_ r
  /\ Model.Providers r' = map (Model.readProvider readFloat32) (Model.Providers r)
  /\ Model.Report r' = Model.readMetadata Local (Model.Report r)
  /\ (forall field, field ∈ [Model.Generated; Model.Begin; Model.End_] ->
        let t := field (Model.Report r) in
        let t' := field (Model.Report r') in
        (0 <= GoTime.nsec t < 1000000000)%Z ->
        GoTime.unixSec t' = GoTime.unixSec t
        /\ GoTime.nsec t' = (GoTime.nsec t / 1000000 * 1000000)%Z
        /\ (t' = GoTime.zeroTime \/ GoTime.loc t' = Local))
  /\ Model.env r' = nilEnv
  /\ Model.IsNil r' = true
  /\ forall id, id <> Model.ID r ->
       Model.FindID GetSessionWithConfig nilEnv Local readFloat32 r0 id coll'
       = Model.FindID GetSessionWithConfig nilEnv Local readFloat32 r0 id coll.
Proof.
  intros Hs Hs0 Hf. rewrite (Save_ok _ GetSessionWithConfig r coll _ Hs Hf).
  unfold Model.FindID, Model.FindId_One. rewrite Hs0. simpl.
  rewrite lookup_insert_eq. simpl.
  split; [reflexivity|]. split; [reflexivity|]. split; [reflexivity|].
  split; [reflexivity|]. split; [reflexivity|]. split; [reflexivity|].
  split.
  { intros field Hin Hn.
    repeat (apply elem_of_cons in Hin as [->|Hin];
            [by apply readTime_instant|]).
    by apply elem_of_nil in Hin. }
  split; [reflexivity|]. split; [reflexivity|].
  intros id Hid. rewrite Hf. by rewrite lookup_insert_ne.
Qed.

Lemma Save_then_FindID_witness :
  let generated :=
    {| GoTime.unixSec := 1709373600; GoTime.nsec := 123456789; GoTime.loc := GoTime.UTC |} in
  let r := Fixtures.report "brc-2024-03-01" generated in
  let fresh := Model.Setup Fixtures.connected (Model.newCostReport Fixtures.nilEnv) in
  let '(err, coll', _) := Model.Save Fixtures.GetSessionWithConfig r Fixtures.emptyStore in
  let '(err', r') :=
    Model.FindID Fixtures.GetSessionWithConfig Fixtures.nilEnv Fixtures.NewYork
      (fun x => x) fresh "brc-2024-03-01" coll' in
  err = None /\ err' = None
  /\ Model.ID r' = "brc-2024-03-01"%string
  /\ GoTime.nsec (Model.Generated (Model.Report r')) = 123000000%Z
  /\ GoTime.Time_String (Model.Generated (Model.Report r))
     = "2024-03-02 10:00:00.123456789 +0000 UTC"%string
  /\ GoTime.Time_String (Model.Generated (Model.Report r'))
     = "2024-03-02 05:00:00.123 -0500 EST"%string
  /\ Model.env r' = Fixtures.nilEnv
  /\ Model.IsNil r' = true.
Proof.
  intros generated r fresh.
  pose proof (Save_then_FindID Fixtures.Env Fixtures.GetSessionWithConfig Fixtures.nilEnv
                Fixtures.NewYork (fun x => x) r fresh
                "cedar" "cedar" Fixtures.emptyStore eq_refl eq_refl eq_refl) as H.
  destruct (Model.Save Fixtures.GetSessionWithConfig r Fixtures.emptyStore)
    as [[err coll'] logged].
  change (Model.ID r) with "brc-2024-03-01"%string in H.
  destruct (Model.FindID Fixtures.GetSessionWithConfig Fixtures.nilEnv Fixtures.NewYork
              (fun x => x) fresh "brc-2024-03-01" coll') as [err' r'].
  destruct H as (H1 & H2 & H3 & _ & _ & H6 & _ & H8 & H9 & _).
  split; [exact H1|]. split; [exact H2|]. split; [exact H3|].
  rewrite H6. split; [vm_compute; reflexivity|]. split; [vm_compute; reflexivity|].
  split; [vm_compute; reflexivity|]. split; [exact H8 | exact H9].
Defined.

(** X11.  Without a session neither method does anything: [Save] and
    [FindID] return the session's error with a stack (its cause is the
    session error's cause), the store is as it was, no debug record is
    written, and the report keeps its populated flag. *)
Theorem CostReport_without_session
    (Environment : Type) (GetSessionWithConfig : Environment -> Errors.result string)
    (nilEnv : Environment) (Local : GoTime.Location)
    (readFloat32 : Model.float32 -> Model.float32)
    (r : Model.CostReport Environment) (id : string)
    (coll : Model.Collection Model.CostReportDoc) (e : Errors.error) :
  GetSessionWithConfig (Model.env r) = Errors.Err e ->
  let '(err, coll', logged) := Model.Save GetSessionWithConfig r coll in
  let '(err', r') := Model.FindID GetSessionWithConfig nilEnv Local readFloat32 r id coll in
  option_map Errors.Cause err = Some (Errors.Cause e)
  /\ option_map Errors.Error err = Some (Errors.Error e)
  /\ coll' = coll /\ logged = []
  /\ option_map Errors.Cause err' = Some (Errors.Cause e)
  /\ r' = r.
Proof.
  intros Hs. unfold Model.Save, Model.FindID. rewrite Hs. simpl. auto 10.
Qed.

Lemma CostReport_without_session_witness :
  let r := Model.setPopulated true (Model.newCostReport Fixtures.nilEnv) in
  let '(err, coll', logged) :=
    Model.Save Fixtures.GetSessionWithConfig r Fixtures.emptyStore in
  let '(err', r') :=
    Model.FindID Fixtures.GetSessionWithConfig Fixtures.nilEnv GoTime.UTC (fun x => x) r "brc-2024-03-01" Fixtures.emptyStore in
  option_map Errors.Cause err = Some (Errors.New "env is nil")
  /\ option_map Errors.Error err = Some "env is nil"%string
  /\ coll' = Fixtures.emptyStore /\ logged = []
  /\ option_map Errors.Cause err' = Some (Errors.New "env is nil")
  /\ r' = r.
Proof.
  intros r.
  exact (CostReport_without_session Fixtures.Env Fixtures.GetSessionWithConfig
           Fixtures.nilEnv GoTime.UTC (fun x => x) r
           "brc-2024-03-01" Fixtures.emptyStore (Errors.New "env is nil") eq_refl).
Defined.

(** ** The application configuration in the store *)

(** X12.  [CedarConfig.Save] returns no error exactly when the configuration
    is populated, the session can be had and the store accepts the write.
    When it returns an error the store is as it was, and a configuration
    that is not populated is refused before anything else happens: it is
    unchanged and no debug record is written. *)
Theorem CedarConfig_Save_succeeds_iff
    (Environment : Type) (GetSessionWithConfig : Environment -> Errors.result string)
    (Settings : Type) (configurationCollection : string)
    (c : Model.CedarConfig Environment Settings)
    (coll : Model.Collection (string * Settings)) :
  let '(err, c', coll', logged) :=
    Model.CedarConfig_Save GetSessionWithConfig configurationCollection c coll in
  (err = None <->
   Model.CedarConfig_IsNil c = false
   /\ (exists db, GetSessionWithConfig (Model.Config_env c) = Errors.Ok db)
   /\ Model.fault coll = None)
  /\ (err <> None -> coll' = coll)
  /\ (Model.CedarConfig_IsNil c = true ->
      err = Some (Errors.New "cannot save a non-populated app configuration")
      /\ c' = c /\ logged = []).
Proof.
  unfold Model.CedarConfig_Save, Model.CedarConfig_IsNil, Model.UpsertId.
  destruct (Model.Config_populated c) eqn:Hp; simpl.
  - destruct (GetSessionWithConfig (Model.Config_env c)) as [db|e] eqn:Hs; simpl.
    + destruct (Model.fault coll) as [e|] eqn:Hf; simpl.
      * split; [|split]; try done.
        split; [done|]. intros (_ & _ & H). discriminate.
      * split; [|split]; try done.
        split; [|done]. intros _. eauto.
    + split; [|split]; try done.
      split; [done|]. intros (_ & [db H] & _). discriminate.
  - split; [|split]; try done.
    split; [done|]. intros (H & _). discriminate.
Qed.

(** X13.  [CedarConfig.Save] of a populated configuration sets the
    configuration's id to the fixed one whatever it was and whether or not
    the save then succeeds, and changes nothing else of it.  When it
    succeeds, the store holds the configuration's sections under the fixed
    id, with the fixed id as the document's own, and every other document is
    as it was. *)
Theorem CedarConfig_Save_fixed_id
    (Environment : Type) (GetSessionWithConfig : Environment -> Errors.result string)
    (Settings : Type) (configurationCollection : string)
    (c : Model.CedarConfig Environment Settings)
    (coll : Model.Collection (string * Settings)) :
  Model.CedarConfig_IsNil c = false ->
  let '(err, c', coll', logged) :=
    Model.CedarConfig_Save GetSessionWithConfig configurationCollection c coll in
  Model.Config_ID c' = Model.cedarConfigurationID
  /\ Model.Config_Settings c' = Model.Config_Settings c
  /\ Model.Config_env c' = Model.Config_env c
  /\ Model.CedarConfig_IsNil c' = false
  /\ (err = None ->
      Model.docs coll' !! Model.cedarConfigurationID
      = Some (Model.cedarConfigurationID, Model.Config_Settings c)
      /\ (forall id, id <> Model.cedarConfigurationID ->
            Model.docs coll' !! id = Model.docs coll !! id)
      /\ exists entry, logged = [entry]
                       /\ Model.log_id entry = Model.cedarConfigurationID).
Proof.
  unfold Model.CedarConfig_Save, Model.CedarConfig_IsNil, Model.UpsertId.
  intros Hp. rewrite Hp. simpl.
  destruct (GetSessionWithConfig (Model.Config_env c)) as [db|e]; simpl.
  - destruct (Model.fault coll) as [e|]; simpl.
    + repeat split; auto; discriminate.
    + repeat split; auto.
      * apply lookup_insert_eq.
      * intros id Hid. by apply lookup_insert_ne.
      * eauto.
  - repeat split; auto; discriminate.
Qed.

Lemma CedarConfig_Save_fixed_id_witness :
  let c : Model.CedarConfig Fixtures.Env string :=
    {| Model.Config_ID := "my-own-id"; Model.Config_Settings := "slack: {level: info}";
       Model.Config_populated := true; Model.Config_env := Fixtures.connected |} in
  let '(err, c', coll', logged) :=
    Model.CedarConfig_Save Fixtures.GetSessionWithConfig "configuration" c
      Fixtures.emptyConfigStore in
  err = None
  /\ Model.Config_ID c' = "cedar-system-configuration"%string
  /\ Model.docs coll' !! "cedar-system-configuration"%string
     = Some ("cedar-system-configuration"%string, "slack: {level: info}"%string)
  /\ Model.docs coll' !! "my-own-id"%string = None.
Proof.
  intros c.
  pose proof (CedarConfig_Save_fixed_id Fixtures.Env Fixtures.GetSessionWithConfig string
                "configuration" c Fixtures.emptyConfigStore eq_refl) as H.
  destruct (Model.CedarConfig_Save Fixtures.GetSessionWithConfig "configuration" c
              Fixtures.emptyConfigStore) as [[[err c'] coll'] logged] eqn:E.
  assert (Herr : err = None) by (vm_compute in E; congruence).
  destruct H as (H1 & _ & _ & _ & H5). destruct (H5 Herr) as (H6 & H7 & _).
  split; [exact Herr|]. split; [exact H1|]. split; [exact H6|].
  rewrite H7 by discriminate. reflexivity.
Defined.

(** X14.  A configuration that [CedarConfig.Save] has stored is read back by
    [CedarConfig.Find]: the configuration found has the fixed id and the
    sections saved, and it is populated, so it is not nil.  Decoding has set
    it to its zero value first, so its environment, and the one given to its
    flags, is the nil one. *)
Theorem CedarConfig_Save_then_Find
    (Environment : Type) (GetSessionWithConfig : Environment -> Errors.result string)
    (nilEnv : Environment)
    (Settings : Type) (setFlagsEnv : Environment -> Settings -> Settings)
    (configurationCollection : string)
    (c c0 : Model.CedarConfig Environment Settings) (db db0 : string)
    (coll : Model.Collection (string * Settings)) :
  Model.CedarConfig_IsNil c = false ->
  GetSessionWithConfig (Model.Config_env c) = Errors.Ok db ->
  GetSessionWithConfig (Model.Config_env c0) = Errors.Ok db0 ->
  Model.fault coll = None ->
  let '(err, _, coll', _) :=
    Model.CedarConfig_Save GetSessionWithConfig configurationCollection c coll in
  let '(err', c') :=
    Model.CedarConfig_Find GetSessionWithConfig nilEnv setFlagsEnv c0 coll' in
  err = None /\ err' = None
  /\ Model.Config_ID c' = Model.cedarConfigurationID
  /\ (exists e, Model.Config_Settings c' = setFlagsEnv e (Model.Config_Settings c))
  /\ Model.Config_Settings c' = setFlagsEnv nilEnv (Model.Config_Settings c)
  /\ Model.Config_env c' = nilEnv
  /\ Model.CedarConfig_IsNil c' = false.
Proof.
  unfold Model.CedarConfig_Save, Model.CedarConfig_IsNil, Model.UpsertId.
  intros Hp Hs Hs0 Hf. rewrite Hp. simpl. rewrite Hs, Hf. simpl.
  unfold Model.CedarConfig_Find, Model.FindId_One. rewrite Hs0. simpl.
  rewrite lookup_insert_eq. simpl. eauto 10.
Qed.

Lemma CedarConfig_Save_then_Find_witness :
  let c : Model.CedarConfig Fixtures.Env string :=
    {| Model.Config_ID := "my-own-id"; Model.Config_Settings := "slack: {level: info}";
       Model.Config_populated := true; Model.Config_env := Fixtures.connected |} in
  let c0 := Model.NewCedarConfig "" Fixtures.setFlagsEnv Fixtures.connected in
  let '(err, _, coll', _) :=
    Model.CedarConfig_Save Fixtures.GetSessionWithConfig "configuration" c
      Fixtures.emptyConfigStore in
  let '(err', c') :=
    Model.CedarConfig_Find Fixtures.GetSessionWithConfig Fixtures.nilEnv
      Fixtures.setFlagsEnv c0 coll' in
  err = None /\ err' = None
  /\ Model.Config_ID c' = Model.cedarConfigurationID
  /\ (exists e, Model.Config_Settings c'
                = Fixtures.setFlagsEnv e "slack: {level: info}"%string)
  /\ Model.Config_Settings c'
     = Fixtures.setFlagsEnv Fixtures.nilEnv "slack: {level: info}"%string
  /\ Model.Config_env c' = Fixtures.nilEnv
  /\ Model.CedarConfig_IsNil c' = false.
Proof.
  intros c c0.
  exact (CedarConfig_Save_then_Find Fixtures.Env Fixtures.GetSessionWithConfig
           Fixtures.nilEnv string Fixtures.setFlagsEnv "configuration" c c0 "cedar" "cedar"
           Fixtures.emptyConfigStore eq_refl eq_refl eq_refl eq_refl).
Defined.

(** X15.  With a session at hand, [CedarConfig.Find] leaves the
    configuration populated exactly when it returns no error; unlike
    [CostReport.FindID] it reports a failed query, and the cause of the
    error it returns is the cause of the query's error.  When it fails the
    configuration keeps its id and its sections. *)
Theorem CedarConfig_Find_flag
    (Environment : Type) (GetSessionWithConfig : Environment -> Errors.result string)
    (nilEnv : Environment) (Settings : Type) (setFlagsEnv : Environment -> Settings -> Settings)
    (c : Model.CedarConfig Environment Settings) (db : string)
    (coll : Model.Collection (string * Settings)) :
  GetSessionWithConfig (Model.Config_env c) = Errors.Ok db ->
  let '(err, c') :=
    Model.CedarConfig_Find GetSessionWithConfig nilEnv setFlagsEnv c coll in
  (err = None <-> Model.CedarConfig_IsNil c' = false)
  /\ (err = None <->
      Model.fault coll = None /\ is_Some (Model.docs coll !! Model.cedarConfigurationID))
  /\ (forall e, Model.fault coll = Some e -> Errors.Cause e <> Errors.ErrNotFound ->
        option_map Errors.Cause err = Some (Errors.Cause e))
  /\ (err <> None ->
      Model.Config_ID c' = Model.Config_ID c
      /\ Model.Config_Settings c' = Model.Config_Settings c).
Proof.
  intros Hs. unfold Model.CedarConfig_Find, Model.FindId_One, Model.CedarConfig_IsNil.
  rewrite Hs. destruct (Model.fault coll) as [e|] eqn:Hf.
  - unfold Errors.ResultsNotFound.
    destruct (Errors.Cause e) eqn:Hc; simpl;
      (split; [done|]); (split; [split; [done|intros [? _]; done]|]);
      (split; [|done]); intros e' [= <-] H; rewrite ?Hc; congruence.
  - destruct (Model.docs coll !! Model.cedarConfigurationID) as [[id s]|] eqn:Hd; simpl.
    + split; [done|]. split; [split; eauto|]. split; [done|done].
    + split; [done|]. split; [|done].
      split; [done|]. intros [_ [x Hx]]. discriminate.
Qed.

Lemma CedarConfig_Find_flag_witness :
  let broken : Model.Collection (string * string) :=
    {| Model.docs := ∅; Model.fault := Some (Errors.New "no reachable servers") |} in
  let c : Model.CedarConfig Fixtures.Env string :=
    {| Model.Config_ID := "cedar-system-configuration";
       Model.Config_Settings := "slack: {level: info}";
       Model.Config_populated := true; Model.Config_env := Fixtures.connected |} in
  let '(err, c') :=
    Model.CedarConfig_Find Fixtures.GetSessionWithConfig Fixtures.nilEnv
      Fixtures.setFlagsEnv c broken in
  option_map Errors.Cause err = Some (Errors.New "no reachable servers")
  /\ Model.CedarConfig_IsNil c' = true.
Proof.
  intros broken c.
  pose proof (CedarConfig_Find_flag Fixtures.Env Fixtures.GetSessionWithConfig
                Fixtures.nilEnv string Fixtures.setFlagsEnv c "cedar" broken eq_refl) as H.
  destruct (Model.CedarConfig_Find Fixtures.GetSessionWithConfig Fixtures.nilEnv
              Fixtures.setFlagsEnv c broken)
    as [err c'].
  destruct H as (H1 & _ & H3 & _).
  split; [apply (H3 (Errors.New "no reachable servers") eq_refl); discriminate|].
  destruct (Model.CedarConfig_IsNil c') eqn:E; [reflexivity|].
  destruct H1 as [_ H1]. rewrite (H1 eq_refl) in H3.
  specialize (H3 _ eq_refl). simpl in H3. discriminate H3. discriminate.
Defined.

(** X16.  A configuration made by [NewCedarConfig] has the fixed id and is
    nil, and [CedarConfig.Save] refuses it: the store is not touched and no
    session is asked for. *)
Theorem NewCedarConfig_is_not_saved
    (Environment : Type) (GetSessionWithConfig : Environment -> Errors.result string)
    (Settings : Type) (zeroSettings : Settings)
    (setFlagsEnv : Environment -> Settings -> Settings)
    (configurationCollection : string) (e : Environment)
    (coll : Model.Collection (string * Settings)) :
  let c := Model.NewCedarConfig zeroSettings setFlagsEnv e in
  Model.Config_ID c = Model.cedarConfigurationID
  /\ Model.CedarConfig_IsNil c = true
  /\ Model.CedarConfig_Save GetSessionWithConfig configurationCollection c coll
     = (Some (Errors.New "cannot save a non-populated app configuration"), c, coll, []).
Proof. repeat split. Qed.

(** ** The commands on the application configuration *)

(** X17.  The [load] command stores all or nothing.  When it returns no
    error, the environment was configured, the file was read, and the store
    holds the sections of the file under the fixed id, the id given in the
    file being ignored; every other document is as it was.  When it returns
    an error the store is as it was. *)
Theorem loadCedarConfig_all_or_nothing
    (Environment : Type) (GetSessionWithConfig : Environment -> Errors.result string)
    (Settings : Type) (configurationCollection : string)
    (ReadFileYAML : string -> Errors.result (string * Settings))
    (nilEnv : Environment)
    (configure : Environment -> Z -> bool -> string -> string -> string
                 -> option Errors.error * Environment)
    (globalEnv : Environment) (fileName mongodbURI dbName : string)
    (coll : Model.Collection (string * Settings)) :
  let '(err, coll') :=
    Operations.loadCedarConfig GetSessionWithConfig configurationCollection ReadFileYAML
      nilEnv configure globalEnv fileName mongodbURI dbName coll in
  (err = None ->
   exists env db id s,
     configure globalEnv 2%Z true mongodbURI ""%string dbName = (None, env)
     /\ GetSessionWithConfig env = Errors.Ok db
     /\ ReadFileYAML fileName = Errors.Ok (id, s)
     /\ Model.docs coll'
        = <[Model.cedarConfigurationID:=(Model.cedarConfigurationID, s)]> (Model.docs coll))
  /\ (err <> None -> coll' = coll).
Proof.
  unfold Operations.loadCedarConfig, Model.LoadCedarConfig.
  destruct (configure globalEnv 2%Z true mongodbURI ""%string dbName) as [[e|] env] eqn:Hc.
  { split; [discriminate|done]. }
  destruct (ReadFileYAML fileName) as [[id s]|e] eqn:Hr.
  2:{ split; [discriminate|done]. }
  unfold Model.CedarConfig_Save, Model.CedarConfig_Setup, Model.UpsertId. simpl.
  destruct (GetSessionWithConfig env) as [db|e] eqn:Hs; simpl.
  2:{ split; [discriminate|done]. }
  destruct (Model.fault coll) as [e|] eqn:Hf; simpl.
  { split; [discriminate|done]. }
  split; [|done]. intros _. exists env, db, id, s. auto.
Qed.

(** X18.  After a [load] that returned no error, [dump] finds the
    configuration: it hands to the JSON writer a populated configuration
    with the fixed id and the sections that [load] read from its file (the
    environment of its flags being the nil one), and returns what the writer
    returns. *)
Theorem loadCedarConfig_then_dumpCedarConfig
    (Environment : Type) (GetSessionWithConfig : Environment -> Errors.result string)
    (Settings : Type) (zeroSettings : Settings)
    (setFlagsEnv : Environment -> Settings -> Settings)
    (configurationCollection : string)
    (ReadFileYAML : string -> Errors.result (string * Settings))
    (nilEnv : Environment)
    (configure : Environment -> Z -> bool -> string -> string -> string
                 -> option Errors.error * Environment)
    (WriteJSON : string -> Model.CedarConfig Environment Settings -> option Errors.error)
    (globalEnv : Environment) (fileName outName mongodbURI dbName : string)
    (coll coll' : Model.Collection (string * Settings)) :
  Operations.loadCedarConfig GetSessionWithConfig configurationCollection ReadFileYAML
    nilEnv configure globalEnv fileName mongodbURI dbName coll = (None, coll') ->
  exists id s env conf,
    ReadFileYAML fileName = Errors.Ok (id, s)
    /\ Model.Config_ID conf = Model.cedarConfigurationID
    /\ Model.Config_Settings conf = setFlagsEnv env s
    /\ env = nilEnv
    /\ Model.CedarConfig_IsNil conf = false
    /\ Operations.dumpCedarConfig GetSessionWithConfig zeroSettings setFlagsEnv nilEnv
         configure WriteJSON globalEnv outName mongodbURI dbName coll'
       = Errors.WithStack (WriteJSON outName conf).
Proof.
  unfold Operations.loadCedarConfig, Operations.dumpCedarConfig, Model.LoadCedarConfig.
  destruct (configure globalEnv 2%Z true mongodbURI ""%string dbName) as [[e|] env] eqn:Hc;
    [discriminate|].
  destruct (ReadFileYAML fileName) as [[id s]|e] eqn:Hr; [|discriminate].
  unfold Model.CedarConfig_Save, Model.CedarConfig_Setup, Model.UpsertId. simpl.
  unfold Model.CedarConfig_Find, Model.FindId_One. simpl.
  destruct (GetSessionWithConfig env) as [db|e] eqn:Hs; simpl; [|discriminate].
  destruct (Model.fault coll) as [e|] eqn:Hf; simpl; [discriminate|].
  intros [= <-]. simpl. rewrite lookup_insert_eq. simpl.
  eexists id, s, nilEnv, _. split; [reflexivity|].
  split; [|split; [|split; [|split; [|reflexivity]]]]; reflexivity.
Qed.

Lemma loadCedarConfig_then_dumpCedarConfig_witness :
  exists id s env conf,
    Fixtures.ReadFileYAML "cedar.yaml" = Errors.Ok (id, s)
    /\ Model.Config_ID conf = Model.cedarConfigurationID
    /\ Model.Config_Settings conf = Fixtures.setFlagsEnv env s
    /\ env = Fixtures.nilEnv
    /\ Model.CedarConfig_IsNil conf = false
    /\ Operations.dumpCedarConfig Fixtures.GetSessionWithConfig ""%string
         Fixtures.setFlagsEnv Fixtures.nilEnv Fixtures.configure Fixtures.WriteJSON
         Fixtures.nilEnv "dump.json" "mongodb://localhost:27017" "cedar"
         (snd (Operations.loadCedarConfig Fixtures.GetSessionWithConfig "configuration"
                 Fixtures.ReadFileYAML Fixtures.nilEnv Fixtures.configure Fixtures.nilEnv
                 "cedar.yaml" "mongodb://localhost:27017" "cedar" Fixtures.emptyConfigStore))
       = Errors.WithStack (Fixtures.WriteJSON "dump.json" conf).
Proof.
  apply (loadCedarConfig_then_dumpCedarConfig Fixtures.Env Fixtures.GetSessionWithConfig
           string ""%string Fixtures.setFlagsEnv "configuration" Fixtures.ReadFileYAML
           Fixtures.nilEnv Fixtures.configure Fixtures.WriteJSON Fixtures.nilEnv
           "cedar.yaml" "dump.json" "mongodb://localhost:27017" "cedar"
           Fixtures.emptyConfigStore).
  reflexivity.
Defined.

(** X19.  [dump] on a store that holds no configuration fails with the
    not-found error of [CedarConfig.Find], whatever the JSON writer would
    do: nothing is handed to it. *)
Theorem dumpCedarConfig_nothing_stored
    (Environment : Type) (GetSessionWithConfig : Environment -> Errors.result string)
    (Settings : Type) (zeroSettings : Settings)
    (setFlagsEnv : Environment -> Settings -> Settings)
    (nilEnv : Environment)
    (configure : Environment -> Z -> bool -> string -> string -> string
                 -> option Errors.error * Environment)
    (WriteJSON : string -> Model.CedarConfig Environment Settings -> option Errors.error)
    (globalEnv env : Environment) (fileName mongodbURI dbName db : string)
    (coll : Model.Collection (string * Settings)) :
  configure globalEnv 2%Z true mongodbURI ""%string dbName = (None, env) ->
  GetSessionWithConfig env = Errors.Ok db ->
  Model.fault coll = None ->
  Model.docs coll !! Model.cedarConfigurationID = None ->
  Operations.dumpCedarConfig GetSessionWithConfig zeroSettings setFlagsEnv nilEnv
    configure WriteJSON globalEnv fileName mongodbURI dbName coll
  = Some (Errors.Stacked
            (Errors.New "could not find application configuration in the database")).
Proof.
  intros Hc Hs Hf Hd. unfold Operations.dumpCedarConfig. rewrite Hc.
  unfold Model.CedarConfig_Find, Model.CedarConfig_Setup, Model.FindId_One. simpl.
  rewrite Hs, Hf, Hd. reflexivity.
Qed.

Lemma dumpCedarConfig_nothing_stored_witness :
  Operations.dumpCedarConfig Fixtures.GetSessionWithConfig ""%string
    Fixtures.setFlagsEnv Fixtures.nilEnv Fixtures.configure Fixtures.WriteJSON
    Fixtures.nilEnv "dump.json" "mongodb://localhost:27017" "cedar"
    Fixtures.emptyConfigStore
  = Some (Errors.Stacked
            (Errors.New "could not find application configuration in the database")).
Proof.
  exact (dumpCedarConfig_nothing_stored Fixtures.Env Fixtures.GetSessionWithConfig
           string ""%string Fixtures.setFlagsEnv Fixtures.nilEnv Fixtures.configure
           Fixtures.WriteJSON Fixtures.nilEnv Fixtures.connected "dump.json"
           "mongodb://localhost:27017" "cedar" "cedar" Fixtures.emptyConfigStore
           eq_refl eq_refl eq_refl eq_refl).
Defined.

(** ** Executions of the worker pool *)

Section ExecutionFacts.
Import Errors Evergreen.

Variable unmarshalDistroCost : list Byte.byte -> result (option DistroCost).
Variables (c : Client) (st dur : string).

Local Abbreviation step := (Evergreen.step unmarshalDistroCost c st dur).
Local Abbreviation execution := (Evergreen.execution unmarshalDistroCost c st dur).
Local Abbreviation lookupOf := (lookupResult unmarshalDistroCost c st dur).
Local Abbreviation recordsOf := (Evergreen.recordsOf unmarshalDistroCost c st dur).
Local Abbreviation errorsOf := (Evergreen.errorsOf unmarshalDistroCost c st dur).

(** No event changes the number of goroutines. *)
Lemma step_workers_length (e : event) (s s' : pool) :
  step e s = Some s' -> length (workers s') = length (workers s).
Proof.
  destruct e as [i|]; simpl.
  - intros T. apply work_turn in T. destruct T; simpl; by rewrite length_insert.
  - destruct (cancelled (ctx s)); [discriminate|]. by intros [= <-].
Qed.

(** A complete execution has at most [measure s] events, and ends with as
    many goroutines as it began with, all returned. *)
Lemma execution_bounded (s s' : pool) (es : list event) :
  execution s es s' ->
  length es <= measure s
  /\ workers s' = replicate (length (workers s)) Exited.
Proof.
  induction 1 as [s Hf|e s s' es s'' Hn Hs _ [IH1 IH2]].
  - split; [simpl; lia|]. unfold finished in Hf. apply firstLive_None in Hf.
    symmetry. apply replicate_as_Forall. split; [reflexivity|].
    eapply Forall_impl; [exact Hf|]. auto.
  - pose proof (step_measure _ _ _ _ _ _ _ Hs). split; [simpl; lia|].
    by rewrite <- (step_workers_length _ _ _ Hs).
Qed.

(** Under a cancelled context the only event that looks a distro up is the
    turn of a goroutine that had passed the test of the context; what an
    event adds to the requests, to the catcher and to the records kept is
    taken from what those goroutines and the ones waiting to hand a record
    over still have to give. *)
Lemma step_cancelled (e : event) (s s' : pool) :
  cancelled (ctx s) = true -> step e s = Some s' ->
  ctx s' = ctx s
  /\ exists new caught delivered,
       requests s' = requests s ++ new
       /\ catcher s' = catcher s ++ caught
       /\ distroCosts s' = distroCosts s ++ delivered
       /\ new ++ map (fun d => (ctx s, costPath d st dur)) (omap checkedOf (workers s'))
          ≡ₚ map (fun d => (ctx s, costPath d st dur)) (omap checkedOf (workers s))
       /\ caught ++ errorsOf (ctx s) (omap checkedOf (workers s'))
          ≡ₚ errorsOf (ctx s) (omap checkedOf (workers s))
       /\ delivered
            ++ filter positive (omap sendingOf (workers s')
                                  ++ recordsOf (ctx s) (omap checkedOf (workers s')))
          ≡ₚ filter positive (omap sendingOf (workers s)
                                ++ recordsOf (ctx s) (omap checkedOf (workers s))).
Proof.
  intros Hc. destruct e as [i|]; simpl.
  2:{ rewrite Hc. discriminate. }
  intros T. apply work_turn in T.
  assert (Hquiet : forall w w',
             workers s !! i = Some w -> checkedOf w = checkedOf w' ->
             sendingOf w = sendingOf w' ->
             exists new caught delivered,
               requests s = requests s ++ new
               /\ catcher s = catcher s ++ caught
               /\ distroCosts s = distroCosts s ++ delivered
               /\ new ++ map (fun d => (ctx s, costPath d st dur))
                             (omap checkedOf (<[i:=w']> (workers s)))
                  ≡ₚ map (fun d => (ctx s, costPath d st dur))
                         (omap checkedOf (workers s))
               /\ caught ++ errorsOf (ctx s) (omap checkedOf (<[i:=w']> (workers s)))
                  ≡ₚ errorsOf (ctx s) (omap checkedOf (workers s))
               /\ delivered
                    ++ filter positive
                         (omap sendingOf (<[i:=w']> (workers s))
                            ++ recordsOf (ctx s) (omap checkedOf (<[i:=w']> (workers s))))
                  ≡ₚ filter positive
                       (omap sendingOf (workers s)
                          ++ recordsOf (ctx s) (omap checkedOf (workers s)))).
  { intros w w' Hw Hk Hs. exists [], [], []. rewrite !app_nil_r. simpl.
    unfold Evergreen.errorsOf, Evergreen.recordsOf.
    rewrite (omap_insert_same checkedOf _ i w w' Hw Hk).
    rewrite (omap_insert_same sendingOf _ i w w' Hw Hs). repeat split; reflexivity. }
  destruct T as [Hw Hq|d q Hw Hq|d Hw _|d Hw Hc'|d Hw|dc Hw]; simpl.
  - split; [reflexivity|]. by apply (Hquiet Ready Exited).
  - split; [reflexivity|]. by apply (Hquiet Ready (Got d)).
  - split; [reflexivity|]. by apply (Hquiet (Got d) Exited).
  - congruence.
  - split; [reflexivity|].
    set (w' := match fst (lookupOf (ctx s) d) with
               | None => Ready | Some dc => Sending dc end).
    pose proof (omap_insert checkedOf _ i (Checked d) w' Hw) as Pk.
    pose proof (omap_insert sendingOf _ i (Checked d) w' Hw) as Ps.
    assert (Hk : checkedOf w' = None)
      by (subst w'; destruct (fst (lookupOf (ctx s) d)); reflexivity).
    assert (Hs : sendingOf w' = fst (lookupOf (ctx s) d))
      by (subst w'; destruct (fst (lookupOf (ctx s) d)); reflexivity).
    rewrite Hk in Pk. rewrite Hs in Ps. simpl in Pk, Ps.
    exists [(ctx s, costPath d st dur)],
           (option_list (wrapLookup (snd (lookupOf (ctx s) d)))), [].
    split; [reflexivity|]. split; [apply Add_option_list|].
    split; [by rewrite app_nil_r|]. split; [|split].
    + rewrite <- Pk. reflexivity.
    + unfold Evergreen.errorsOf. rewrite <- Pk. simpl.
      destruct (wrapLookup (snd (lookupOf (ctx s) d))); reflexivity.
    + simpl. unfold Evergreen.recordsOf. rewrite <- Pk. simpl.
      rewrite !filter_app. rewrite Ps.
      destruct (fst (lookupOf (ctx s) d)) as [x|]; simpl; [|reflexivity].
      rewrite !filter_cons. destruct (decide (positive x)); simpl; [|reflexivity].
      by rewrite <- Permutation_middle.
  - split; [reflexivity|].
    pose proof (omap_insert sendingOf _ i (Sending dc) Ready Hw) as Ps. simpl in Ps.
    pose proof (omap_insert_same checkedOf _ i (Sending dc) Ready Hw eq_refl) as Pk.
    destruct (decide (positive dc)) as [Hp|Hp].
    + exists [], [], [dc]. rewrite !app_nil_r. simpl.
      split; [reflexivity|]. split; [reflexivity|]. split; [reflexivity|].
      unfold Evergreen.errorsOf, Evergreen.recordsOf. rewrite Pk.
      split; [reflexivity|]. split; [reflexivity|].
      rewrite !filter_app, <- Ps. by rewrite filter_cons_True.
    + exists [], [], []. rewrite !app_nil_r. simpl.
      split; [reflexivity|]. split; [reflexivity|]. split; [reflexivity|].
      unfold Evergreen.errorsOf, Evergreen.recordsOf. rewrite Pk.
      split; [reflexivity|]. split; [reflexivity|].
      rewrite !filter_app, <- Ps. by rewrite filter_cons_False.
Qed.

End ExecutionFacts.

(** X20.  [getDistroCosts] cannot hang: from the state in which the
    goroutines are started, every complete execution has at most four
    events per distro and seventeen more, and ends with all 16 goroutines
    returned; and under every scheduler the result of [getDistroCosts] is
    read off the last state of such an execution. *)
Theorem getDistroCosts_all_goroutines_return
    (unmarshalDistroCost : list Byte.byte -> Errors.result (option Evergreen.DistroCost))
    (rand_Perm : nat -> list nat) (c : Evergreen.Client) (st dur : string)
    (ctx0 : Evergreen.Context) (distroIDs : list string)
    (log : list Evergreen.Request) :
  rand_Perm (length distroIDs) ≡ₚ seq 0 (length distroIDs) ->
  let s0 := Evergreen.start rand_Perm ctx0 distroIDs log in
  (forall es s', Evergreen.execution unmarshalDistroCost c st dur s0 es s' ->
                 length es <= 4 * length distroIDs + 17
                 /\ Evergreen.workers s' = replicate 16 Evergreen.Exited)
  /\ forall sched, exists es s,
       Evergreen.execution unmarshalDistroCost c st dur s0 es s
       /\ Evergreen.getDistroCosts unmarshalDistroCost rand_Perm c st dur ctx0 sched
            distroIDs log
          = (if Errors.HasErrors (Evergreen.catcher s)
             then (None, Errors.Resolve (Evergreen.catcher s))
             else (Some (Evergreen.distroCosts s), None),
             Evergreen.requests s).
Proof.
  intros Hperm s0. split.
  - intros es s' E. destruct (execution_bounded _ _ _ _ _ _ _ E) as [Hl Hw].
    split; [|exact Hw].
    assert (Hm : Evergreen.measure s0 <= 4 * length distroIDs + 17).
    { unfold Evergreen.measure, s0. simpl.
      rewrite (shuffle_Permutation distroIDs _ Hperm).
      destruct (Evergreen.cancelled ctx0); lia. }
    lia.
  - intros sched.
    destruct (run_is_execution unmarshalDistroCost c st dur (Evergreen.measure s0) sched s0)
      as [es E]; [lia|].
    exists es, (Evergreen.run unmarshalDistroCost c st dur (Evergreen.measure s0) sched s0).
    split; [exact E | reflexivity].
Qed.

Lemma getDistroCosts_all_goroutines_return_witness :
  let s0 := Evergreen.start Fixtures.reversed Evergreen.live ["a"; "b"; "c"]%string [] in
  exists es s,
    Evergreen.execution Fixtures.unmarshalDistroCost Fixtures.scenario Fixtures.st
      Fixtures.dur s0 es s
    /\ length es <= 29
    /\ Evergreen.workers s = replicate 16 Evergreen.Exited.
Proof.
  intros s0.
  destruct (getDistroCosts_all_goroutines_return Fixtures.unmarshalDistroCost
              Fixtures.reversed Fixtures.scenario Fixtures.st Fixtures.dur Evergreen.live
              ["a"; "b"; "c"]%string [])
    as [Hall Hrun].
  - unfold Fixtures.reversed. symmetry. apply Permutation_rev.
  - destruct (Hrun []) as (es & s & E & _). exists es, s.
    split; [exact E|]. destruct (Hall es s E) as [Hl Hw]. split; [exact Hl | exact Hw].
Defined.

(** X21.  Once the context is cancelled no distro is taken up any more: the
    distros in the channel and those of goroutines that have not yet tested
    the context are never looked up.  The test of the context and the lookup
    are not one step, so the goroutines that had passed the test still make
    their lookup, with the cancelled context: whatever is scheduled until
    the last goroutine returns, the further requests are exactly those
    lookups, the further errors caught are their errors, and the further
    records kept are, in some order, the records with positive time that
    were in flight or that those lookups give. *)
Theorem cancellation_stops_lookups
    (unmarshalDistroCost : list Byte.byte -> Errors.result (option Evergreen.DistroCost))
    (c : Evergreen.Client) (st dur : string)
    (s s' : Evergreen.pool) (es : list Evergreen.event) :
  Evergreen.cancelled (Evergreen.ctx s) = true ->
  Evergreen.execution unmarshalDistroCost c st dur s es s' ->
  let passed := omap Evergreen.checkedOf (Evergreen.workers s) in
  exists new caught delivered,
    Evergreen.requests s' = Evergreen.requests s ++ new
    /\ new ≡ₚ map (fun d => (Evergreen.ctx s, Evergreen.costPath d st dur)) passed
    /\ Evergreen.catcher s' = Evergreen.catcher s ++ caught
    /\ caught ≡ₚ Evergreen.errorsOf unmarshalDistroCost c st dur (Evergreen.ctx s) passed
    /\ Evergreen.distroCosts s' = Evergreen.distroCosts s ++ delivered
    /\ delivered
       ≡ₚ filter Evergreen.positive
            (omap Evergreen.sendingOf (Evergreen.workers s)
               ++ Evergreen.recordsOf unmarshalDistroCost c st dur (Evergreen.ctx s)
                    passed).
Proof.
  intros Hc E. cbv zeta. induction E as [s Hf|e s s' es s'' Hn Hs _ IH].
  - exists [], [], []. rewrite !app_nil_r.
    unfold Evergreen.finished in Hf. apply firstLive_None in Hf.
    assert (Hk : omap Evergreen.checkedOf (Evergreen.workers s) = []).
    { clear -Hf. induction Hf as [|w ws -> _ IH]; [reflexivity|]. exact IH. }
    assert (Hs : omap Evergreen.sendingOf (Evergreen.workers s) = []).
    { clear -Hf. induction Hf as [|w ws -> _ IH]; [reflexivity|]. exact IH. }
    rewrite Hk, Hs. simpl. auto 10.
  - destruct (step_cancelled _ _ _ _ _ _ _ Hc Hs)
      as (Hctx & n1 & c1 & d1 & Hn1 & Hc1 & Hd1 & Pn & Pc & Pd).
    rewrite <- Hctx in Hc.
    destruct (IH Hc) as (n2 & c2 & d2 & Hn2 & Pn2 & Hc2 & Pc2 & Hd2 & Pd2).
    rewrite Hctx in Pn2, Pc2, Pd2.
    exists (n1 ++ n2), (c1 ++ c2), (d1 ++ d2).
    split; [rewrite Hn2, Hn1; by rewrite app_assoc|].
    split; [by rewrite Pn2|].
    split; [rewrite Hc2, Hc1; by rewrite app_assoc|].
    split; [by rewrite Pc2|].
    split; [rewrite Hd2, Hd1; by rewrite app_assoc|].
    by rewrite Pd2.
Qed.

Lemma cancellation_stops_lookups_witness :
  let s : Evergreen.pool :=
    {| Evergreen.distros := ["a"%string];
       Evergreen.workers := [Evergreen.Sending (Fixtures.cost "a" 120);
                             Evergreen.Got "b"%string;
                             Evergreen.Checked "c"%string];
       Evergreen.catcher := [];
       Evergreen.distroCosts := [];
       Evergreen.ctx := Evergreen.cancelledCtx;
       Evergreen.requests := [(Evergreen.live, "/distros"%string)] |} in
  let es := [Evergreen.Work 2; Evergreen.Work 0; Evergreen.Work 1; Evergreen.Work 0;
             Evergreen.Work 0; Evergreen.Work 2] in
  exists s',
    Evergreen.execution Fixtures.unmarshalDistroCost Fixtures.cancellable Fixtures.st
      Fixtures.dur s es s'
    /\ Evergreen.requests s'
       = [(Evergreen.live, "/distros"%string);
          (Evergreen.cancelledCtx,
           "/cost/distro/c?starttime=2024-03-01T00:00:00Z&duration=2h0m"%string)]
    /\ Evergreen.catcher s'
       = [Errors.Wrapped
            (Errors.Wrapped (Errors.New "context canceled")
               "error in GetDistroCost")
            "error when getting distro cost data from Evergreen"]
    /\ Evergreen.distroCosts s' = [Fixtures.cost "a" 120].
Proof.
  intros s es.
  assert (E : Evergreen.execution Fixtures.unmarshalDistroCost Fixtures.cancellable
                Fixtures.st Fixtures.dur s es
                (Evergreen.run Fixtures.unmarshalDistroCost Fixtures.cancellable
                   Fixtures.st Fixtures.dur 8 es s)).
  { repeat (eapply Evergreen.execution_step;
            [unfold Evergreen.finished; vm_compute; discriminate | vm_compute; reflexivity |]).
    apply Evergreen.execution_done. vm_compute. reflexivity. }
  eexists. split; [exact E|].
  destruct (cancellation_stops_lookups Fixtures.unmarshalDistroCost Fixtures.cancellable
              Fixtures.st Fixtures.dur s _ _ eq_refl E)
    as (new & caught & delivered & Hr & Pn & Hca & Pc & Hd & Pd).
  change (omap Evergreen.checkedOf (Evergreen.workers s)) with ["c"%string] in Pn, Pc.
  apply Permutation_singleton_r in Pn. subst new.
  split; [rewrite Hr; vm_compute; reflexivity|].
  split; vm_compute; reflexivity.
Defined.

(** ** The retrieval at its edges *)

(** X22.  When the listing is empty or the JSON null, [GetEvergreenDistrosData]
    returns the empty, non-nil list without an error after the one request
    for the listing, whatever the context and the scheduler. *)
Theorem GetEvergreenDistrosData_empty_listing
    (unmarshalDistros :
       list Byte.byte -> Errors.result (option (list (option Evergreen.Distro))))
    (unmarshalDistroCost : list Byte.byte -> Errors.result (option Evergreen.DistroCost))
    (rand_Perm : nat -> list nat) (c : Evergreen.Client) (ctx0 : Evergreen.Context)
    (sched : list Evergreen.event)
    (starttime : GoTime.Time) (duration : GoTime.Duration) (log : list Evergreen.Request)
    (listing : option (list (option Evergreen.Distro))) :
  Evergreen.link (Evergreen.respond c ctx0 "/distros") = ""%string ->
  Evergreen.err (Evergreen.respond c ctx0 "/distros") = None ->
  unmarshalDistros (Evergreen.data (Evergreen.respond c ctx0 "/distros")) = Errors.Ok listing ->
  listing = None \/ listing = Some [] ->
  Evergreen.GetEvergreenDistrosData unmarshalDistros unmarshalDistroCost rand_Perm c ctx0
    sched starttime duration log
  = (Evergreen.Returned (Some [], None), log ++ [(ctx0, "/distros"%string)]).
Proof.
  intros Hl He Hu Hempty.
  rewrite (GetEvergreenDistrosData_ok unmarshalDistros unmarshalDistroCost rand_Perm c ctx0
             sched starttime duration log listing [] Hl He Hu);
    [|destruct Hempty as [-> | ->]; reflexivity].
  by rewrite fetch_of_nothing.
Qed.

Lemma GetEvergreenDistrosData_empty_listing_witness :
  let nothing : Evergreen.Client :=
    {| Evergreen.respond := fun _ _ => Fixtures.answer "null" |} in
  Evergreen.GetEvergreenDistrosData Fixtures.unmarshalDistros Fixtures.unmarshalDistroCost
    Fixtures.inOrder nothing Evergreen.live [] Fixtures.march1 (2 * GoTime.Hour)%Z []
  = (Evergreen.Returned (Some [], None), [(Evergreen.live, "/distros"%string)]).
Proof.
  intros nothing.
  apply (GetEvergreenDistrosData_empty_listing Fixtures.unmarshalDistros
           Fixtures.unmarshalDistroCost Fixtures.inOrder nothing Evergreen.live []
           Fixtures.march1 (2 * GoTime.Hour)%Z [] None).
  - reflexivity.
  - reflexivity.
  - vm_compute. reflexivity.
  - by left.
Defined.

(** X23.  [GetEvergreenDistrosData] reads of the start time only the second
    and the location: start times that differ in their nanoseconds alone make
    the same requests and give the same result. *)
Theorem GetEvergreenDistrosData_start_whole_seconds
    (unmarshalDistros :
       list Byte.byte -> Errors.result (option (list (option Evergreen.Distro))))
    (unmarshalDistroCost : list Byte.byte -> Errors.result (option Evergreen.DistroCost))
    (rand_Perm : nat -> list nat) (c : Evergreen.Client) (ctx0 : Evergreen.Context)
    (sched : list Evergreen.event)
    (t1 t2 : GoTime.Time) (duration : GoTime.Duration) (log : list Evergreen.Request) :
  GoTime.unixSec t1 = GoTime.unixSec t2 ->
  GoTime.loc t1 = GoTime.loc t2 ->
  Evergreen.GetEvergreenDistrosData unmarshalDistros unmarshalDistroCost rand_Perm c ctx0
    sched t1 duration log
  = Evergreen.GetEvergreenDistrosData unmarshalDistros unmarshalDistroCost rand_Perm c ctx0
      sched t2 duration log.
Proof.
  intros Hs Hl. destruct t1 as [u1 n1 l1], t2 as [u2 n2 l2]. simpl in Hs, Hl. subst u2 l2.
  unfold Evergreen.GetEvergreenDistrosData.
  assert (E : GoTime.Time_Format {| GoTime.unixSec := u1; GoTime.nsec := n1; GoTime.loc := l1 |}
                "2006-01-02T15:04:05Z07:00"
              = GoTime.Time_Format {| GoTime.unixSec := u1; GoTime.nsec := n2; GoTime.loc := l1 |}
                  "2006-01-02T15:04:05Z07:00").
  { unfold GoTime.Time_Format. simpl. reflexivity. }
  cbv zeta. rewrite E. reflexivity.
Qed.

Lemma GetEvergreenDistrosData_start_whole_seconds_witness :
  let t1 := GoTime.Date 2024 3 1 0 0 0 0 GoTime.UTC in
  let t2 := GoTime.Date 2024 3 1 0 0 0 999999999 GoTime.UTC in
  Evergreen.GetEvergreenDistrosData Fixtures.unmarshalDistros Fixtures.unmarshalDistroCost
    Fixtures.inOrder Fixtures.scenario Evergreen.live [] t1 (2 * GoTime.Hour)%Z []
  = Evergreen.GetEvergreenDistrosData Fixtures.unmarshalDistros Fixtures.unmarshalDistroCost
      Fixtures.inOrder Fixtures.scenario Evergreen.live [] t2 (2 * GoTime.Hour)%Z [].
Proof.
  intros t1 t2.
  apply (GetEvergreenDistrosData_start_whole_seconds Fixtures.unmarshalDistros
           Fixtures.unmarshalDistroCost Fixtures.inOrder Fixtures.scenario Evergreen.live
           [] t1 t2 (2 * GoTime.Hour)%Z []); reflexivity.
Defined.

(** ** The hour of a tick *)

(** X24.  For a tick read in a local zone of fixed offset, [lastHour] is the
    start of the tick's hour: it is at most an hour before the tick and not
    after it, it has no minutes, seconds or nanoseconds, and taking the last
    hour of it gives it again. *)
Theorem lastHour_truncates (name : string) (offset : Z) (t : GoTime.Time) :
  GoTime.loc t = GoTime.FixedZone name offset ->
  let h := Operations.lastHour (GoTime.FixedZone name offset) t in
  (GoTime.unixSec h <= GoTime.unixSec t < GoTime.unixSec h + 3600)%Z
  /\ GoTime.nsec h = 0%Z
  /\ (GoTime.wall h mod 3600 = 0)%Z
  /\ GoTime.Time_Minute h = 0%Z /\ GoTime.Time_Second h = 0%Z
  /\ Operations.lastHour (GoTime.FixedZone name offset) h = h.
Proof.
  intros Hloc. cbv zeta.
  assert (Hw : GoTime.wall t = (GoTime.unixSec t + offset)%Z).
  { unfold GoTime.wall. rewrite Hloc. reflexivity. }
  assert (Hh : GoTime.wall {| GoTime.unixSec := 3600 * (GoTime.wall t / 3600) - offset;
                              GoTime.nsec := 0;
                              GoTime.loc := GoTime.FixedZone name offset |}
               = (3600 * (GoTime.wall t / 3600))%Z).
  { unfold GoTime.wall. simpl. lia. }
  assert (Hlh : Operations.lastHour (GoTime.FixedZone name offset) t
                = {| GoTime.unixSec := 3600 * (GoTime.wall t / 3600) - offset;
                     GoTime.nsec := 0;
                     GoTime.loc := GoTime.FixedZone name offset |}).
  { unfold Operations.lastHour. apply Date_of_fields. }
  rewrite Hlh. unfold GoTime.Time_Minute, GoTime.Time_Second. rewrite !Hh.
  split; [simpl; rewrite Hw; Z.div_mod_to_equations; lia|]. split; [reflexivity|].
  split; [Z.div_mod_to_equations; lia|].
  split; [Z.div_mod_to_equations; lia|].
  split; [Z.div_mod_to_equations; lia|].
  unfold Operations.lastHour. rewrite Date_of_fields, Hh.
  f_equal. Z.div_mod_to_equations; lia.
Qed.

Lemma lastHour_truncates_witness :
  let EST := GoTime.FixedZone "EST" (-18000) in
  let t := GoTime.Date 2024 3 1 9 17 5 250 EST in
  let h := Operations.lastHour EST t in
  (GoTime.unixSec h <= GoTime.unixSec t < GoTime.unixSec h + 3600)%Z
  /\ GoTime.nsec h = 0%Z
  /\ (GoTime.wall h mod 3600 = 0)%Z
  /\ GoTime.Time_Minute h = 0%Z /\ GoTime.Time_Second h = 0%Z
  /\ Operations.lastHour EST h = h.
Proof.
  intros EST t.
  exact (lastHour_truncates "EST" (-18000) t eq_refl).
Defined.

(** A tick read in a zone whose offset is not that of the local zone by
    whole hours: the hour rebuilt in the local zone lies after the tick. *)
Example lastHour_of_another_zone :
  let IST := GoTime.FixedZone "IST" 19800 in
  let t := GoTime.Date 2024 3 1 10 45 0 0 IST in
  (GoTime.unixSec t < GoTime.unixSec (Operations.lastHour GoTime.UTC t))%Z.
Proof. vm_compute. reflexivity. Qed.

Section HourFacts.
Import GoTime.
Local Open Scope Z_scope.

Lemma append_inj_length (a1 a2 r1 r2 : string) :
  String.length a1 = String.length a2 ->
  a1 +:+ r1 = a2 +:+ r2 -> a1 = a2 /\ r1 = r2.
Proof.
  revert a2. induction a1 as [|x a1 IH]; intros [|y a2] Hl H; try discriminate.
  - auto.
  - rewrite !append_cons in H. injection H as -> H. injection Hl as Hl.
    destruct (IH a2 Hl H) as [-> ->]. auto.
Qed.

Lemma appendInt_4 (x : Z) :
  0 <= x <= 9999 ->
  String.length (appendInt x 4) = 4%nat /\ digitsValue 0 (appendInt x 4) = x.
Proof.
  intros Hx.
  assert (H : forallb (fun n => Nat.eqb (String.length (appendInt (Z.of_nat n) 4)) 4
                                && Z.eqb (digitsValue 0 (appendInt (Z.of_nat n) 4))
                                         (Z.of_nat n))
                (seq 0 (Z.to_nat 10000)) = true) by (vm_compute; reflexivity).
  rewrite forallb_forall in H. specialize (H (Z.to_nat x)).
  rewrite Z2Nat.id in H by lia.
  destruct (andb_prop _ _ (H ltac:(apply in_seq; lia))) as [H1 H2].
  split; [by apply Nat.eqb_eq | by apply Z.eqb_eq].
Qed.

Lemma appendInt_2 (x : Z) :
  0 <= x <= 99 ->
  String.length (appendInt x 2) = 2%nat /\ digitsValue 0 (appendInt x 2) = x.
Proof.
  intros Hx.
  assert (H : forallb (fun n => Nat.eqb (String.length (appendInt (Z.of_nat n) 2)) 2
                                && Z.eqb (digitsValue 0 (appendInt (Z.of_nat n) 2))
                                         (Z.of_nat n))
                (seq 0 (Z.to_nat 100)) = true) by (vm_compute; reflexivity).
  rewrite forallb_forall in H. specialize (H (Z.to_nat x)).
  rewrite Z2Nat.id in H by lia.
  destruct (andb_prop _ _ (H ltac:(apply in_seq; lia))) as [H1 H2].
  split; [by apply Nat.eqb_eq | by apply Z.eqb_eq].
Qed.

Lemma Time_String_fields (t : Time) :
  exists tail,
    Time_String t
    = appendInt (Time_Year t) 4
      +:+ String "-" (appendInt (Time_Month t) 2
      +:+ String "-" (appendInt (Time_Day t) 2
      +:+ String " " (appendInt (Time_Hour t) 2 +:+ tail))).
Proof. eexists. unfold Time_String, Time_Format. simpl. reflexivity. Qed.

Ltac case_ifs :=
  repeat match goal with
         | |- context [if ?b then _ else _] => destruct b eqn:?
         end;
  rewrite ?Z.leb_le, ?Z.leb_gt, ?Z.ltb_lt, ?Z.ltb_ge in *.

Lemma civil_from_days_day (z : Z) :
  let '(y, m, d) := civil_from_days z in 1 <= d <= 31.
Proof. unfold civil_from_days. case_ifs; Z.div_mod_to_equations; lia. Qed.

Lemma Time_fields_range (t : Time) :
  1 <= Time_Month t <= 12 /\ 1 <= Time_Day t <= 31 /\ 0 <= Time_Hour t <= 23.
Proof.
  unfold Time_Month, Time_Day, Time_Hour.
  pose proof (civil_from_days_month (wall t / 86400)) as Hm.
  pose proof (civil_from_days_day (wall t / 86400)) as Hd.
  destruct (civil_from_days (wall t / 86400)) as [[y m] d]. simpl.
  split; [exact Hm|]. split; [exact Hd|]. Z.div_mod_to_equations; lia.
Qed.

(** Times that read the same year, month, day and hour are of one hour. *)
Lemma same_fields_same_bucket (t1 t2 : Time) :
  Time_Year t1 = Time_Year t2 -> Time_Month t1 = Time_Month t2 ->
  Time_Day t1 = Time_Day t2 -> Time_Hour t1 = Time_Hour t2 ->
  wall t1 / 3600 = wall t2 / 3600.
Proof.
  unfold Time_Year, Time_Month, Time_Day, Time_Hour. intros Hy Hm Hd Hh.
  pose proof (days_from_civil_from_days (wall t1 / 86400)) as H1.
  pose proof (days_from_civil_from_days (wall t2 / 86400)) as H2.
  destruct (civil_from_days (wall t1 / 86400)) as [[y1 m1] d1].
  destruct (civil_from_days (wall t2 / 86400)) as [[y2 m2] d2].
  simpl in *. subst y2 m2 d2. rewrite H1 in H2. clear H1.
  Z.div_mod_to_equations; lia.
Qed.

Lemma wall_of_bucket (name : string) (offset k : Z) :
  wall {| unixSec := 3600 * k - offset; nsec := 0; loc := FixedZone name offset |}
  = 3600 * k.
Proof. unfold wall. simpl. lia. Qed.

Lemma appendInt_inj (w : nat) (x y : Z) (r1 r2 : string) :
  (String.length (appendInt x w) = w /\ digitsValue 0 (appendInt x w) = x) ->
  (String.length (appendInt y w) = w /\ digitsValue 0 (appendInt y w) = y) ->
  appendInt x w +:+ r1 = appendInt y w +:+ r2 -> x = y /\ r1 = r2.
Proof.
  intros [Hlx Hx] [Hly Hy] H.
  apply append_inj_length in H as [H ->]; [|congruence].
  split; [|reflexivity]. rewrite <- Hx, <- Hy. by rewrite H.
Qed.

End HourFacts.

(** X25.  In a local zone of fixed offset, ticks of different wall-clock
    hours are given different job ids (for years of four digits): if two
    ticks get the same id, their wall clocks fall in the same hour. *)
Theorem jobID_tells_hours_apart (name : string) (offset : Z) (t1 t2 : GoTime.Time) :
  (0 <= GoTime.Time_Year t1 <= 9999)%Z ->
  (0 <= GoTime.Time_Year t2 <= 9999)%Z ->
  Operations.jobID (GoTime.FixedZone name offset) t1
  = Operations.jobID (GoTime.FixedZone name offset) t2 ->
  (GoTime.wall t1 / 3600 = GoTime.wall t2 / 3600)%Z.
Proof.
  intros Hy1 Hy2 H. unfold Operations.jobID, Operations.lastHour in H.
  rewrite !Date_of_fields in H.
  apply append_inj_length in H as [_ H]; [|reflexivity].
  pose proof (wall_of_bucket name offset (GoTime.wall t1 / 3600)) as W1.
  pose proof (wall_of_bucket name offset (GoTime.wall t2 / 3600)) as W2.
  revert H W1 W2.
  generalize ({| GoTime.unixSec := 3600 * (GoTime.wall t1 / 3600) - offset;
                 GoTime.nsec := 0; GoTime.loc := GoTime.FixedZone name offset |}).
  generalize ({| GoTime.unixSec := 3600 * (GoTime.wall t2 / 3600) - offset;
                 GoTime.nsec := 0; GoTime.loc := GoTime.FixedZone name offset |}).
  intros T2 T1 H W1 W2.
  assert (B1 : (GoTime.wall T1 / 3600 = GoTime.wall t1 / 3600)%Z).
  { rewrite W1. Z.div_mod_to_equations; lia. }
  assert (B2 : (GoTime.wall T2 / 3600 = GoTime.wall t2 / 3600)%Z).
  { rewrite W2. Z.div_mod_to_equations; lia. }
  rewrite <- B1, <- B2.
  destruct (same_bucket_same_fields T1 t1 B1) as (Y1 & _).
  destruct (same_bucket_same_fields T2 t2 B2) as (Y2 & _).
  rewrite <- Y1 in Hy1. rewrite <- Y2 in Hy2.
  destruct (Time_String_fields T1) as [tail1 E1].
  destruct (Time_String_fields T2) as [tail2 E2].
  rewrite E1, E2 in H.
  destruct (Time_fields_range T1) as (M1 & D1 & H1).
  destruct (Time_fields_range T2) as (M2 & D2 & H2).
  apply appendInt_inj in H as [Hy H]; [|apply appendInt_4; lia..].
  injection H as H.
  apply appendInt_inj in H as [Hm H]; [|apply appendInt_2; lia..].
  injection H as H.
  apply appendInt_inj in H as [Hd H]; [|apply appendInt_2; lia..].
  injection H as H.
  apply appendInt_inj in H as [Hh H]; [|apply appendInt_2; lia..].
  by apply same_fields_same_bucket.
Qed.

Lemma jobID_tells_hours_apart_witness :
  let EST := GoTime.FixedZone "EST" (-18000) in
  let t1 := GoTime.Date 2024 3 1 9 17 5 0 EST in
  let t2 := GoTime.Date 2024 3 1 9 59 59 999000000 EST in
  (GoTime.wall t1 / 3600 = GoTime.wall t2 / 3600)%Z.
Proof.
  intros EST t1 t2.
  apply (jobID_tells_hours_apart "EST" (-18000) t1 t2).
  - assert (H : GoTime.Time_Year t1 = 2024%Z) by (vm_compute; reflexivity).
    rewrite H. lia.
  - assert (H : GoTime.Time_Year t2 = 2024%Z) by (vm_compute; reflexivity).
    rewrite H. lia.
  - vm_compute. reflexivity.
Defined.

(** ** The [write] command *)

(** X26.  When the start time parses and the configuration loads but the
    configuration refuses the duration, [write] fails before a report is
    built: the message of its error is that of the refusal behind the
    descriptions of the two stages, the cause is the refusal's cause, and no
    file is written. *)
Theorem write_duration_refused
    (Environment : Type) (nilEnv : Environment) (CostConfig : Type)
    (GetDuration : CostConfig -> GoTime.Duration -> Errors.result GoTime.Duration)
    (fetchEvergreen :
       GoTime.Time -> GoTime.Duration -> CostConfig -> Errors.result Model.EvergreenCost)
    (collectProviders :
       GoTime.Time -> GoTime.Duration -> CostConfig
       -> Errors.result (list Model.CloudProvider))
    (now : GoTime.Time)
    (parseStart : string -> Errors.result GoTime.Time)
    (LoadCostConfig : string -> Errors.result CostConfig)
    (startFlag configFlag : string) (durationFlag : GoTime.Duration)
    (fs : Operations.FileSystem Environment)
    (start : GoTime.Time) (conf : CostConfig) (e : Errors.error) :
  parseStart startFlag = Errors.Ok start ->
  LoadCostConfig configFlag = Errors.Ok conf ->
  GetDuration conf durationFlag = Errors.Err e ->
  let '(err, fs') :=
    Operations.write nilEnv GetDuration fetchEvergreen collectProviders now parseStart
      LoadCostConfig startFlag configFlag durationFlag fs in
  option_map Errors.Error err
  = Some ("problem writing cost report: Problem with duration: " +:+ Errors.Error e)
  /\ option_map Errors.Cause err = Some (Errors.Cause e)
  /\ fs' = fs.
Proof.
  intros Hp Hl Hd. unfold Operations.write, Operations.writeCostReport.
  rewrite Hp, Hl, Hd. simpl. auto.
Qed.

Lemma write_duration_refused_witness :
  let '(err, fs') :=
    Operations.write Fixtures.nilEnv Fixtures.GetDuration Fixtures.fetchEvergreen
      Fixtures.collectProviders Fixtures.noon
      (fun _ => Errors.Ok Fixtures.march1) (fun _ => Errors.Ok tt)
      "2024-03-01" "cost.yaml" (30 * GoTime.Second)%Z Fixtures.emptyDisk in
  option_map Errors.Error err
  = Some "problem writing cost report: Problem with duration: duration too short"%string
  /\ option_map Errors.Cause err = Some (Errors.New "duration too short")
  /\ fs' = Fixtures.emptyDisk.
Proof.
  exact (write_duration_refused Fixtures.Env Fixtures.nilEnv unit Fixtures.GetDuration
           Fixtures.fetchEvergreen Fixtures.collectProviders Fixtures.noon
           (fun _ => Errors.Ok Fixtures.march1) (fun _ => Errors.Ok tt)
           "2024-03-01" "cost.yaml" (30 * GoTime.Second)%Z Fixtures.emptyDisk
           Fixtures.march1 tt (Errors.New "duration too short") eq_refl eq_refl eq_refl).
Defined.
